(** * Ledger service: the handlers of [handlers] over an in-memory store

    The service keeps one balance per customer and an append-only journal
    of credits and debits in a PostgreSQL database ([migrations/init.sql]).
    Four gin handlers do all the work: [CreateCustomer],
    [CreateTransaction], [GetBalance] and [GetTransactions].

    Conventions of the embedding.
    - The store keeps amounts in [DECIMAL(15,2)] columns: exact integers
      counting hundredths.  The handlers hold them in [float64].  The
      first part of the development gives the handlers the arithmetic of
      the store; it settles what does not turn on the arithmetic: routes,
      refusals, paging, ordering, what is rolled back, the invariants of
      the store.  The part [Float64] gives the two writing handlers the
      arithmetic of binary64, the conversions between [float64] and
      [numeric], and the one session all requests share; it settles what
      is written, what is answered and what requests served at the same
      time do to each other.
    - Go's [int] is a 64-bit integer, written as a [Z] whose wrap-around is
      spelled out ([int_wrap]).
    - The database is a record of the two tables; every SQL statement of
      the handlers is a function on it that enforces the constraints of the
      schema.
    - Whatever the environment decides during one request (the identifier
      drawn by [uuid.New], the clock of the store, a store call that fails,
      the row order the store picks among equal sort keys, the answer of
      the exchange-rate service) is an explicit input, [Env]. *)

From Stdlib Require Import ZArith Lia Ascii String.
From Stdlib Require Import Floats.SpecFloat.
From stdpp Require Import base decidable option list gmap strings sorting.

Local Open Scope Z_scope.

(** ** Go's [int] *)

Module GoInt.

Definition int_min : Z := - 2 ^ 63.
Definition int_max : Z := 2 ^ 63 - 1.

Definition in_range (z : Z) : Prop := int_min ≤ z ≤ int_max.

Definition in_rangeb (z : Z) : bool := (int_min <=? z) && (z <=? int_max).

(** Two's complement reduction of a mathematical result to 64 bits. *)
Definition int_wrap (z : Z) : Z := (z + 2 ^ 63) mod 2 ^ 64 - 2 ^ 63.

Definition add (a b : Z) : Z := int_wrap (a + b).
Definition sub (a b : Z) : Z := int_wrap (a - b).
Definition mul (a b : Z) : Z := int_wrap (a * b).
(** Integer division truncates toward zero. *)
Definition div (a b : Z) : Z := int_wrap (a ÷ b).

End GoInt.

(** ** Identifiers: [uuid.UUID] and [uuid.Parse] *)

(** A UUID is its 128-bit value. *)
Definition UUID : Type := N.

Module uuid.

Local Open Scope N_scope.

Definition xvalue (c : ascii) : option N :=
  let n := N_of_ascii c in
  if (48 <=? n) && (n <=? 57) then Some (n - 48)
  else if (97 <=? n) && (n <=? 102) then Some (n - 87)
  else if (65 <=? n) && (n <=? 70) then Some (n - 55)
  else None.

Definition xtob (x1 x2 : ascii) : option N :=
  match xvalue x1, xvalue x2 with
  | Some b1, Some b2 => Some (b1 * 16 + b2)
  | _, _ => None
  end.

(** The bytes of a run of hexadecimal digit pairs, most significant first. *)
Fixpoint hex_bytes (acc : N) (s : string) : option N :=
  match s with
  | EmptyString => Some acc
  | String x1 (String x2 s') =>
      match xtob x1 x2 with
      | Some b => hex_bytes (acc * 256 + b) s'
      | None => None
      end
  | String _ EmptyString => None
  end.

Definition lower (c : ascii) : ascii :=
  let n := N_of_ascii c in
  if (65 <=? n) && (n <=? 90) then ascii_of_N (n + 32) else c.

Fixpoint to_lower (s : string) : string :=
  match s with
  | EmptyString => EmptyString
  | String c s' => String (lower c) (to_lower s')
  end.

Definition is_hyphen (o : option ascii) : bool :=
  match o with
  | Some c => Ascii.eqb c "-"
  | None => false
  end.

(** [xxxxxxxx-xxxx-xxxx-xxxx-xxxxxxxxxxxx], read from the first 36 bytes. *)
Definition parse_hyphenated (s : string) : option UUID :=
  if is_hyphen (String.get 8 s) && is_hyphen (String.get 13 s)
     && is_hyphen (String.get 18 s) && is_hyphen (String.get 23 s)
  then hex_bytes 0 (substring 0 8 s ++ substring 9 4 s ++ substring 14 4 s
                    ++ substring 19 4 s ++ substring 24 12 s)%string
  else None.

(** The four textual forms are told apart by length alone. *)
Definition Parse (s : string) : option UUID :=
  match String.length s with
  | 36%nat => parse_hyphenated s
  | 45%nat =>
      if String.eqb (to_lower (substring 0 9 s)) "urn:uuid:"
      then parse_hyphenated (substring 9 36 s)
      else None
  | 38%nat => parse_hyphenated (substring 1 37 s)
  | 32%nat => hex_bytes 0 s
  | _ => None
  end.

End uuid.

(** ** [fmt.Sscanf] with the verb [%d]

    The input is read rune by rune.  Leading white space is skipped (a
    newline is an error), one sign is accepted, the longest run of decimal
    digits is the token, and the token must be a base-10 integer of 64
    bits; what follows the token is ignored.  White space is what
    [fmt.isSpace] lists: the ASCII blanks and the Unicode spaces U+0085,
    U+00A0, U+1680, U+2000 to U+200A, U+2028, U+2029, U+202F, U+205F and
    U+3000, met here in their UTF-8 encoding.  A byte sequence that is not
    the encoding of one of these is no white space, valid or not. *)

Module fmt.

Definition isNewline (c : ascii) : bool := (N_of_ascii c =? 10)%N.

(** [isSpace] on the runes below U+0080: tab, vertical tab, form feed,
    carriage return and space; the line feed is dealt with before. *)
Definition isSpace (c : ascii) : bool :=
  let n := N_of_ascii c in
  ((n =? 32) || (n =? 9) || (n =? 11) || (n =? 12) || (n =? 13))%N.

(** [isSpace] on the runes of two bytes: U+0085 and U+00A0. *)
Definition isSpace2 (c1 c2 : ascii) : bool :=
  let n1 := N_of_ascii c1 in
  let n2 := N_of_ascii c2 in
  ((n1 =? 194) && ((n2 =? 133) || (n2 =? 160)))%N.

(** [isSpace] on the runes of three bytes: U+1680, U+2000 to U+200A,
    U+2028, U+2029, U+202F, U+205F and U+3000. *)
Definition isSpace3 (c1 c2 c3 : ascii) : bool :=
  let n1 := N_of_ascii c1 in
  let n2 := N_of_ascii c2 in
  let n3 := N_of_ascii c3 in
  (((n1 =? 225) && (n2 =? 154) && (n3 =? 128))
   || ((n1 =? 226) && (n2 =? 128)
       && (((128 <=? n3) && (n3 <=? 138))
           || (n3 =? 168) || (n3 =? 169) || (n3 =? 175)))
   || ((n1 =? 226) && (n2 =? 129) && (n3 =? 159))
   || ((n1 =? 227) && (n2 =? 128) && (n3 =? 128)))%N.

Definition isDigit (c : ascii) : bool :=
  let n := N_of_ascii c in ((48 <=? n) && (n <=? 57))%N.

Fixpoint SkipSpace (s : string) : option string :=
  match s with
  | EmptyString => Some EmptyString
  | String c1 s1 =>
      if isNewline c1 then None
      else if isSpace c1 then SkipSpace s1
      else
        match s1 with
        | String c2 s2 =>
            if isSpace2 c1 c2 then SkipSpace s2
            else
              match s2 with
              | String c3 s3 =>
                  if isSpace3 c1 c2 c3 then SkipSpace s3 else Some s
              | EmptyString => Some s
              end
        | EmptyString => Some s
        end
  end.

(** The token of [scanNumber]: the leading decimal digits. *)
Fixpoint scanNumber (s : string) : list ascii :=
  match s with
  | EmptyString => []
  | String c s' => if isDigit c then c :: scanNumber s' else []
  end.

(** [strconv.ParseInt(tok, 10, 64)] on the unsigned part of the token. *)
Fixpoint digits_value (acc : Z) (tok : list ascii) : Z :=
  match tok with
  | [] => acc
  | c :: tok' => digits_value (acc * 10 + (Z.of_N (N_of_ascii c) - 48)) tok'
  end.

Definition scanInt (s : string) : option Z :=
  match SkipSpace s with
  | None | Some EmptyString => None
  | Some (String c s' as t) =>
      let '(negative, rest) :=
        if Ascii.eqb c "-" then (true, s')
        else if Ascii.eqb c "+" then (false, s')
        else (false, t) in
      match scanNumber rest with
      | [] => None
      | tok =>
          let v := digits_value 0 tok in
          let i := if negative then - v else v in
          if GoInt.in_rangeb i then Some i else None
      end
  end.

(** [fmt.Sscanf(s, "%d", &n)]: the scanned value, or [None] for an error. *)
Definition Sscanf_d (s : string) : option Z := scanInt s.

End fmt.

(** ** The store: the two tables of [migrations/init.sql] *)

(** Instants are microseconds since the epoch, the resolution of
    [TIMESTAMP WITH TIME ZONE]. *)
Definition Time : Type := Z.

Record CustomerRow := {
  row_name : string;
  row_balance : Z
}.

Record TransactionRow := {
  tx_id : UUID;
  tx_customer_id : UUID;
  tx_type : string;
  tx_amount : Z;
  tx_created_at : Time
}.

#[global] Instance CustomerRow_eq_dec : EqDecision CustomerRow.
Proof. solve_decision. Defined.

#[global] Instance TransactionRow_eq_dec : EqDecision TransactionRow.
Proof. solve_decision. Defined.

(** [customers] is keyed by its primary key; [transactions] lists the rows
    in the order they were inserted. *)
Record DB := {
  customers : gmap UUID CustomerRow;
  transactions : list TransactionRow
}.

Definition empty_db : DB := {| customers := ∅; transactions := [] |}.

Inductive DBError :=
  | ErrNoRows          (* pgx.ErrNoRows *)
  | ErrConstraint      (* the statement violates the schema *)
  | ErrUnavailable.    (* the store could not be reached *)

(** [ORDER BY created_at DESC]: no row is followed by a newer one. *)
Definition newer_first (r1 r2 : TransactionRow) : Prop :=
  tx_created_at r2 ≤ tx_created_at r1.

(** A plan for the sorted query: an ordering of the selected rows that is
    sorted newest first.  SQL leaves the order of rows with equal
    [created_at] to the plan. *)
Record Planner := {
  order_by_created_at_desc : list TransactionRow → list TransactionRow;
  order_by_permutation : ∀ l, order_by_created_at_desc l ≡ₚ l;
  order_by_sorted : ∀ l, Sorted newer_first (order_by_created_at_desc l)
}.

Module Store.

(** The statements below take a balance or an amount as the column holds
    it, in hundredths; what a [float64] argument comes to in hundredths is
    [Float64.Numeric]. *)

(** [DECIMAL(15,2)]: fewer than 10^15 hundredths in absolute value. *)
Definition decimal_15_2 (v : Z) : bool := (- 10 ^ 15 <? v) && (v <? 10 ^ 15).

(** Text.  A Go string decoded from JSON is valid UTF-8, and a character
    of such a text starts at every byte that is not a continuation byte
    [10xxxxxx]. *)
Definition is_continuation (c : ascii) : bool :=
  let n := N_of_ascii c in ((128 <=? n) && (n <? 192))%N.

(** The number of characters of a text. *)
Fixpoint chars (s : string) : nat :=
  match s with
  | EmptyString => 0%nat
  | String c s' => if is_continuation c then chars s' else S (chars s')
  end.

(** The first [n] characters of a text and what follows them. *)
Fixpoint split_chars (n : nat) (s : string) : string * string :=
  match s with
  | EmptyString => (EmptyString, EmptyString)
  | String c s' =>
      if is_continuation c then
        let '(kept, excess) := split_chars n s' in (String c kept, excess)
      else
        match n with
        | O => (EmptyString, s)
        | S n' =>
            let '(kept, excess) := split_chars n' s' in (String c kept, excess)
        end
  end.

Fixpoint all_blank (s : string) : bool :=
  match s with
  | EmptyString => true
  | String c s' => (N_of_ascii c =? 32)%N && all_blank s'
  end.

Fixpoint has_nul (s : string) : bool :=
  match s with
  | EmptyString => false
  | String c s' => (N_of_ascii c =? 0)%N || has_nul s'
  end.

(** [VARCHAR(n)]: the text as the column keeps it.  A text with a zero
    byte is refused.  A text of more than [n] characters is cut to [n]
    when all the characters in excess are blanks, and refused otherwise. *)
Definition varchar (n : nat) (s : string) : option string :=
  if has_nul s then None
  else
    let '(kept, excess) := split_chars n s in
    if all_blank excess then Some kept else None.

Definition owned_by (id : UUID) (r : TransactionRow) : bool :=
  (tx_customer_id r =? id)%N.

(** [INSERT INTO customers (id, name, balance) VALUES ($1, $2, $3)] *)
Definition insert_customer (id : UUID) (name : string) (balance : Z)
    (d : DB) : option DB :=
  match customers d !! id with
  | Some _ => None                                   (* PRIMARY KEY *)
  | None =>
      match varchar 255 name with
      | None => None
      | Some stored =>
          if decimal_15_2 balance && (0 <=? balance)
          then Some {| customers := <[id := {| row_name := stored;
                                               row_balance := balance |}]>
                                      (customers d);
                       transactions := transactions d |}
          else None
      end
  end.

(** [SELECT balance FROM customers WHERE id = $1], with or without
    [FOR UPDATE]. *)
Definition select_balance (id : UUID) (d : DB) : option Z :=
  row_balance <$> customers d !! id.

(** [UPDATE customers SET balance = $1 WHERE id = $2]; a statement that
    matches no row succeeds and changes nothing. *)
Definition update_balance (balance : Z) (id : UUID) (d : DB) : option DB :=
  match customers d !! id with
  | None => Some d
  | Some row =>
      if decimal_15_2 balance && (0 <=? balance)
      then Some {| customers := <[id := {| row_name := row_name row;
                                           row_balance := balance |}]>
                                  (customers d);
                   transactions := transactions d |}
      else None
  end.

(** [INSERT INTO transactions (id, customer_id, type, amount)
    VALUES ($1, $2, $3, $4)]; [created_at] defaults to the clock. *)
Definition insert_transaction (id customer_id : UUID) (type : string)
    (amount : Z) (now : Time) (d : DB) : option DB :=
  if forallb (λ r, negb (tx_id r =? id)%N) (transactions d)    (* PRIMARY KEY *)
     && bool_decide (is_Some (customers d !! customer_id))     (* REFERENCES *)
     && (String.eqb type "credit" || String.eqb type "debit")
     && decimal_15_2 amount && (0 <? amount)
  then Some {| customers := customers d;
               transactions := transactions d ++
                 [{| tx_id := id; tx_customer_id := customer_id;
                     tx_type := type; tx_amount := amount;
                     tx_created_at := now |}] |}
  else None.

(** [SELECT EXISTS(SELECT 1 FROM customers WHERE id = $1)] *)
Definition select_exists (id : UUID) (d : DB) : bool :=
  bool_decide (is_Some (customers d !! id)).

(** The rows of [... FROM transactions WHERE customer_id = $1]. *)
Definition journal (id : UUID) (d : DB) : list TransactionRow :=
  List.filter (owned_by id) (transactions d).

(** [SELECT COUNT( * ) FROM transactions WHERE customer_id = $1] *)
Definition select_count (id : UUID) (d : DB) : Z :=
  Z.of_nat (length (journal id d)).

(** [OFFSET n] and [LIMIT n] on a row sequence. *)
Fixpoint skip_rows {A} (n : Z) (l : list A) : list A :=
  match l with
  | [] => []
  | _ :: l' => if n <=? 0 then l else skip_rows (n - 1) l'
  end.

Fixpoint first_rows {A} (n : Z) (l : list A) : list A :=
  match l with
  | [] => []
  | x :: l' => if n <=? 0 then [] else x :: first_rows (n - 1) l'
  end.

(** [SELECT id, type, amount, created_at FROM transactions
    WHERE customer_id = $1 ORDER BY created_at DESC LIMIT $2 OFFSET $3];
    the store refuses a negative [LIMIT] or [OFFSET]. *)
Definition select_page (pl : Planner) (id : UUID) (limit offset : Z)
    (d : DB) : option (list TransactionRow) :=
  if (limit <? 0) || (offset <? 0) then None
  else Some (first_rows limit
               (skip_rows offset
                  (order_by_created_at_desc pl (journal id d)))).

End Store.

(** ** What the environment decides during one request *)

(** What [http.Get] on the exchange-rate service yields: no response, a
    response that does not decode, or the decoded [result] and
    [conversion_result] fields. *)
Inductive ApiAnswer :=
  | ApiUnreachable (err : string)
  | ApiUndecodable (err : string)
  | ApiDecoded (result : string) (conversion_result : Z).

Record Env := {
  (** the identifier [uuid.New] draws *)
  new_uuid : UUID;
  (** [CURRENT_TIMESTAMP] of the store *)
  now : Time;
  (** [unavailable k]: the [k]-th store call of the request fails for a
      reason outside the data (connection lost, context cancelled) *)
  unavailable : nat → bool;
  (** the plan the store picks for the sorted query of this request; the
      next query, with another [LIMIT] or [OFFSET], may get another one *)
  planner : Planner;
  (** what comes back from the exchange-rate service for
      [pair/from/to/amount] *)
  exchange_rate_api : string → string → Z → ApiAnswer
}.

(** ** Requests and responses *)

Inductive Status :=
  | StatusOK | StatusCreated
  | StatusBadRequest | StatusNotFound | StatusInternalServerError.

#[global] Instance Status_eq_dec : EqDecision Status.
Proof. solve_decision. Defined.

(** The body of [POST /customers], decoded, its amounts counted in
    hundredths. *)
Record Customer := {
  ID : UUID;
  Name : string;
  Balance : Z;
  InitialBalance : Z
}.

(** The body of [POST /transactions], decoded, its amount counted in
    hundredths. *)
Record Transaction := {
  TransactionID : UUID;
  CustomerID : UUID;
  Type_ : string;
  Amount : Z
}.

(** One element of the array [GetTransactions] answers with.  The
    timestamp is rendered with [time.RFC3339], which keeps whole seconds. *)
Record TransactionJSON := {
  j_transaction_id : UUID;
  j_type : string;
  j_amount : Z;
  j_timestamp : Z
}.

#[global] Instance TransactionJSON_eq_dec : EqDecision TransactionJSON.
Proof. solve_decision. Defined.

Inductive Body :=
  | ErrorResponse (error : string)
  | CustomerResponse (customer_id : UUID) (name : string) (balance : Z)
  | TransactionResponse (transaction_id : UUID) (status : string) (balance : Z)
  | BalanceJSON (customer_id : UUID) (balance : Z) (currency : string)
  | TransactionsJSON (rows : list TransactionJSON).

Record PageHeaders := {
  X_Total_Count : Z;
  X_Page : Z;
  X_Page_Size : Z;
  X_Total_Pages : Z
}.

Record Response := {
  code : Status;
  body : Body;
  headers : option PageHeaders
}.

(** [gin.Context]: the path parameters the router bound and the query
    string. *)
Record Context := {
  Params : list (string * string);
  QueryArgs : list (string * string)
}.

Fixpoint lookup_arg (key : string) (l : list (string * string))
    : option string :=
  match l with
  | [] => None
  | (k, v) :: l' => if String.eqb k key then Some v else lookup_arg key l'
  end.

(** [c.Param(key)]: the empty string when the route binds no such name. *)
Definition Param (c : Context) (key : string) : string :=
  default EmptyString (lookup_arg key (Params c)).

Definition Query (c : Context) (key : string) : string :=
  default EmptyString (lookup_arg key (QueryArgs c)).

Definition DefaultQuery (c : Context) (key defaultValue : string) : string :=
  default defaultValue (lookup_arg key (QueryArgs c)).

(** ** Handlers as computations over one connection

    A handler issues store calls one after the other and leaves through
    [c.JSON(...)] followed by [return].  The session keeps what is
    committed, the working copy of the open [pgx.Tx] and the log of the
    store calls issued so far. *)

Inductive Call :=
  | CallBegin
  | CallCommit
  | CallInsertCustomer (id : UUID) (name : string) (balance : Z)
  | CallSelectBalance (id : UUID)
  | CallSelectBalanceForUpdate (id : UUID)
  | CallUpdateBalance (balance : Z) (id : UUID)
  | CallInsertTransaction (id customer_id : UUID) (type : string) (amount : Z)
  | CallSelectExists (id : UUID)
  | CallSelectCount (id : UUID)
  | CallSelectPage (id : UUID) (limit offset : Z).

Record Session := {
  committed : DB;
  pending : option DB;
  log : list Call
}.

Definition Handler (A : Type) : Type := Session → (Response + A) * Session.

#[global] Instance Handler_ret : MRet Handler := λ A a s, (inr a, s).

#[global] Instance Handler_bind : MBind Handler := λ A B k m s,
  match m s with
  | (inl r, s') => (inl r, s')
  | (inr a, s') => k a s'
  end.

(** [c.JSON(status, body); return], after the headers set so far. *)
Definition reply {A} (h : option PageHeaders) (st : Status) (b : Body)
    : Handler A :=
  λ s, (inl {| code := st; body := b; headers := h |}, s).

Definition JSON {A} (st : Status) (b : Body) : Handler A := reply None st b.

(** One store call: it is logged, fails when the store is unavailable at
    that point, and otherwise runs against the session. *)
Definition store_call {A} (e : Env) (c : Call)
    (run : Session → DBError + A * Session) : Handler (DBError + A) :=
  λ s,
    let s1 := {| committed := committed s; pending := pending s;
                 log := log s ++ [c] |} in
    if unavailable e (length (log s)) then (inr (inl ErrUnavailable), s1)
    else match run s1 with
         | inl err => (inr (inl err), s1)
         | inr (a, s2) => (inr (inr a), s2)
         end.

(** Statements sent on the connection itself take effect at once. *)
Definition db_write (f : DB → option DB) (s : Session)
    : DBError + unit * Session :=
  match f (committed s) with
  | Some d => inr ((), {| committed := d; pending := pending s; log := log s |})
  | None => inl ErrConstraint
  end.

Definition db_read {A} (f : DB → DBError + A) (s : Session)
    : DBError + A * Session :=
  match f (committed s) with
  | inr a => inr (a, s)
  | inl err => inl err
  end.

(** Statements sent on a [pgx.Tx] act on its working copy. *)
Definition tx_write (f : DB → option DB) (s : Session)
    : DBError + unit * Session :=
  match pending s with
  | None => inl ErrUnavailable
  | Some w =>
      match f w with
      | Some d => inr ((), {| committed := committed s; pending := Some d;
                              log := log s |})
      | None => inl ErrConstraint
      end
  end.

Definition tx_read {A} (f : DB → DBError + A) (s : Session)
    : DBError + A * Session :=
  match pending s with
  | None => inl ErrUnavailable
  | Some w =>
      match f w with
      | inr a => inr (a, s)
      | inl err => inl err
      end
  end.

Definition db_Begin (e : Env) : Handler (DBError + unit) :=
  store_call e CallBegin
    (λ s, inr ((), {| committed := committed s;
                      pending := Some (committed s); log := log s |})).

Definition tx_Commit (e : Env) : Handler (DBError + unit) :=
  store_call e CallCommit
    (λ s, match pending s with
          | Some w => inr ((), {| committed := w; pending := None;
                                  log := log s |})
          | None => inl ErrUnavailable
          end).

Definition balance_or_no_rows (id : UUID) (d : DB) : DBError + Z :=
  match Store.select_balance id d with
  | Some b => inr b
  | None => inl ErrNoRows
  end.

Definition db_Exec_insert_customer (e : Env) (id : UUID) (name : string)
    (balance : Z) : Handler (DBError + unit) :=
  store_call e (CallInsertCustomer id name balance)
    (db_write (Store.insert_customer id name balance)).

Definition db_QueryRow_balance (e : Env) (id : UUID) : Handler (DBError + Z) :=
  store_call e (CallSelectBalance id) (db_read (balance_or_no_rows id)).

Definition tx_QueryRow_balance_for_update (e : Env) (id : UUID)
    : Handler (DBError + Z) :=
  store_call e (CallSelectBalanceForUpdate id)
    (tx_read (balance_or_no_rows id)).

Definition tx_Exec_update_balance (e : Env) (balance : Z) (id : UUID)
    : Handler (DBError + unit) :=
  store_call e (CallUpdateBalance balance id)
    (tx_write (Store.update_balance balance id)).

Definition tx_Exec_insert_transaction (e : Env) (id customer_id : UUID)
    (type : string) (amount : Z) : Handler (DBError + unit) :=
  store_call e (CallInsertTransaction id customer_id type amount)
    (tx_write (Store.insert_transaction id customer_id type amount (now e))).

Definition db_QueryRow_exists (e : Env) (id : UUID)
    : Handler (DBError + bool) :=
  store_call e (CallSelectExists id)
    (db_read (λ d, inr (Store.select_exists id d))).

Definition db_QueryRow_count (e : Env) (id : UUID) : Handler (DBError + Z) :=
  store_call e (CallSelectCount id)
    (db_read (λ d, inr (Store.select_count id d))).

Definition db_Query_page (e : Env) (id : UUID) (limit offset : Z)
    : Handler (DBError + list TransactionRow) :=
  store_call e (CallSelectPage id limit offset)
    (db_read (λ d, match Store.select_page (planner e) id limit offset d with
                   | Some rows => inr rows
                   | None => inl ErrConstraint
                   end)).

(** Running a handler on a request: the response, the committed store
    afterwards and the store calls made.  A transaction still open when
    the handler returns is rolled back by the deferred [tx.Rollback]: its
    working copy is dropped. *)
Definition serve (h : Handler Empty_set) (d : DB)
    : Response * DB * list Call :=
  match h {| committed := d; pending := None; log := [] |} with
  | (inl r, s) => (r, committed s, log s)
  | (inr v, _) => Empty_set_rect _ v
  end.

(** ** Request binding

    [c.ShouldBindJSON] decodes the body ([None]: it does not decode into
    the struct) and then checks the [binding] tags. *)

Definition ShouldBindJSON {A} (binding : A → bool) (decoded : option A)
    : option A :=
  match decoded with
  | Some v => if binding v then Some v else None
  | None => None
  end.

(** [Name: binding:"required"] *)
Definition Customer_binding (c : Customer) : bool :=
  negb (String.eqb (Name c) "").

(** [Type: binding:"required,oneof=credit debit"],
    [Amount: binding:"required,gt=0"] *)
Definition Transaction_binding (t : Transaction) : bool :=
  negb (String.eqb (Type_ t) "")
  && (String.eqb (Type_ t) "credit" || String.eqb (Type_ t) "debit")
  && negb (Amount t =? 0) && (0 <? Amount t).

(** ** The handlers *)

Definition CreateCustomer (e : Env) (decoded : option Customer)
    : Handler Empty_set :=
  match ShouldBindJSON Customer_binding decoded with
  | None =>
      JSON StatusBadRequest (ErrorResponse
        "Invalid input: Name is required and balance must be non-negative")
  | Some customer =>
      (* Use initial_balance if provided, otherwise use balance *)
      let balance := InitialBalance customer in
      let balance := if balance =? 0 then Balance customer else balance in
      if balance <? 0 then
        JSON StatusBadRequest (ErrorResponse
          "Invalid input: Balance must be non-negative")
      else
        let customer := {| ID := new_uuid e; Name := Name customer;
                           Balance := balance;
                           InitialBalance := InitialBalance customer |} in
        r ← db_Exec_insert_customer e (ID customer) (Name customer)
              (Balance customer);
        match r with
        | inl _ =>
            JSON StatusInternalServerError
              (ErrorResponse "Failed to create customer")
        | inr _ =>
            JSON StatusCreated
              (CustomerResponse (ID customer) (Name customer)
                 (Balance customer))
        end
  end.

Definition CreateTransaction (e : Env) (decoded : option Transaction)
    : Handler Empty_set :=
  match ShouldBindJSON Transaction_binding decoded with
  | None =>
      JSON StatusBadRequest (ErrorResponse
        "Invalid input: customer_id, type (credit/debit), and amount (> 0) are required")
  | Some transaction =>
      (* Start transaction *)
      tx ← db_Begin e;
      match tx with
      | inl _ =>
          JSON StatusInternalServerError
            (ErrorResponse "Failed to start transaction")
      | inr _ =>
      (* Get current balance with row lock *)
      r ← tx_QueryRow_balance_for_update e (CustomerID transaction);
      match r with
      | inl ErrNoRows =>
          JSON StatusNotFound (ErrorResponse "Customer not found")
      | inl _ =>
          JSON StatusInternalServerError
            (ErrorResponse "Failed to get current balance")
      | inr currentBalance =>
      (* Calculate new balance *)
      newBalance ←
        (if String.eqb (Type_ transaction) "debit" then
           if currentBalance <? Amount transaction then
             JSON StatusBadRequest (ErrorResponse "Insufficient balance")
           else mret (currentBalance - Amount transaction)
         else mret (currentBalance + Amount transaction));
      (* Update customer balance *)
      r ← tx_Exec_update_balance e newBalance (CustomerID transaction);
      match r with
      | inl _ =>
          JSON StatusInternalServerError
            (ErrorResponse "Failed to update balance")
      | inr _ =>
      (* Insert transaction *)
      let id := new_uuid e in
      r ← tx_Exec_insert_transaction e id (CustomerID transaction)
            (Type_ transaction) (Amount transaction);
      match r with
      | inl _ =>
          JSON StatusInternalServerError
            (ErrorResponse "Failed to create transaction")
      | inr _ =>
      (* Commit transaction *)
      r ← tx_Commit e;
      match r with
      | inl _ =>
          JSON StatusInternalServerError
            (ErrorResponse "Failed to commit transaction")
      | inr _ =>
          JSON StatusCreated (TransactionResponse id "success" newBalance)
      end end end end end
  end.

Definition isValidCurrency (currency : string) : bool :=
  String.eqb currency "USD" || String.eqb currency "EUR"
  || String.eqb currency "GBP".

(** [getExchangeRate]: one call to the exchange-rate service; an error
    text, or the [conversion_result] of an answer whose [result] is
    [success]. *)
Definition getExchangeRate (e : Env) (fromCurrency toCurrency : string)
    (amount : Z) : string + Z :=
  match exchange_rate_api e fromCurrency toCurrency amount with
  | ApiUnreachable err =>
      inl ("failed to call exchange rate API: " ++ err)%string
  | ApiUndecodable err =>
      inl ("failed to decode exchange rate response: " ++ err)%string
  | ApiDecoded result conversion_result =>
      if negb (String.eqb result "success")
      then inl ("exchange rate API error: " ++ result)%string
      else inr conversion_result
  end.

Definition GetBalance (e : Env) (c : Context) : Handler Empty_set :=
  match uuid.Parse (Param c "id") with
  | None => JSON StatusBadRequest (ErrorResponse "Invalid customer ID")
  | Some customerID =>
      (* Get target currency from query parameter *)
      let targetCurrency := DefaultQuery c "currency" "USD" in
      if negb (isValidCurrency targetCurrency) then
        JSON StatusBadRequest (ErrorResponse "Invalid currency code")
      else
        (* Get customer's current balance *)
        r ← db_QueryRow_balance e customerID;
        match r with
        | inl ErrNoRows =>
            JSON StatusNotFound (ErrorResponse "Customer not found")
        | inl _ =>
            JSON StatusInternalServerError (ErrorResponse "Database error")
        | inr currentBalance =>
            (* Convert balance using Forex API *)
            match getExchangeRate e "USD" targetCurrency currentBalance with
            | inl err => JSON StatusInternalServerError (ErrorResponse err)
            | inr convertedBalance =>
                JSON StatusOK
                  (BalanceJSON customerID convertedBalance targetCurrency)
            end
        end
  end.

(** [timestamp.Format(time.RFC3339)]: the whole second of the instant. *)
Definition Format_RFC3339 (t : Time) : Z := t / 1000000.

Definition render (r : TransactionRow) : TransactionJSON :=
  {| j_transaction_id := tx_id r; j_type := tx_type r;
     j_amount := tx_amount r;
     j_timestamp := Format_RFC3339 (tx_created_at r) |}.

(** A pagination parameter: the default when the query has none, else the
    scanned integer, refused below 1. *)
Definition pagination_arg (c : Context) (key : string) (defaultValue : Z)
    (complaint : string) : Handler Z :=
  let p := Query c key in
  if String.eqb p "" then mret defaultValue
  else match fmt.Sscanf_d p with
       | None => JSON StatusBadRequest (ErrorResponse complaint)
       | Some n =>
           if n <? 1 then JSON StatusBadRequest (ErrorResponse complaint)
           else mret n
       end.

(** The rows the store returns are rows of the schema, so [rows.Scan]
    does not fail and its error branch is not taken. *)
Definition GetTransactions (e : Env) (c : Context) : Handler Empty_set :=
  match uuid.Parse (Param c "customer_id") with
  | None => JSON StatusBadRequest (ErrorResponse "Invalid customer ID")
  | Some customerID =>
      (* Get pagination parameters with defaults *)
      page ← pagination_arg c "page" 1 "Invalid page number";
      pageSize ← pagination_arg c "page_size" 10 "Invalid page size";
      (* Verify customer exists *)
      r ← db_QueryRow_exists e customerID;
      match r with
      | inl _ =>
          JSON StatusInternalServerError
            (ErrorResponse "Failed to verify customer")
      | inr false =>
          JSON StatusNotFound (ErrorResponse "Customer not found")
      | inr true =>
      (* Get total count *)
      r ← db_QueryRow_count e customerID;
      match r with
      | inl _ =>
          JSON StatusInternalServerError
            (ErrorResponse "Failed to get total count")
      | inr totalCount =>
      (* Calculate offset *)
      let offset := GoInt.mul (GoInt.sub page 1) pageSize in
      r ← db_Query_page e customerID pageSize offset;
      match r with
      | inl _ =>
          JSON StatusInternalServerError
            (ErrorResponse "Failed to fetch transactions")
      | inr rows =>
          let transactions := render <$> rows in
          (* Add pagination metadata in headers *)
          reply (Some {| X_Total_Count := totalCount;
                         X_Page := page;
                         X_Page_Size := pageSize;
                         X_Total_Pages :=
                           GoInt.div
                             (GoInt.sub (GoInt.add totalCount pageSize) 1)
                             pageSize |})
            StatusOK (TransactionsJSON transactions)
      end end end
  end.

(** ** The routes of [main] *)

(** [router.GET("/customers/:customer_id/balance", handlers.GetBalance)] *)
Definition route_balance (e : Env) (segment : string)
    (query : list (string * string)) : Handler Empty_set :=
  GetBalance e {| Params := [("customer_id"%string, segment)];
                  QueryArgs := query |}.

(** [router.GET("/customers/:customer_id/transactions",
    handlers.GetTransactions)] *)
Definition route_transactions (e : Env) (segment : string)
    (query : list (string * string)) : Handler Empty_set :=
  GetTransactions e {| Params := [("customer_id"%string, segment)];
                       QueryArgs := query |}.

(** ** Two query plans

    Both sort by [created_at] descending; they differ in the order they
    give to rows with equal timestamps.  The first sorts the rows as they
    lie in the table, the second sorts them scanned backwards. *)

#[global] Instance newer_first_dec : RelDecision newer_first.
Proof. intros r1 r2. unfold newer_first. apply _. Defined.

#[global] Instance newer_first_total : Total newer_first.
Proof. intros r1 r2. unfold newer_first. lia. Qed.

#[global] Instance newer_first_trans : Transitive newer_first.
Proof. intros r1 r2 r3. unfold newer_first. lia. Qed.

Definition forward_plan : Planner :=
  {| order_by_created_at_desc := merge_sort newer_first;
     order_by_permutation := merge_sort_Permutation newer_first;
     order_by_sorted := Sorted_merge_sort newer_first |}.

Definition backward_plan : Planner :=
  {| order_by_created_at_desc := λ l, merge_sort newer_first (reverse l);
     order_by_permutation := λ l,
       transitivity (merge_sort_Permutation newer_first (reverse l))
         (reverse_Permutation l);
     order_by_sorted := λ l, Sorted_merge_sort newer_first (reverse l) |}.

(** ** Requests, runs and reachable stores *)

Inductive Request :=
  | PostCustomers (decoded : option Customer)
  | PostTransactions (decoded : option Transaction)
  | GetCustomerBalance (segment : string) (query : list (string * string))
  | GetCustomerTransactions (segment : string)
      (query : list (string * string)).

Definition handle (e : Env) (req : Request) : Handler Empty_set :=
  match req with
  | PostCustomers decoded => CreateCustomer e decoded
  | PostTransactions decoded => CreateTransaction e decoded
  | GetCustomerBalance segment query => route_balance e segment query
  | GetCustomerTransactions segment query =>
      route_transactions e segment query
  end.

Definition response_of (run : Response * DB * list Call) : Response := run.1.1.
Definition store_after (run : Response * DB * list Call) : DB := run.1.2.
Definition calls_of (run : Response * DB * list Call) : list Call := run.2.

(** The stores the service can be in: the empty schema, and whatever a
    request leaves behind, under any environment. *)
Inductive reachable : DB → Prop :=
  | reachable_empty : reachable empty_db
  | reachable_step d e req :
      reachable d → reachable (store_after (serve (handle e req) d)).

(** The first [n] store calls of the request get through. *)
Definition available (e : Env) (n : nat) : Prop :=
  ∀ k, (k < n)%nat → unavailable e k = false.


(** The balance a store call asks the store to write, if it writes one. *)
Definition written_balance (c : Call) : option Z :=
  match c with
  | CallInsertCustomer _ _ balance => Some balance
  | CallUpdateBalance balance _ => Some balance
  | _ => None
  end.

(** The journal row an accepted [POST /transactions] appends. *)
Definition journal_entry (e : Env) (t : Transaction) : TransactionRow :=
  {| tx_id := new_uuid e; tx_customer_id := CustomerID t;
     tx_type := Type_ t; tx_amount := Amount t; tx_created_at := now e |}.

Definition set_balance (id : UUID) (row : CustomerRow) (balance : Z)
    (d : DB) : gmap UUID CustomerRow :=
  <[id := {| row_name := row_name row; row_balance := balance |}]>
    (customers d).

(** The rows of a transaction listing, none for any other response. *)
Definition page_of (r : Response) : list TransactionJSON :=
  match body r with
  | TransactionsJSON rows => rows
  | _ => []
  end.

(** The value a pagination parameter takes: the default when the query
    has none, else a scanned integer that is at least 1. *)
Definition requested (c : Context) (key : string) (defaultValue v : Z)
    : Prop :=
  (Query c key = EmptyString ∧ v = defaultValue)
  ∨ (fmt.Sscanf_d (Query c key) = Some v ∧ 1 ≤ v).

Definition fresh_transaction_id (id : UUID) (d : DB) : Prop :=
  ∀ r, r ∈ transactions d → tx_id r ≠ id.

(** ** Properties of runs *)

(** A computation is read-only when it leaves the committed store and the
    open transaction alone and logs no call that writes a balance. *)
Definition read_only {A} (h : Handler A) : Prop :=
  ∀ s, committed (h s).2 = committed s
       ∧ pending (h s).2 = pending s
       ∧ ∃ l, log (h s).2 = log s ++ l
              ∧ Forall (λ c, written_balance c = None) l.


(** ** Requests refused as invalid input *)

(** The text of a query parameter, empty when the query has none. *)
Definition query_text (q : list (string * string)) (key : string) : string :=
  default EmptyString (lookup_arg key q).

(** A pagination parameter that is present and is not an integer of at
    least 1. *)
Definition bad_pagination (q : list (string * string)) (key : string)
    : Prop :=
  query_text q key ≠ EmptyString
  ∧ ∀ n, fmt.Sscanf_d (query_text q key) = Some n → n < 1.

Inductive InvalidInput : Request → Prop :=
  | invalid_customer_body :
      InvalidInput (PostCustomers None)
  | invalid_empty_name c :
      Name c = EmptyString → InvalidInput (PostCustomers (Some c))
  | invalid_initial_balance c :
      InitialBalance c < 0 → InvalidInput (PostCustomers (Some c))
  | invalid_transaction_body :
      InvalidInput (PostTransactions None)
  | invalid_amount t :
      Amount t ≤ 0 → InvalidInput (PostTransactions (Some t))
  | invalid_kind t :
      Type_ t ≠ "credit"%string → Type_ t ≠ "debit"%string →
      InvalidInput (PostTransactions (Some t))
  | invalid_page segment q :
      bad_pagination q "page" →
      InvalidInput (GetCustomerTransactions segment q)
  | invalid_page_size segment q :
      bad_pagination q "page_size" →
      InvalidInput (GetCustomerTransactions segment q).

Definition refusal (msg : string) : Response :=
  {| code := StatusBadRequest; body := ErrorResponse msg; headers := None |}.

(** ** Ordering and pages of a listing *)



(** The listing of page [k] for a page size [p], asked through the route
    with both parameters spelled out. *)
Definition page_listing (e : Env) (segment page_text size_text : string)
    (d : DB) : list TransactionJSON :=
  page_of (response_of
    (serve (route_transactions e segment
              [("page"%string, page_text); ("page_size"%string, size_text)])
       d)).

(** ** A sample run

    John Doe opens an account with 1000.00, is credited 200.00 and then
    debited 300.00; the store stamps both transactions with the same
    instant. *)

Definition calm (id : UUID) (t : Time) (pl : Planner) : Env :=
  {| new_uuid := id; now := t; unavailable := λ _, false; planner := pl;
     exchange_rate_api := λ _ _ amount, ApiDecoded "success" amount |}.

Definition john_doe : Customer :=
  {| ID := 0%N; Name := "John Doe"; Balance := 0; InitialBalance := 100000 |}.

Definition john_row : CustomerRow :=
  {| row_name := "John Doe"; row_balance := 100000 |}.

Definition john_segment : string := "00000000-0000-0000-0000-000000000001".

Definition credit_200 : Transaction :=
  {| TransactionID := 0%N; CustomerID := 1%N; Type_ := "credit";
     Amount := 20000 |}.

Definition debit_300 : Transaction :=
  {| TransactionID := 0%N; CustomerID := 1%N; Type_ := "debit";
     Amount := 30000 |}.

Definition opened : DB :=
  store_after (serve (handle (calm 1%N 0 forward_plan)
                        (PostCustomers (Some john_doe))) empty_db).

Definition credited : DB :=
  store_after (serve (handle (calm 7%N 5000000 forward_plan)
                        (PostTransactions (Some credit_200))) opened).

Definition debited : DB :=
  store_after (serve (handle (calm 8%N 5000000 forward_plan)
                        (PostTransactions (Some debit_300))) credited).

Definition row_7 : TransactionRow :=
  {| tx_id := 7%N; tx_customer_id := 1%N; tx_type := "credit";
     tx_amount := 20000; tx_created_at := 5000000 |}.

Definition row_8 : TransactionRow :=
  {| tx_id := 8%N; tx_customer_id := 1%N; tx_type := "debit";
     tx_amount := 30000; tx_created_at := 5000000 |}.

Definition two_pages (k : nat) : string :=
  match k with
  | 1%nat => "1"
  | _ => "2"
  end.

(** ** What accepted requests leave in the store *)

(** The balance [CreateCustomer] opens an account with: [initial_balance],
    or [balance] when that is 0. *)
Definition opening_balance (c : Customer) : Z :=
  if InitialBalance c =? 0 then Balance c else InitialBalance c.

(** The balance [CreateTransaction] computes from the one it read. *)
Definition new_balance (t : Transaction) (currentBalance : Z) : Z :=
  if String.eqb (Type_ t) "debit" then currentBalance - Amount t
  else currentBalance + Amount t.

(** A store whose rows satisfy the schema and the bindings they came
    through. *)
Definition journal_well_formed (d : DB) : Prop :=
  NoDup (tx_id <$> transactions d)
  ∧ ∀ r, r ∈ transactions d →
      is_Some (customers d !! tx_customer_id r)
      ∧ (tx_type r = "credit"%string ∨ tx_type r = "debit"%string)
      ∧ 0 < tx_amount r < 10 ^ 15.

Definition customers_well_formed (d : DB) : Prop :=
  ∀ id row, customers d !! id = Some row →
    row_name row ≠ EmptyString
    ∧ (Store.chars (row_name row) ≤ 255)%nat
    ∧ Store.has_nul (row_name row) = false
    ∧ 0 ≤ row_balance row < 10 ^ 15.

(** The five store calls of an accepted [CreateTransaction]. *)
Definition apply_calls (e : Env) (t : Transaction) (nb : Z) : list Call :=
  [CallBegin; CallSelectBalanceForUpdate (CustomerID t);
   CallUpdateBalance nb (CustomerID t);
   CallInsertTransaction (new_uuid e) (CustomerID t) (Type_ t) (Amount t);
   CallCommit].

(** The store after an accepted [CreateTransaction]. *)
Definition applied (e : Env) (t : Transaction) (row : CustomerRow) (d : DB)
    : DB :=
  {| customers := set_balance (CustomerID t) row
                    (new_balance t (row_balance row)) d;
     transactions := transactions d ++ [journal_entry e t] |}.

(** The name of a customer as the [name] column keeps it. *)
Definition stored_name (c : Customer) : string :=
  default EmptyString (Store.varchar 255 (Name c)).

(** The store after an accepted [CreateCustomer]. *)
Definition opened_with (e : Env) (c : Customer) (d : DB) : DB :=
  {| customers := <[new_uuid e := {| row_name := stored_name c;
                                     row_balance := opening_balance c |}]>
                    (customers d);
     transactions := transactions d |}.

(** A request for the listing of a customer, with a page size only. *)
Definition listing_request (segment size_text : string) : Context :=
  {| Params := [("customer_id"%string, segment)];
     QueryArgs := [("page_size"%string, size_text)] |}.

(** A request for a balance with the segment bound under the name
    [GetBalance] asks for. *)
Definition balance_request (segment : string)
    (query : list (string * string)) : Context :=
  {| Params := [("id"%string, segment)]; QueryArgs := query |}.

(** An environment whose store fails at the [k]-th call of the request
    and at no other. *)
Definition failing_at (k : nat) (id : UUID) (t : Time) (pl : Planner) : Env :=
  {| new_uuid := id; now := t; unavailable := λ i, Nat.eqb i k;
     planner := pl;
     exchange_rate_api := λ _ _ amount, ApiDecoded "success" amount |}.

(** A second customer, Jane Roe, with 50.00, joins after the sample run. *)
Definition jane_roe : Customer :=
  {| ID := 0%N; Name := "Jane Roe"; Balance := 5000; InitialBalance := 0 |}.

Definition jane_segment : string := "00000000-0000-0000-0000-000000000002".

Definition stranger_segment : string :=
  "00000000-0000-0000-0000-000000000009".

Definition two_accounts : DB :=
  store_after (serve (handle (calm 2%N 6000000 forward_plan)
                        (PostCustomers (Some jane_roe))) debited).

Definition credit_jane : Transaction :=
  {| TransactionID := 0%N; CustomerID := 2%N; Type_ := "credit";
     Amount := 1500 |}.

Definition debit_200 : Transaction :=
  {| TransactionID := 0%N; CustomerID := 1%N; Type_ := "debit";
     Amount := 20000 |}.

Definition stranger_credit : Transaction :=
  {| TransactionID := 0%N; CustomerID := 9%N; Type_ := "credit";
     Amount := 20000 |}.

(** ** Money as the service handles it: [float64] and [DECIMAL(15,2)]

    The handlers hold amounts and balances in [float64]; the columns are
    [DECIMAL(15,2)].  This part embeds the two writing handlers with the
    arithmetic of binary64 ([SpecFloat], precision 53), the conversion of
    a [float64] argument into a [numeric] and the rounding of the column,
    and with the statements they send on the one connection [main] opens
    ([pgx.Connect], handed to [InitDB]) and every request shares. *)

Module Float64.

Definition float64 : Type := spec_float.

Definition prec : Z := 53.
Definition emax : Z := 1024.

Definition zero : float64 := S754_zero false.
Definition add (x y : float64) : float64 := SFadd prec emax x y.
Definition sub (x y : float64) : float64 := SFsub prec emax x y.
Definition div (x y : float64) : float64 := SFdiv prec emax x y.
Definition ltb (x y : float64) : bool := SFltb x y.
Definition eqb (x y : float64) : bool := SFeqb x y.

(** The [float64] of an integer, exact below 2^53. *)
Definition of_int (z : Z) : float64 := binary_normalize prec emax z 0 false.

(** The [float64] nearest to [n/d], for [n] and [d] below 2^53: what the
    decimal literal of that value decodes to. *)
Definition ratio (n d : Z) : float64 := div (of_int n) (of_int d).

(** *** From [float64] to [numeric]

    A [float64] argument reaches the store as the decimal number
    [strconv.FormatFloat(f, 'f', -1, 64)] prints: the decimal of fewest
    digits that reads back as [f], the closest to [f] among those. *)

(** The decimal [coefficient * 10^exponent]. *)
Record Decimal := { coefficient : Z; exponent : Z }.

(** The multiple of [10^q] to take for [m * 2^e], if one reads back as
    that float.  The decimals that read back lie between the midpoints to
    the neighbouring floats, the midpoints included when [m] is even; the
    lower neighbour is half as far when [m] is the least mantissa of its
    binade.  All quantities are in units of [2^(e-2)], scaled so that
    [10^q] is the integer [B]. *)
Definition candidate (m : positive) (e : Z) (q : Z) : option Z :=
  let X := 4 * Z.pos m in
  let LO := if (Z.pos m =? 2 ^ 52) && (emin prec emax <? e) then X - 1
            else X - 2 in
  let HI := X + 2 in
  let A := 2 ^ Z.max (e - 2) 0 * 10 ^ Z.max (- q) 0 in
  let B := 10 ^ Z.max q 0 * 2 ^ Z.max (2 - e) 0 in
  let inclusive := Z.even (Z.pos m) in
  let c := (X * A) / B in
  let okdown := if inclusive then LO * A <=? c * B else LO * A <? c * B in
  let okup := if inclusive then (c + 1) * B <=? HI * A
              else (c + 1) * B <? HI * A in
  let down := X * A - c * B in
  let up := (c + 1) * B - X * A in
  match okdown, okup with
  | true, true => if down <? up then Some c
                  else if up <? down then Some (c + 1)
                  else Some (if Z.even c then c else c + 1)
  | true, false => Some c
  | false, true => Some (c + 1)
  | false, false => None
  end.

(** An exponent whose power of ten exceeds [m * 2^e] and its upper
    midpoint. *)
Definition first_exponent (m : positive) (e : Z) : Z :=
  (Z.pos (digits2_pos m) + e) * 30103 / 100000 + 2.

(** The first exponent, from [q] downwards, at which a decimal reads
    back: the decimal of fewest digits.  The exact binary value is the
    answer when the search gives up, which it does not within the
    seventeen digits that tell any two floats apart. *)
Fixpoint shortest (fuel : nat) (m : positive) (e : Z) (q : Z) : Decimal :=
  match candidate m e q with
  | Some c => {| coefficient := c; exponent := q |}
  | None =>
      match fuel with
      | O => {| coefficient := Z.pos m * 2 ^ Z.max e 0 * 5 ^ Z.max (- e) 0;
                exponent := Z.min e 0 |}
      | S fuel' => shortest fuel' m e (q - 1)
      end
  end.

(** [strconv.FormatFloat(f, 'f', -1, 64)], for a finite [f]. *)
Definition FormatFloat (f : float64) : option Decimal :=
  match f with
  | S754_zero _ => Some {| coefficient := 0; exponent := 0 |}
  | S754_finite s m e =>
      let d := shortest 64 m e (first_exponent m e) in
      Some {| coefficient := if s then - coefficient d else coefficient d;
              exponent := exponent d |}
  | S754_infinity _ | S754_nan => None
  end.

(** A [numeric] assigned to a column of scale 2 is rounded to hundredths,
    ties away from zero.  The result counts hundredths. *)
Definition round_to_scale_2 (d : Decimal) : Z :=
  let c := Z.abs (coefficient d) in
  let q := exponent d + 2 in
  let r := if 0 <=? q then c * 10 ^ q
           else (2 * c + 10 ^ (- q)) / (2 * 10 ^ (- q)) in
  if coefficient d <? 0 then - r else r.

(** The hundredths a [float64] argument comes to in a [DECIMAL(15,2)]
    column, before the range of the column is checked.  An infinity is
    refused by the column.  A NaN is not met: the amounts decoded from
    JSON are finite, and so are the sums and differences the handlers
    form of them, short of an overflow to infinity. *)
Definition Numeric (f : float64) : option Z :=
  round_to_scale_2 <$> FormatFloat f.

(** A [DECIMAL(15,2)] value scanned into a [*float64]: the [float64]
    nearest to it ([strconv.ParseFloat]).  Both operands of the division
    are exact. *)
Definition Float64Value (hundredths : Z) : float64 :=
  div (of_int hundredths) (of_int 100).

(** Whether the exact value of a [float64], [m * 2^e], is the given
    number of hundredths. *)
Definition is_hundredths (f : float64) (hundredths : Z) : bool :=
  match f with
  | S754_zero _ => hundredths =? 0
  | S754_finite s m e =>
      let v := if s then Z.neg m else Z.pos m in
      if 0 <=? e then 100 * v * 2 ^ e =? hundredths
      else 100 * v =? hundredths * 2 ^ (- e)
  | S754_infinity _ | S754_nan => false
  end.

(** *** Requests and responses *)

Record Customer := {
  ID : UUID;
  Name : string;
  Balance : float64;
  InitialBalance : float64
}.

Record Transaction := {
  TransactionID : UUID;
  CustomerID : UUID;
  Type_ : string;
  Amount : float64
}.

Inductive Body :=
  | ErrorResponse (error : string)
  | CustomerResponse (customer_id : UUID) (name : string) (balance : float64)
  | TransactionResponse (transaction_id : UUID) (status : string)
      (balance : float64).

Record Response := {
  code : Status;
  body : Body
}.

(** [Name: binding:"required"] *)
Definition Customer_binding (c : Customer) : bool :=
  negb (String.eqb (Name c) "").

(** [Type: binding:"required,oneof=credit debit"],
    [Amount: binding:"required,gt=0"]; an amount above 0 is not the zero
    value [required] refuses. *)
Definition Transaction_binding (t : Transaction) : bool :=
  negb (String.eqb (Type_ t) "")
  && (String.eqb (Type_ t) "credit" || String.eqb (Type_ t) "debit")
  && ltb zero (Amount t).

(** *** The connection

    A PostgreSQL session is idle, inside a transaction block, or inside a
    block that has failed.  [main] opens one session and every handler of
    every request sends its statements on it. *)

Inductive TxStatus :=
  | Idle
  | InTransaction (work : DB)     (* the store as the block sees it *)
  | Failed.

Record Conn := {
  committed : DB;
  status : TxStatus
}.

Inductive Statement :=
  | Begin                         (* db.Begin: [begin] *)
  | Commit                        (* tx.Commit: [commit] *)
  | Rollback                      (* the deferred tx.Rollback: [rollback] *)
  | InsertCustomer (id : UUID) (name : string) (balance : float64)
  | SelectBalanceForUpdate (id : UUID)
  | UpdateBalance (balance : float64) (id : UUID)
  | InsertTransaction (id customer_id : UUID) (type : string)
      (amount : float64) (now : Time).

Inductive Error :=
  | ErrNoRows              (* pgx.ErrNoRows *)
  | ErrRefused             (* the server refuses the statement *)
  | ErrTxCommitRollback    (* pgx.ErrTxCommitRollback *)
  | ErrUnavailable.        (* the connection is lost *)

Inductive Answer :=
  | Done
  | Row (balance : float64)
  | Failure (err : Error).

(** [INSERT INTO customers (id, name, balance) VALUES ($1, $2, $3)] *)
Definition insert_customer (id : UUID) (name : string) (balance : float64)
    (d : DB) : option DB :=
  hundredths ← Numeric balance;
  Store.insert_customer id name hundredths d.

(** [UPDATE customers SET balance = $1 WHERE id = $2]; the argument is
    assigned, and so rounded and checked, for the rows that match. *)
Definition update_balance (balance : float64) (id : UUID) (d : DB)
    : option DB :=
  match customers d !! id with
  | None => Some d
  | Some _ =>
      hundredths ← Numeric balance;
      Store.update_balance hundredths id d
  end.

(** [INSERT INTO transactions (id, customer_id, type, amount)
    VALUES ($1, $2, $3, $4)] *)
Definition insert_transaction (id customer_id : UUID) (type : string)
    (amount : float64) (now : Time) (d : DB) : option DB :=
  hundredths ← Numeric amount;
  Store.insert_transaction id customer_id type hundredths now d.

(** A statement that writes.  Outside a block it takes effect at once.
    Inside a block it acts on what the block sees, and a statement the
    server refuses makes the block fail. *)
Definition write (f : DB → option DB) (c : Conn) : Answer * Conn :=
  match status c with
  | Idle =>
      match f (committed c) with
      | Some d => (Done, {| committed := d; status := Idle |})
      | None => (Failure ErrRefused, c)
      end
  | InTransaction w =>
      match f w with
      | Some w' =>
          (Done, {| committed := committed c; status := InTransaction w' |})
      | None =>
          (Failure ErrRefused, {| committed := committed c; status := Failed |})
      end
  | Failed => (Failure ErrRefused, c)
  end.

(** What one statement does on the session.  [begin] inside a block and
    [commit] or [rollback] outside one draw a warning and do nothing;
    [commit] of a failed block rolls it back. *)
Definition execute (st : Statement) (c : Conn) : Answer * Conn :=
  match st with
  | Begin =>
      match status c with
      | Idle => (Done, {| committed := committed c;
                          status := InTransaction (committed c) |})
      | InTransaction _ => (Done, c)
      | Failed => (Failure ErrRefused, c)
      end
  | Commit =>
      match status c with
      | Idle => (Done, c)
      | InTransaction w => (Done, {| committed := w; status := Idle |})
      | Failed => (Failure ErrTxCommitRollback,
                   {| committed := committed c; status := Idle |})
      end
  | Rollback => (Done, {| committed := committed c; status := Idle |})
  | InsertCustomer id name balance => write (insert_customer id name balance) c
  | SelectBalanceForUpdate id =>
      match status c with
      | Failed => (Failure ErrRefused, c)
      | Idle | InTransaction _ =>
          let d := match status c with
                   | InTransaction w => w
                   | _ => committed c
                   end in
          match Store.select_balance id d with
          | Some hundredths => (Row (Float64Value hundredths), c)
          | None => (Failure ErrNoRows, c)
          end
      end
  | UpdateBalance balance id => write (update_balance balance id) c
  | InsertTransaction id customer_id type amount now =>
      write (insert_transaction id customer_id type amount now) c
  end.

(** A statement that does not get through: the connection is lost and
    the server rolls back the block that was open. *)
Definition lose (c : Conn) : Conn :=
  {| committed := committed c; status := Idle |}.

(** *** Handlers as the statements they send

    A handler is the tree of its statements: each statement and what the
    handler goes on to do with its answer, down to the response. *)

Inductive Prog :=
  | Reply (r : Response)
  | Call (st : Statement) (next : Answer → Prog).

Definition JSON (st : Status) (b : Body) : Prog :=
  Reply {| code := st; body := b |}.

(** [c.JSON(...); return] with a transaction open: the deferred
    [tx.Rollback] runs on the way out. *)
Definition JSON_deferred_Rollback (st : Status) (b : Body) : Prog :=
  Call Rollback (λ _, JSON st b).

Definition CreateCustomer (e : Env) (decoded : option Customer) : Prog :=
  match ShouldBindJSON Customer_binding decoded with
  | None =>
      JSON StatusBadRequest (ErrorResponse
        "Invalid input: Name is required and balance must be non-negative")
  | Some customer =>
      (* Use initial_balance if provided, otherwise use balance *)
      let balance := InitialBalance customer in
      let balance := if eqb balance zero then Balance customer else balance in
      if ltb balance zero then
        JSON StatusBadRequest (ErrorResponse
          "Invalid input: Balance must be non-negative")
      else
        let id := new_uuid e in
        Call (InsertCustomer id (Name customer) balance) (λ answer,
          match answer with
          | Failure _ =>
              JSON StatusInternalServerError
                (ErrorResponse "Failed to create customer")
          | _ =>
              JSON StatusCreated
                (CustomerResponse id (Name customer) balance)
          end)
  end.

(** The second half of [CreateTransaction], from the new balance on:
    update the balance, insert the transaction, commit. *)
Definition write_through (e : Env) (transaction : Transaction)
    (newBalance : float64) : Prog :=
  let id := new_uuid e in
  (* Update customer balance *)
  Call (UpdateBalance newBalance (CustomerID transaction)) (λ answer,
    match answer with
    | Failure _ =>
        JSON_deferred_Rollback StatusInternalServerError
          (ErrorResponse "Failed to update balance")
    | _ =>
  (* Insert transaction *)
  Call (InsertTransaction id (CustomerID transaction)
          (Type_ transaction) (Amount transaction) (now e)) (λ answer,
    match answer with
    | Failure _ =>
        JSON_deferred_Rollback StatusInternalServerError
          (ErrorResponse "Failed to create transaction")
    | _ =>
  (* Commit transaction *)
  Call Commit (λ answer,
    match answer with
    | Failure _ =>
        JSON StatusInternalServerError
          (ErrorResponse "Failed to commit transaction")
    | _ =>
        JSON StatusCreated (TransactionResponse id "success" newBalance)
    end) end) end).

Definition CreateTransaction (e : Env) (decoded : option Transaction)
    : Prog :=
  match ShouldBindJSON Transaction_binding decoded with
  | None =>
      JSON StatusBadRequest (ErrorResponse
        "Invalid input: customer_id, type (credit/debit), and amount (> 0) are required")
  | Some transaction =>
      (* Start transaction *)
      Call Begin (λ answer,
        match answer with
        | Failure _ =>
            JSON StatusInternalServerError
              (ErrorResponse "Failed to start transaction")
        | _ =>
      (* Get current balance with row lock *)
      Call (SelectBalanceForUpdate (CustomerID transaction)) (λ answer,
        match answer with
        | Failure ErrNoRows =>
            JSON_deferred_Rollback StatusNotFound
              (ErrorResponse "Customer not found")
        | Failure _ | Done =>
            JSON_deferred_Rollback StatusInternalServerError
              (ErrorResponse "Failed to get current balance")
        | Row currentBalance =>
            (* Calculate new balance *)
            if String.eqb (Type_ transaction) "debit" then
              if ltb currentBalance (Amount transaction) then
                JSON_deferred_Rollback StatusBadRequest
                  (ErrorResponse "Insufficient balance")
              else
                write_through e transaction
                  (sub currentBalance (Amount transaction))
            else
              write_through e transaction
                (add currentBalance (Amount transaction))
        end) end)
  end.

(** *** One request at a time *)

(** A handler run to its response on the connection.  The statement
    numbered [k] of the run is lost when [unavailable k]. *)
Fixpoint run (unavailable : nat → bool) (p : Prog) (c : Conn)
    (sent : list Statement) : Response * Conn * list Statement :=
  match p with
  | Reply r => (r, c, sent)
  | Call st next =>
      if unavailable (length sent)
      then run unavailable (next (Failure ErrUnavailable)) (lose c)
             (sent ++ [st])
      else
        let '(answer, c') := execute st c in
        run unavailable (next answer) c' (sent ++ [st])
  end.

(** A request served while no other is being served: the response, the
    store afterwards and the statements sent. *)
Definition serve (e : Env) (p : Prog) (d : DB)
    : Response * DB * list Statement :=
  let '(r, c, sent) :=
    run (unavailable e) p {| committed := d; status := Idle |} [] in
  (r, committed c, sent).

Definition response_of (r : Response * DB * list Statement) : Response :=
  r.1.1.
Definition store_after (r : Response * DB * list Statement) : DB := r.1.2.
Definition statements_of (r : Response * DB * list Statement)
    : list Statement := r.2.

(** *** Requests served at the same time

    gin serves every request in a goroutine of its own, and all of them
    send on the one connection.  A schedule names, statement by
    statement, the request whose next statement the session receives; a
    request that has answered sends nothing. *)

Fixpoint interleave (schedule : list nat) (requests : list Prog) (c : Conn)
    : list Prog * Conn :=
  match schedule with
  | [] => (requests, c)
  | i :: schedule' =>
      match requests !! i with
      | Some (Call st next) =>
          let '(answer, c') := execute st c in
          interleave schedule' (<[i := next answer]> requests) c'
      | _ => interleave schedule' requests c
      end
  end.

Definition answer_of (p : Prog) : option Response :=
  match p with
  | Reply r => Some r
  | Call _ _ => None
  end.

(** The requests served under the schedule: the response of each that
    has answered, and the session they leave. *)
Definition serve_concurrently (schedule : list nat) (requests : list Prog)
    (d : DB) : list (option Response) * Conn :=
  let '(ps, c) :=
    interleave schedule requests {| committed := d; status := Idle |} in
  (answer_of <$> ps, c).

(** The balance [CreateTransaction] computes from the one it read. *)
Definition new_balance (t : Transaction) (currentBalance : float64)
    : float64 :=
  if String.eqb (Type_ t) "debit" then sub currentBalance (Amount t)
  else add currentBalance (Amount t).

(** The five statements of an accepted [CreateTransaction]. *)
Definition apply_statements (e : Env) (t : Transaction)
    (newBalance : float64) : list Statement :=
  [Begin; SelectBalanceForUpdate (CustomerID t);
   UpdateBalance newBalance (CustomerID t);
   InsertTransaction (new_uuid e) (CustomerID t) (Type_ t) (Amount t) (now e);
   Commit].

(** The store after an accepted [CreateTransaction] that wrote the
    balance [stored] and the amount [amount], both in hundredths. *)
Definition applied (e : Env) (t : Transaction) (row : CustomerRow)
    (stored amount : Z) (d : DB) : DB :=
  {| customers := <[CustomerID t := {| row_name := row_name row;
                                       row_balance := stored |}]>
                    (customers d);
     transactions := transactions d ++
       [{| tx_id := new_uuid e; tx_customer_id := CustomerID t;
           tx_type := Type_ t; tx_amount := amount;
           tx_created_at := now e |}] |}.

(** The balance [CreateCustomer] opens an account with. *)
Definition opening_balance (c : Customer) : float64 :=
  if eqb (InitialBalance c) zero then Balance c else InitialBalance c.

End Float64.

Arguments Float64.add : simpl never.
Arguments Float64.sub : simpl never.
Arguments Float64.div : simpl never.
Arguments Float64.ltb : simpl never.
Arguments Float64.eqb : simpl never.
Arguments Float64.Numeric : simpl never.
Arguments Float64.Float64Value : simpl never.

Arguments Float64.shortest : simpl never.

(** ** Sample requests with fractions of a unit *)

Definition at_7 : Env := calm 7%N 5000000 forward_plan.
Definition at_8 : Env := calm 8%N 5000000 forward_plan.

(** A credit for John Doe. *)
Definition credit_of (a : Float64.float64) : Float64.Transaction :=
  {| Float64.TransactionID := 0%N; Float64.CustomerID := 1%N;
     Float64.Type_ := "credit"; Float64.Amount := a |}.


(** The body [{"name": "John Doe", "initial_balance": 1000}]. *)
Definition john_doe_1000 : Float64.Customer :=
  {| Float64.ID := 0%N; Float64.Name := "John Doe";
     Float64.Balance := Float64.zero;
     Float64.InitialBalance := Float64.of_int 1000 |}.

(** The body [{"name": "John Doe", "balance": 0.004}]. *)
Definition john_doe_0_004 : Float64.Customer :=
  {| Float64.ID := 0%N; Float64.Name := "John Doe";
     Float64.Balance := Float64.ratio 4 1000;
     Float64.InitialBalance := Float64.zero |}.

(** Two credits of 200 and 100 for John Doe, sent at the same time. *)
Definition two_credits : list Float64.Prog :=
  [Float64.CreateTransaction at_7 (Some (credit_of (Float64.of_int 200)));
   Float64.CreateTransaction at_8 (Some (credit_of (Float64.of_int 100)))].

(** The first request opens its transaction and reads the balance, the
    second does the same, the first writes and commits, the second writes
    and commits. *)
Definition both_read_first : list nat :=
  [0; 0; 1; 1; 0; 0; 0; 1; 1; 1]%nat.

(** A debit for John Doe. *)
Definition debit_of (a : Float64.float64) : Float64.Transaction :=
  {| Float64.TransactionID := 0%N; Float64.CustomerID := 1%N;
     Float64.Type_ := "debit"; Float64.Amount := a |}.

Definition refusal64 (msg : string) : Float64.Response :=
  {| Float64.code := StatusBadRequest;
     Float64.body := Float64.ErrorResponse msg |}.

(** The writing handlers on a body they refuse: one that does not decode,
    an empty name, an opening balance below 0, an amount that is not above
    0, a kind other than credit and debit. *)
Inductive InvalidBody : Float64.Prog → Prop :=
  | invalid64_customer_body e :
      InvalidBody (Float64.CreateCustomer e None)
  | invalid64_empty_name e c :
      Float64.Name c = EmptyString →
      InvalidBody (Float64.CreateCustomer e (Some c))
  | invalid64_opening_balance e c :
      Float64.ltb (Float64.opening_balance c) Float64.zero = true →
      InvalidBody (Float64.CreateCustomer e (Some c))
  | invalid64_transaction_body e :
      InvalidBody (Float64.CreateTransaction e None)
  | invalid64_amount e t :
      Float64.ltb Float64.zero (Float64.Amount t) = false →
      InvalidBody (Float64.CreateTransaction e (Some t))
  | invalid64_kind e t :
      Float64.Type_ t ≠ "credit"%string → Float64.Type_ t ≠ "debit"%string →
      InvalidBody (Float64.CreateTransaction e (Some t)).

(** A credit of 200 and a debit of 5000 for John Doe, sent at the same
    time. *)
Definition credit_and_refused_debit : list Float64.Prog :=
  [Float64.CreateTransaction at_7 (Some (credit_of (Float64.of_int 200)));
   Float64.CreateTransaction at_8 (Some (debit_of (Float64.of_int 5000)))].

(** The credit opens its transaction, reads and updates the balance; the
    debit opens its own, reads, is refused and rolls back; the credit
    inserts its row and commits. *)
Definition refusal_in_between : list nat :=
  [0; 0; 0; 1; 1; 1; 0; 0]%nat.

(** A text of decimal digits only. *)
Fixpoint all_digits (s : string) : bool :=
  match s with
  | EmptyString => true
  | String c s' => fmt.isDigit c && all_digits s'
  end.

(** ** Running the store calls *)

Ltac unfold_handlers :=
  unfold serve, handle, route_balance, route_transactions,
    CreateCustomer, CreateTransaction, GetBalance, GetTransactions,
    pagination_arg,
    db_Begin, tx_Commit, db_Exec_insert_customer, db_QueryRow_balance,
    tx_QueryRow_balance_for_update, tx_Exec_update_balance,
    tx_Exec_insert_transaction, db_QueryRow_exists, db_QueryRow_count,
    db_Query_page, store_call, db_write, db_read, tx_write, tx_read,
    balance_or_no_rows, JSON, reply,
    mbind, mret, Handler_bind, Handler_ret,
    response_of, store_after, calls_of.

Lemma available_at (e : Env) (n k : nat) :
  available e n → (k < n)%nat → unavailable e k = false.
Proof. intros H ?. by apply H. Qed.

Lemma binding_accepts (t : Transaction) :
  Transaction_binding t = true ↔
  (Type_ t = "credit"%string ∨ Type_ t = "debit"%string) ∧ 0 < Amount t.
Proof.
  unfold Transaction_binding.
  rewrite !andb_true_iff, orb_true_iff, !negb_true_iff, !String.eqb_eq,
    String.eqb_neq, Z.eqb_neq, Z.ltb_lt.
  split.
  - intros [[[_ ?] _] ?]. done.
  - intros [Hk ?]. repeat split; [|done|lia|done].
    intros E. rewrite E in Hk. by destruct Hk.
Qed.

(** What a run of [CreateTransaction] can be: either nothing is committed
    and the answer is not [201], or every step went through. *)
Lemma CreateTransaction_outcome (e : Env) (decoded : option Transaction)
    (d : DB) :
  (store_after (serve (CreateTransaction e decoded) d) = d
   ∧ code (response_of (serve (CreateTransaction e decoded) d))
       ≠ StatusCreated)
  ∨ (∃ t b d1 d2,
       let nb := if String.eqb (Type_ t) "debit" then b - Amount t
                 else b + Amount t in
       decoded = Some t
       ∧ Transaction_binding t = true
       ∧ Store.select_balance (CustomerID t) d = Some b
       ∧ (Type_ t = "debit"%string → Amount t ≤ b)
       ∧ Store.update_balance nb (CustomerID t) d = Some d1
       ∧ Store.insert_transaction (new_uuid e) (CustomerID t) (Type_ t)
           (Amount t) (now e) d1 = Some d2
       ∧ serve (CreateTransaction e decoded) d
         = ({| code := StatusCreated;
               body := TransactionResponse (new_uuid e) "success" nb;
               headers := None |},
            d2,
            [CallBegin; CallSelectBalanceForUpdate (CustomerID t);
             CallUpdateBalance nb (CustomerID t);
             CallInsertTransaction (new_uuid e) (CustomerID t) (Type_ t)
               (Amount t);
             CallCommit])).
Proof.
  unfold_handlers. unfold ShouldBindJSON.
  destruct decoded as [t|]; cbn; [|by left].
  destruct (Transaction_binding t) eqn:Hbind; cbn; [|by left].
  destruct (unavailable e 0); cbn; [by left|].
  destruct (unavailable e 1); cbn; [by left|].
  destruct (Store.select_balance (CustomerID t) d) as [b|] eqn:Hsel; cbn;
    [|by left].
  destruct (String.eqb (Type_ t) "debit") eqn:Hdebit; cbn.
  - destruct (b <? Amount t) eqn:Hlt; cbn; [by left|].
    destruct (unavailable e 2); cbn; [by left|].
    destruct (Store.update_balance _ _ d) as [d1|] eqn:Hupd; cbn; [|by left].
    destruct (unavailable e 3); cbn; [by left|].
    destruct (Store.insert_transaction _ _ _ _ _ d1) as [d2|] eqn:Hins; cbn;
      [|by left].
    destruct (unavailable e 4); cbn; [by left|].
    right. exists t, b, d1, d2. cbn. rewrite Hdebit.
    repeat split; try done. intros _. lia.
  - destruct (unavailable e 2); cbn; [by left|].
    destruct (Store.update_balance _ _ d) as [d1|] eqn:Hupd; cbn; [|by left].
    destruct (unavailable e 3); cbn; [by left|].
    destruct (Store.insert_transaction _ _ _ _ _ d1) as [d2|] eqn:Hins; cbn;
      [|by left].
    destruct (unavailable e 4); cbn; [by left|].
    right. exists t, b, d1, d2. cbn. rewrite Hdebit.
    repeat split; try done. intros E. rewrite E in Hdebit. done.
Qed.



Lemma fresh_transaction_id_forallb (id : UUID) (d : DB) :
  fresh_transaction_id id d →
  forallb (λ r, negb (tx_id r =? id)%N) (transactions d) = true.
Proof.
  intros Hfresh. apply forallb_forall. intros r Hr.
  apply negb_true_iff, N.eqb_neq, Hfresh. by apply list_elem_of_In.
Qed.


(** ** Handlers that only read *)

Lemma read_only_ret {A} (a : A) : read_only (mret a).
Proof. intros s. cbn. repeat split. exists []. by rewrite app_nil_r. Qed.

Lemma read_only_reply {A} h st b : read_only (@reply A h st b).
Proof. intros s. cbn. repeat split. exists []. by rewrite app_nil_r. Qed.

Lemma read_only_bind {A B} (m : Handler A) (k : A → Handler B) :
  read_only m → (∀ a, read_only (k a)) → read_only (m ≫= k).
Proof.
  intros Hm Hk s. unfold mbind, Handler_bind.
  destruct (Hm s) as (Hc & Hp & l & Hl & Hw).
  destruct (m s) as [[r|a] s1]; cbn in *.
  - repeat split; [done..|]. by exists l.
  - destruct (Hk a s1) as (Hc' & Hp' & l' & Hl' & Hw').
    rewrite Hc', Hp', Hl', Hl. repeat split; [done..|].
    exists (l ++ l'). rewrite app_assoc. split; [done|].
    by apply Forall_app.
Qed.

Lemma read_only_db_read {A} (e : Env) (c : Call) (f : DB → DBError + A) :
  written_balance c = None → read_only (store_call e c (db_read f)).
Proof.
  intros Hc s. unfold store_call, db_read. cbn.
  destruct (unavailable e _); cbn; [|destruct (f (committed s)); cbn];
    (repeat split; [done..|]; exists [c]; split; [done|by constructor]).
Qed.

Lemma read_only_pagination_arg c key dv msg :
  read_only (pagination_arg c key dv msg).
Proof.
  unfold pagination_arg, JSON.
  repeat case_match; first [apply read_only_ret|apply read_only_reply].
Qed.

Lemma GetBalance_read_only (e : Env) (c : Context) :
  read_only (GetBalance e c).
Proof.
  unfold GetBalance, JSON, db_QueryRow_balance.
  repeat first
    [ apply read_only_reply | apply read_only_ret
    | apply read_only_bind; [by apply read_only_db_read|intros ?]
    | case_match ].
Qed.

Lemma GetTransactions_read_only (e : Env) (c : Context) :
  read_only (GetTransactions e c).
Proof.
  unfold GetTransactions, JSON, db_QueryRow_exists, db_QueryRow_count,
    db_Query_page.
  repeat first
    [ apply read_only_reply | apply read_only_ret
    | apply read_only_bind;
      [first [by apply read_only_db_read|apply read_only_pagination_arg]
      |intros ?]
    | case_match ].
Qed.

Lemma serve_read_only (h : Handler Empty_set) (d : DB) :
  read_only h →
  store_after (serve h d) = d
  ∧ Forall (λ c, written_balance c = None) (calls_of (serve h d)).
Proof.
  intros Hh. unfold serve, store_after, calls_of.
  destruct (Hh {| committed := d; pending := None; log := [] |})
    as (Hc & _ & l & Hl & Hw).
  destruct (h _) as [[r|[]] s]. cbn in *. by rewrite Hc, Hl.
Qed.

(** ** The balance invariant *)








(** ** Refusals *)

Lemma pagination_arg_bad (segment : string) (q : list (string * string))
    (key : string) (dv : Z) (msg : string) (s : Session) :
  bad_pagination q key →
  pagination_arg {| Params := [("customer_id"%string, segment)];
                    QueryArgs := q |} key dv msg s
  = (inl (refusal msg), s).
Proof.
  intros [Hne Hbad]. unfold pagination_arg, Query. cbn.
  fold (query_text q key).
  destruct (String.eqb_spec (query_text q key) "") as [Hq|_]; [done|].
  destruct (fmt.Sscanf_d (query_text q key)) as [n|]; [|done].
  specialize (Hbad n eq_refl). by replace (n <? 1) with true by lia.
Qed.

Lemma pagination_arg_cases (c : Context) (key : string) (dv : Z)
    (msg : string) (s : Session) :
  pagination_arg c key dv msg s = (inl (refusal msg), s)
  ∨ ∃ v, pagination_arg c key dv msg s = (inr v, s).
Proof.
  unfold pagination_arg. repeat case_match; cbn; eauto.
Qed.

(** C5.  A request with invalid input (a body that does not decode, an
    empty name, a negative initial balance, an amount that is not
    positive, a kind other than credit and debit, a page or page size
    that is not an integer of at least 1) is answered [400] without a
    single store call, and the store is left as it was. *)
Theorem invalid_input_touches_nothing (req : Request) :
  InvalidInput req →
  ∀ e d, ∃ msg, serve (handle e req) d = (refusal msg, d, []).
Proof.
  intros Hbad e d.
  destruct Hbad as [|c Hname|c Hneg| |t Hamt|t Hc Hd|seg q Hp|seg q Hp];
    cbn [handle].
  - by eexists.
  - unfold_handlers. unfold ShouldBindJSON, Customer_binding.
    rewrite Hname. cbn. by eexists.
  - unfold_handlers. unfold ShouldBindJSON.
    destruct (Customer_binding c); cbn; [|by eexists].
    replace (InitialBalance c =? 0) with false by lia.
    replace (InitialBalance c <? 0) with true by lia. by eexists.
  - by eexists.
  - unfold_handlers. unfold ShouldBindJSON.
    destruct (Transaction_binding t) eqn:Hbind; [|by eexists].
    apply binding_accepts in Hbind. lia.
  - unfold_handlers. unfold ShouldBindJSON.
    destruct (Transaction_binding t) eqn:Hbind; [|by eexists].
    apply binding_accepts in Hbind. tauto.
  - unfold route_transactions, GetTransactions, serve.
    destruct (uuid.Parse _); [|by eexists].
    unfold mbind, Handler_bind. rewrite pagination_arg_bad by done.
    by eexists.
  - unfold route_transactions, GetTransactions, serve.
    destruct (uuid.Parse _); [|by eexists].
    unfold mbind, Handler_bind.
    destruct (pagination_arg_cases
      {| Params := [("customer_id"%string, seg)]; QueryArgs := q |}
      "page" 1 "Invalid page number"
      {| committed := d; pending := None; log := [] |}) as [->|[v ->]];
      [by eexists|].
    rewrite pagination_arg_bad by done. by eexists.
Qed.

(** ** The balance route *)

(** C6.  Through the route [main] registers, [GetBalance] answers every
    request, for an existing customer or not, with [400 Invalid customer
    ID] and never reads the store: the route binds the path segment as
    [customer_id] and the handler asks for [id]. *)
Theorem GetBalance_route_refuses_every_id (e : Env) (segment : string)
    (query : list (string * string)) (d : DB) :
  serve (route_balance e segment query) d
  = (refusal "Invalid customer ID", d, []).
Proof. reflexivity. Qed.

(** Bound under the name the handler asks for, the segment is read, the
    balance is looked up and handed to the exchange-rate service. *)
Lemma GetBalance_bound_as_id (e : Env) (segment : string) (cid : UUID)
    (d : DB) :
  uuid.Parse segment = Some cid →
  available e 1 →
  serve (GetBalance e {| Params := [("id"%string, segment)];
                         QueryArgs := [] |}) d
  = match customers d !! cid with
    | None =>
        ({| code := StatusNotFound;
            body := ErrorResponse "Customer not found";
            headers := None |}, d, [CallSelectBalance cid])
    | Some row =>
        match getExchangeRate e "USD" "USD" (row_balance row) with
        | inr converted =>
            ({| code := StatusOK;
                body := BalanceJSON cid converted "USD";
                headers := None |}, d, [CallSelectBalance cid])
        | inl err =>
            ({| code := StatusInternalServerError;
                body := ErrorResponse err;
                headers := None |}, d, [CallSelectBalance cid])
        end
    end.
Proof.
  intros Hparse Hav. unfold_handlers.
  unfold Param, Store.select_balance. cbn.
  rewrite Hparse. cbn. rewrite (available_at e 1 0 Hav) by lia.
  destruct (customers d !! cid) as [row|]; cbn; [|done].
  by destruct (getExchangeRate e _ _ _).
Qed.

(** ** Pagination *)

Lemma skip_rows_drop {A} (n : Z) (l : list A) :
  Store.skip_rows n l = drop (Z.to_nat n) l.
Proof.
  revert n. induction l as [|x l IH]; intros n; cbn.
  - by rewrite drop_nil.
  - destruct (Z.leb_spec n 0).
    + by replace (Z.to_nat n) with 0%nat by lia.
    + replace (Z.to_nat n) with (S (Z.to_nat (n - 1))) by lia. apply IH.
Qed.

Lemma first_rows_take {A} (n : Z) (l : list A) :
  Store.first_rows n l = take (Z.to_nat n) l.
Proof.
  revert n. induction l as [|x l IH]; intros n; cbn.
  - by rewrite take_nil.
  - destruct (Z.leb_spec n 0).
    + by replace (Z.to_nat n) with 0%nat by lia.
    + replace (Z.to_nat n) with (S (Z.to_nat (n - 1))) by lia.
      cbn. by rewrite IH.
Qed.

Lemma int_wrap_in_range (z : Z) : GoInt.in_range z → GoInt.int_wrap z = z.
Proof.
  unfold GoInt.in_range, GoInt.int_wrap, GoInt.int_min, GoInt.int_max.
  intros H. rewrite Z.mod_small; lia.
Qed.

Lemma int_wrap_add_l (a b : Z) :
  GoInt.int_wrap (GoInt.int_wrap a + b) = GoInt.int_wrap (a + b).
Proof.
  unfold GoInt.int_wrap. f_equal.
  replace ((a + 2 ^ 63) mod 2 ^ 64 - 2 ^ 63 + b + 2 ^ 63)
    with ((a + 2 ^ 63) mod 2 ^ 64 + b) by lia.
  rewrite Zplus_mod_idemp_l. f_equal. lia.
Qed.

Lemma Sscanf_d_in_range (s : string) (n : Z) :
  fmt.Sscanf_d s = Some n → GoInt.in_range n.
Proof.
  unfold fmt.Sscanf_d, fmt.scanInt. intros H.
  repeat case_match; simplify_eq.
  all: match goal with
       | Hr : GoInt.in_rangeb _ = true |- _ =>
           unfold GoInt.in_rangeb in Hr; unfold GoInt.in_range; lia
       end.
Qed.

Lemma requested_in_range (c : Context) (key : string) (dv v : Z) :
  GoInt.in_range dv → 1 ≤ dv →
  requested c key dv v → GoInt.in_range v ∧ 1 ≤ v.
Proof.
  intros Hdv Hge [[_ ->]|[Hscan ?]]; [done|].
  split; [by eapply Sscanf_d_in_range|done].
Qed.

Lemma pagination_arg_requested (c : Context) (key : string) (dv v : Z)
    (msg : string) (s : Session) :
  requested c key dv v → pagination_arg c key dv msg s = (inr v, s).
Proof.
  unfold pagination_arg. intros [[-> ->]|[Hscan Hge]]; [done|].
  destruct (String.eqb_spec (Query c key) "") as [Hq|_].
  { rewrite Hq in Hscan. discriminate Hscan. }
  rewrite Hscan. by replace (v <? 1) with false by lia.
Qed.

(** The listing a request gets when it names an existing customer, its
    pagination parameters are in order and the store can be reached. *)
Lemma GetTransactions_listing (e : Env) (c : Context) (d : DB) (cid : UUID)
    (page pageSize : Z) :
  uuid.Parse (Param c "customer_id") = Some cid →
  is_Some (customers d !! cid) →
  available e 3 →
  requested c "page" 1 page →
  requested c "page_size" 10 pageSize →
  let offset := GoInt.mul (GoInt.sub page 1) pageSize in
  let totalCount := Store.select_count cid d in
  0 ≤ offset →
  serve (GetTransactions e c) d
  = ({| code := StatusOK;
        body := TransactionsJSON
          (render <$> take (Z.to_nat pageSize)
             (drop (Z.to_nat offset)
                (order_by_created_at_desc (planner e) (Store.journal cid d))));
        headers := Some
          {| X_Total_Count := totalCount; X_Page := page;
             X_Page_Size := pageSize;
             X_Total_Pages :=
               GoInt.div (GoInt.sub (GoInt.add totalCount pageSize) 1)
                 pageSize |} |},
     d,
     [CallSelectExists cid; CallSelectCount cid;
      CallSelectPage cid pageSize offset]).
Proof.
  intros Hparse Hrow Hav Hpage Hsize offset totalCount Hoff.
  subst offset totalCount.
  assert (Hps : 1 ≤ pageSize).
  { by destruct Hsize as [[_ ->]|[_ ?]]. }
  unfold serve, GetTransactions. rewrite Hparse.
  unfold mbind, Handler_bind.
  rewrite (pagination_arg_requested _ _ _ _ _ _ Hpage).
  rewrite (pagination_arg_requested _ _ _ _ _ _ Hsize).
  unfold db_QueryRow_exists, db_QueryRow_count, db_Query_page, store_call,
    db_read, reply, Store.select_exists, Store.select_page. cbn.
  rewrite (available_at e 3 0 Hav) by lia.
  rewrite bool_decide_eq_true_2 by done. cbn.
  rewrite (available_at e 3 1 Hav) by lia. cbn.
  rewrite (available_at e 3 2 Hav) by lia.
  replace (_ || _) with false by lia.
  by rewrite first_rows_take, skip_rows_drop.
Qed.

Lemma total_pages_ceiling (totalCount pageSize : Z) :
  0 ≤ totalCount → 1 ≤ pageSize →
  totalCount + pageSize - 1 ≤ GoInt.int_max →
  let totalPages :=
    GoInt.div (GoInt.sub (GoInt.add totalCount pageSize) 1) pageSize in
  (totalPages - 1) * pageSize < totalCount ≤ totalPages * pageSize.
Proof.
  intros HT Hps Hmax. unfold GoInt.div, GoInt.sub, GoInt.add.
  replace (GoInt.int_wrap (totalCount + pageSize) - 1)
    with (GoInt.int_wrap (totalCount + pageSize) + -1) by lia.
  rewrite int_wrap_add_l.
  replace (totalCount + pageSize + -1) with (totalCount + pageSize - 1)
    by lia.
  assert (Hr : GoInt.in_range (totalCount + pageSize - 1)).
  { unfold GoInt.in_range, GoInt.int_min. lia. }
  rewrite (int_wrap_in_range _ Hr).
  rewrite Z.quot_div_nonneg by lia.
  pose proof (Z.mul_div_le (totalCount + pageSize - 1) pageSize ltac:(lia)).
  pose proof (Z.mul_succ_div_gt (totalCount + pageSize - 1) pageSize
                ltac:(lia)).
  pose proof (Z.div_pos (totalCount + pageSize - 1) pageSize
                ltac:(lia) ltac:(lia)).
  assert (Hq : (totalCount + pageSize - 1) / pageSize
               ≤ totalCount + pageSize - 1) by nia.
  rewrite int_wrap_in_range
    by (unfold GoInt.in_range, GoInt.int_min; lia).
  nia.
Qed.

(** X26.  Within the range of [int] the listing is the window the page
    and the page size name.  For a valid request on an existing customer
    whose offset [(page-1)*pageSize] and whose sum [totalCount+pageSize-1]
    do not exceed the largest [int], the answer is the window of at most
    [pageSize] rows that starts at that offset in the ordering of the
    journal, [X-Total-Pages] is the ceiling of [totalCount/pageSize], and
    a window that starts at or beyond [totalCount] is an empty listing
    answered [200]. *)
Theorem GetTransactions_window (e : Env) (c : Context) (d : DB) (cid : UUID)
    (page pageSize : Z) :
  uuid.Parse (Param c "customer_id") = Some cid →
  is_Some (customers d !! cid) →
  available e 3 →
  requested c "page" 1 page →
  requested c "page_size" 10 pageSize →
  let totalCount := Z.of_nat (length (Store.journal cid d)) in
  (page - 1) * pageSize ≤ GoInt.int_max →
  totalCount + pageSize - 1 ≤ GoInt.int_max →
  ∃ totalPages,
    response_of (serve (GetTransactions e c) d)
    = {| code := StatusOK;
         body := TransactionsJSON
           (render <$> take (Z.to_nat pageSize)
              (drop (Z.to_nat ((page - 1) * pageSize))
                 (order_by_created_at_desc (planner e)
                    (Store.journal cid d))));
         headers := Some {| X_Total_Count := totalCount; X_Page := page;
                            X_Page_Size := pageSize;
                            X_Total_Pages := totalPages |} |}
    ∧ store_after (serve (GetTransactions e c) d) = d
    ∧ (totalPages - 1) * pageSize < totalCount ≤ totalPages * pageSize
    ∧ (totalCount ≤ (page - 1) * pageSize →
       page_of (response_of (serve (GetTransactions e c) d)) = []).
Proof.
  intros Hparse Hrow Hav Hpage Hsize totalCount Hoff Htot.
  assert (Hin1 : GoInt.in_range 1) by (unfold GoInt.in_range; done).
  assert (Hin10 : GoInt.in_range 10) by (unfold GoInt.in_range; done).
  destruct (requested_in_range _ _ _ _ Hin1 ltac:(lia) Hpage) as [Hpr Hp1].
  destruct (requested_in_range _ _ _ _ Hin10 ltac:(lia) Hsize) as [Hsr Hs1].
  assert (Hoffset : GoInt.mul (GoInt.sub page 1) pageSize
                    = (page - 1) * pageSize).
  { unfold GoInt.mul, GoInt.sub. unfold GoInt.in_range, GoInt.int_min in *.
    rewrite (int_wrap_in_range (page - 1))
      by (unfold GoInt.in_range, GoInt.int_min; lia).
    apply int_wrap_in_range. unfold GoInt.in_range, GoInt.int_min. nia. }
  pose proof (GetTransactions_listing e c d cid page pageSize Hparse Hrow
                Hav Hpage Hsize) as Hrun.
  cbn zeta in Hrun. rewrite Hoffset in Hrun.
  specialize (Hrun ltac:(nia)).
  eexists. rewrite Hrun. unfold response_of, store_after, page_of. cbn.
  split; [reflexivity|]. split; [reflexivity|]. split.
  - apply total_pages_ceiling; [|done..]. unfold Store.select_count. lia.
  - intros Hbeyond. rewrite drop_ge; [by rewrite take_nil|].
    rewrite (Permutation_length (order_by_permutation (planner e) _)).
    subst totalCount. lia.
Qed.

(** ** Ordering of a listing *)




(** ** The pages of one journal *)

Lemma windows_concat {A} (p n : nat) (l : list A) :
  (0 < p)%nat → (length l ≤ n * p)%nat →
  concat ((λ k, take p (drop (k * p) l)) <$> seq 0 n) = l.
Proof.
  intros Hp. revert l. induction n as [|n IH]; intros l Hlen.
  - destruct l; [done|cbn in Hlen; lia].
  - cbn [seq]. rewrite fmap_cons. cbn [concat].
    rewrite <- fmap_S_seq, <- list_fmap_compose.
    rewrite (list_fmap_ext _ (λ k, take p (drop (k * p) (drop p l)))).
    2: { intros i k _. cbn. by rewrite drop_drop. }
    rewrite IH; [by rewrite take_drop|].
    rewrite length_drop. lia.
Qed.

Lemma same_instant_same_row (l : list TransactionRow)
    (r1 r2 : TransactionRow) :
  NoDup (tx_created_at <$> l) → r1 ∈ l → r2 ∈ l →
  tx_created_at r1 = tx_created_at r2 → r1 = r2.
Proof.
  induction l as [|x l IH]; intros Hnd H1 H2 Heq.
  - by apply elem_of_nil in H1.
  - rewrite fmap_cons in Hnd. apply NoDup_cons in Hnd as [Hx Hnd].
    apply elem_of_cons in H1 as [->|H1];
      apply elem_of_cons in H2 as [->|H2]; [done| | |by apply IH].
    + destruct Hx. rewrite Heq. by apply list_elem_of_fmap_2.
    + destruct Hx. rewrite <- Heq. by apply list_elem_of_fmap_2.
Qed.

(** With pairwise distinct timestamps every plan orders the journal the
    same way. *)
Lemma distinct_instants_one_ordering (pl1 pl2 : Planner)
    (l : list TransactionRow) :
  NoDup (tx_created_at <$> l) →
  order_by_created_at_desc pl1 l = order_by_created_at_desc pl2 l.
Proof.
  intros Hnd. apply (Sorted_unique_strong newer_first).
  - intros r1 r2 H1 H2 H12 H21.
    rewrite (order_by_permutation pl1) in H1.
    rewrite (order_by_permutation pl2) in H2.
    apply (same_instant_same_row l); [done..|].
    unfold newer_first in *. lia.
  - apply order_by_sorted.
  - apply order_by_sorted.
  - by rewrite !order_by_permutation.
Qed.

Lemma pages_needed (T p : Z) (k : nat) :
  0 ≤ T → 1 ≤ p →
  (1 ≤ k ≤ Z.to_nat ((T + p - 1) / p))%nat →
  (Z.of_nat k - 1) * p < T.
Proof.
  intros HT Hp Hk.
  pose proof (Z.mul_div_le (T + p - 1) p ltac:(lia)).
  pose proof (Z.div_pos (T + p - 1) p ltac:(lia) ltac:(lia)).
  nia.
Qed.

Lemma pages_suffice (T p : Z) :
  0 ≤ T → 1 ≤ p →
  (Z.to_nat T ≤ Z.to_nat ((T + p - 1) / p) * Z.to_nat p)%nat.
Proof.
  intros HT Hp.
  pose proof (Z.mul_succ_div_gt (T + p - 1) p ltac:(lia)).
  pose proof (Z.div_pos (T + p - 1) p ltac:(lia) ltac:(lia)).
  nia.
Qed.

(** C7, for pages cut from one ordering.  Take a store, a customer with
    [T] transactions, a page size [p >= 1], and ask for the pages 1 to
    [ceil(T/p)], each answered by a store that can be reached.  If no two
    transactions of the customer carry the same timestamp, or if the store
    orders the journal the same way for every page, the pages concatenated
    are the rendering of one ordering of the journal, newest first: every
    transaction once, none left out. *)
Theorem pages_cover_the_journal (d : DB) (cid : UUID)
    (segment size_text : string) (p : Z) (page_text : nat → string)
    (envs : nat → Env) :
  let T := length (Store.journal cid d) in
  let n := Z.to_nat ((Z.of_nat T + p - 1) / p) in
  uuid.Parse segment = Some cid →
  is_Some (customers d !! cid) →
  Z.of_nat T ≤ GoInt.int_max →
  fmt.Sscanf_d size_text = Some p → 1 ≤ p →
  (∀ k, (1 ≤ k ≤ n)%nat →
        fmt.Sscanf_d (page_text k) = Some (Z.of_nat k)
        ∧ available (envs k) 3) →
  (NoDup (tx_created_at <$> Store.journal cid d)
   ∨ ∀ k, (1 ≤ k ≤ n)%nat →
          order_by_created_at_desc (planner (envs k)) (Store.journal cid d)
          = order_by_created_at_desc (planner (envs 1%nat))
              (Store.journal cid d)) →
  ∃ ordering,
    ordering ≡ₚ Store.journal cid d
    ∧ Sorted newer_first ordering
    ∧ concat ((λ k, page_listing (envs k) segment (page_text k) size_text d)
                <$> seq 1 n)
      = render <$> ordering.
Proof.
  intros T n Hparse Hrow HT Hsize Hp Hpages Hone.
  set (ordering := order_by_created_at_desc (planner (envs 1%nat))
                     (Store.journal cid d)).
  assert (Hsame : ∀ k, (1 ≤ k ≤ n)%nat →
    order_by_created_at_desc (planner (envs k)) (Store.journal cid d)
    = ordering).
  { destruct Hone as [Hnd|Hone]; [|done].
    intros k _. by apply distinct_instants_one_ordering. }
  exists ordering. split; [apply order_by_permutation|].
  split; [apply order_by_sorted|].
  assert (Hpage : ∀ k, (1 ≤ k ≤ n)%nat →
    page_listing (envs k) segment (page_text k) size_text d
    = take (Z.to_nat p) (drop ((k - 1) * Z.to_nat p) (render <$> ordering))).
  { intros k Hk. destruct (Hpages k Hk) as [Hscan Hav].
    pose proof (pages_needed (Z.of_nat T) p k ltac:(lia) Hp Hk) as Hlt.
    assert (Hoffset : GoInt.mul (GoInt.sub (Z.of_nat k) 1) p
                      = (Z.of_nat k - 1) * p).
    { unfold GoInt.mul, GoInt.sub.
      pose proof (Sscanf_d_in_range _ _ Hscan) as Hkr.
      unfold GoInt.in_range, GoInt.int_min in Hkr.
      rewrite (int_wrap_in_range (Z.of_nat k - 1))
        by (unfold GoInt.in_range, GoInt.int_min; lia).
      apply int_wrap_in_range. unfold GoInt.in_range, GoInt.int_min. nia. }
    unfold page_listing, route_transactions.
    rewrite (GetTransactions_listing (envs k) _ d cid (Z.of_nat k) p).
    - unfold response_of, page_of. cbn [fst snd body].
      rewrite Hoffset, (Hsame k Hk), fmap_take, fmap_drop.
      do 2 f_equal. nia.
    - done.
    - done.
    - done.
    - right. split; [done|lia].
    - right. by split.
    - rewrite Hoffset. nia. }
  rewrite (list_fmap_ext _
    (λ k, take (Z.to_nat p)
            (drop ((k - 1) * Z.to_nat p) (render <$> ordering))) (seq 1 n)).
  2: { intros i k Hk. apply Hpage.
       apply list_elem_of_lookup_2, elem_of_seq in Hk. lia. }
  rewrite <- fmap_S_seq, <- list_fmap_compose.
  rewrite (list_fmap_ext _
    (λ k, take (Z.to_nat p) (drop (k * Z.to_nat p) (render <$> ordering)))
    (seq 0 n)).
  2: { intros i k _. cbn. by rewrite Nat.sub_0_r. }
  apply windows_concat; [lia|].
  rewrite length_fmap. subst ordering.
  rewrite (Permutation_length (order_by_permutation _ _)).
  pose proof (pages_suffice (Z.of_nat T) p ltac:(lia) Hp).
  subst T n. lia.
Qed.

(** ** The sample run, checked *)

Lemma debited_reachable : reachable debited.
Proof. repeat apply reachable_step. apply reachable_empty. Qed.

Lemma debited_journal : transactions debited = [row_7; row_8].
Proof. reflexivity. Qed.

Lemma calm_available (id : UUID) (t : Time) (pl : Planner) (n : nat) :
  available (calm id t pl) n.
Proof. intros k _. reflexivity. Qed.



(** Scenario C: an opening balance of -50.00 is refused. *)
Lemma invalid_input_touches_nothing_witness :
  ∃ msg,
    serve (handle (calm 1%N 0 forward_plan)
             (PostCustomers (Some {| ID := 0%N; Name := "John Doe";
                                     Balance := 0;
                                     InitialBalance := -5000 |})))
      empty_db
    = (refusal msg, empty_db, []).
Proof.
  apply (invalid_input_touches_nothing
           (PostCustomers (Some {| ID := 0%N; Name := "John Doe";
                                   Balance := 0; InitialBalance := -5000 |}))).
  apply invalid_initial_balance. cbn. lia.
Defined.

Lemma pages_cover_the_journal_witness :
  ∃ ordering,
    ordering ≡ₚ [row_7; row_8]
    ∧ Sorted newer_first ordering
    ∧ page_listing (calm 0%N 0 backward_plan) john_segment "1" "1" debited
      ++ page_listing (calm 0%N 0 backward_plan) john_segment "2" "1" debited
      = render <$> ordering.
Proof.
  destruct (pages_cover_the_journal debited 1%N john_segment "1" 1 two_pages
              (λ _, calm 0%N 0 backward_plan))
    as (ordering & Hperm & Hsorted & Hpages).
  - reflexivity.
  - by eexists.
  - vm_compute. discriminate.
  - reflexivity.
  - lia.
  - intros k Hk. split; [|apply calm_available].
    vm_compute in Hk.
    destruct k as [|[|[|k]]]; [lia|reflexivity|reflexivity|lia].
  - right. intros k _. reflexivity.
  - exists ordering. split; [exact Hperm|]. split; [exact Hsorted|].
    rewrite <- Hpages. vm_compute. reflexivity.
Defined.

Lemma GetTransactions_window_witness :
  ∃ totalPages,
    response_of (serve (route_transactions (calm 0%N 0 forward_plan)
                          john_segment
                          [("page"%string, "2"%string);
                           ("page_size"%string, "1"%string)]) debited)
    = {| code := StatusOK;
         body := TransactionsJSON [render row_8];
         headers := Some {| X_Total_Count := 2; X_Page := 2;
                            X_Page_Size := 1;
                            X_Total_Pages := totalPages |} |}
    ∧ (totalPages - 1) * 1 < 2 ≤ totalPages * 1.
Proof.
  destruct (GetTransactions_window (calm 0%N 0 forward_plan)
              {| Params := [("customer_id"%string, john_segment)];
                 QueryArgs := [("page"%string, "2"%string);
                               ("page_size"%string, "1"%string)] |}
              debited 1%N 2 1)
    as (totalPages & Hresponse & _ & Hceiling & _).
  - reflexivity.
  - by eexists.
  - apply calm_available.
  - right. split; [reflexivity|lia].
  - right. split; [reflexivity|lia].
  - vm_compute. discriminate.
  - vm_compute. discriminate.
  - exists totalPages. split; [exact Hresponse|exact Hceiling].
Defined.

(** ** Where the listing departs from its description *)

(** Against C7 as stated.  The two transactions of John Doe carry the
    same timestamp.  Page 1 of size 1 answered under one plan and page 2
    answered under the other are the same transaction: the credit comes
    twice and the debit is missing. *)
Lemma pages_can_repeat_a_transaction :
  reachable debited
  ∧ Store.journal 1%N debited = [row_7; row_8]
  ∧ page_listing (calm 0%N 0 forward_plan) john_segment "1" "1" debited
    ++ page_listing (calm 0%N 0 backward_plan) john_segment "2" "1" debited
    = [render row_7; render row_7]
  ∧ ¬ ([render row_7; render row_7]
       ≡ₚ render <$> Store.journal 1%N debited).
Proof.
  split; [apply debited_reachable|].
  split; [vm_compute; reflexivity|]. split; [vm_compute; reflexivity|].
  intros Hperm.
  assert (Hin : render row_8 ∈ [render row_7; render row_7]).
  { rewrite Hperm. cbn. apply elem_of_cons. right. apply elem_of_cons. by left. }
  apply elem_of_cons in Hin as [Hin|Hin]; [discriminate Hin|].
  apply elem_of_cons in Hin as [Hin|Hin]; [discriminate Hin|].
  by apply elem_of_nil in Hin.
Qed.

(** C8, beyond the range of [int].  John Doe has two transactions.
    Page 4611686018427387905 of size 100 starts at offset 2^62 * 100, far
    beyond them; the product wraps to 0 in 64 bits and the answer is the
    first page, not an empty one.  The page size has a documented maximum
    of 100 that the handler does not check: page 4294967297 of size
    4294967296 wraps to the first page as well, and with the largest page
    size the reported number of pages is -1. *)
Theorem offset_wraps_around :
  fmt.Sscanf_d "4611686018427387905" = Some 4611686018427387905
  ∧ fmt.Sscanf_d "100" = Some 100
  ∧ Store.select_count 1%N debited = 2
  ∧ Store.select_count 1%N debited ≤ (4611686018427387905 - 1) * 100
  ∧ serve (route_transactions (calm 0%N 0 forward_plan) john_segment
             [("page"%string, "4611686018427387905"%string);
              ("page_size"%string, "100"%string)]) debited
    = ({| code := StatusOK;
          body := TransactionsJSON [render row_7; render row_8];
          headers := Some {| X_Total_Count := 2;
                             X_Page := 4611686018427387905;
                             X_Page_Size := 100;
                             X_Total_Pages := 1 |} |},
       debited,
       [CallSelectExists 1%N; CallSelectCount 1%N;
        CallSelectPage 1%N 100 0])
  ∧ page_listing (calm 0%N 0 forward_plan) john_segment
      "4294967297" "4294967296" debited
    = [render row_7; render row_8]
  ∧ X_Total_Pages <$> headers (response_of
      (serve (route_transactions (calm 0%N 0 forward_plan) john_segment
                [("page_size"%string, "9223372036854775807"%string)])
         debited))
    = Some (-1).
Proof.
  split; [vm_compute; reflexivity|]. split; [vm_compute; reflexivity|].
  split; [vm_compute; reflexivity|]. split; [vm_compute; discriminate|].
  split; [vm_compute; reflexivity|].
  split; [vm_compute; reflexivity|]. vm_compute. reflexivity.
Qed.


(** ** What a request does to the store *)

Lemma DB_eta (d : DB) :
  d = {| customers := customers d; transactions := transactions d |}.
Proof. by destruct d. Qed.

Lemma update_balance_checks (nb : Z) (cid : UUID) (row : CustomerRow)
    (d d1 : DB) :
  customers d !! cid = Some row →
  Store.update_balance nb cid d = Some d1 →
  0 ≤ nb < 10 ^ 15
  ∧ d1 = {| customers := set_balance cid row nb d;
            transactions := transactions d |}.
Proof.
  unfold Store.update_balance, Store.decimal_15_2. intros ->.
  destruct (_ && _) eqn:Hok; [|done]. intros [= <-]. split; [lia|done].
Qed.

Lemma insert_transaction_checks (id cid : UUID) (ty : string) (a : Z)
    (t : Time) (d1 d2 : DB) :
  Store.insert_transaction id cid ty a t d1 = Some d2 →
  fresh_transaction_id id d1
  ∧ is_Some (customers d1 !! cid)
  ∧ (ty = "credit"%string ∨ ty = "debit"%string)
  ∧ 0 < a < 10 ^ 15
  ∧ d2 = {| customers := customers d1;
            transactions := transactions d1 ++
              [{| tx_id := id; tx_customer_id := cid; tx_type := ty;
                  tx_amount := a; tx_created_at := t |}] |}.
Proof.
  unfold Store.insert_transaction, Store.decimal_15_2.
  destruct (forallb _ _) eqn:Hpk; [|done].
  destruct (bool_decide _) eqn:Hfk; [|done].
  destruct (_ || _) eqn:Hty; [|done].
  destruct (_ && _ && _) eqn:Hamt; [|done].
  cbn. intros [= <-].
  split.
  { intros r Hr. rewrite forallb_forall in Hpk.
    apply list_elem_of_In, Hpk, negb_true_iff, N.eqb_neq in Hr. done. }
  split; [by apply bool_decide_eq_true_1 in Hfk|].
  split.
  { apply orb_true_iff in Hty as [H|H]; apply String.eqb_eq in H; auto. }
  split; [lia|done].
Qed.

Lemma split_chars_app (n : nat) (s : string) :
  ((Store.split_chars n s).1 ++ (Store.split_chars n s).2)%string = s.
Proof.
  revert n. induction s as [|c s IH]; intros n; cbn; [done|].
  destruct (Store.is_continuation c).
  - specialize (IH n). destruct (Store.split_chars n s) as [kept excess].
    cbn in *. change (String c (kept +:+ excess) = String c s).
    by rewrite IH.
  - destruct n as [|n]; [done|].
    specialize (IH n). destruct (Store.split_chars n s) as [kept excess].
    cbn in *. change (String c (kept +:+ excess) = String c s).
    by rewrite IH.
Qed.

Lemma split_chars_chars (n : nat) (s : string) :
  (Store.chars (Store.split_chars n s).1 ≤ n)%nat.
Proof.
  revert n. induction s as [|c s IH]; intros n; cbn; [lia|].
  destruct (Store.is_continuation c) eqn:Hc.
  - specialize (IH n). destruct (Store.split_chars n s). cbn in *.
    by rewrite Hc.
  - destruct n as [|n]; cbn; [lia|].
    specialize (IH n). destruct (Store.split_chars n s). cbn in *.
    rewrite Hc. lia.
Qed.

Lemma split_chars_all (n : nat) (s : string) :
  (Store.chars s ≤ n)%nat → Store.split_chars n s = (s, EmptyString).
Proof.
  revert n. induction s as [|c s IH]; intros n; cbn; [done|].
  destruct (Store.is_continuation c).
  - intros Hn. by rewrite IH.
  - destruct n as [|n]; [lia|]. intros Hn. rewrite IH by lia. done.
Qed.

Lemma split_chars_nonempty (n : nat) (s : string) :
  s ≠ EmptyString → (Store.split_chars (S n) s).1 ≠ EmptyString.
Proof.
  destruct s as [|c s]; [done|]. intros _. cbn.
  destruct (Store.is_continuation c); by destruct (Store.split_chars _ s).
Qed.

Lemma has_nul_app (s1 s2 : string) :
  Store.has_nul (s1 ++ s2) = Store.has_nul s1 || Store.has_nul s2.
Proof.
  induction s1 as [|c s1 IH]; [done|].
  change (Store.has_nul (String c (s1 +:+ s2))
          = Store.has_nul (String c s1) || Store.has_nul s2).
  cbn. by rewrite IH, orb_assoc.
Qed.

(** What [VARCHAR(n)] keeps: the first [n] characters, free of zero
    bytes, and the whole text when it has no more than [n]. *)
Lemma varchar_stored (n : nat) (s stored : string) :
  Store.varchar n s = Some stored →
  stored = (Store.split_chars n s).1
  ∧ Store.has_nul s = false
  ∧ Store.all_blank (Store.split_chars n s).2 = true
  ∧ (Store.chars stored ≤ n)%nat
  ∧ Store.has_nul stored = false.
Proof.
  unfold Store.varchar. destruct (Store.has_nul s) eqn:Hnul; [done|].
  pose proof (split_chars_app n s) as Happ.
  pose proof (split_chars_chars n s) as Hlen.
  destruct (Store.split_chars n s) as [kept excess]. cbn in *.
  destruct (Store.all_blank excess) eqn:Hblank; [|done].
  intros [= <-]. repeat split; try done.
  rewrite <- Happ, has_nul_app in Hnul. by apply orb_false_iff in Hnul as [? _].
Qed.

Lemma varchar_fits (n : nat) (s : string) :
  Store.has_nul s = false → (Store.chars s ≤ n)%nat →
  Store.varchar n s = Some s.
Proof.
  intros Hnul Hlen. unfold Store.varchar. rewrite Hnul.
  by rewrite split_chars_all.
Qed.

Lemma CreateCustomer_effect (e : Env) (decoded : option Customer) (d : DB) :
  (store_after (serve (CreateCustomer e decoded) d) = d
   ∧ code (response_of (serve (CreateCustomer e decoded) d)) ≠ StatusCreated)
  ∨ (∃ c,
       decoded = Some c
       ∧ Name c ≠ EmptyString
       ∧ Store.varchar 255 (Name c) = Some (stored_name c)
       ∧ 0 ≤ opening_balance c < 10 ^ 15
       ∧ customers d !! new_uuid e = None
       ∧ unavailable e 0 = false
       ∧ serve (CreateCustomer e decoded) d
         = ({| code := StatusCreated;
               body := CustomerResponse (new_uuid e) (Name c)
                         (opening_balance c);
               headers := None |},
            opened_with e c d,
            [CallInsertCustomer (new_uuid e) (Name c) (opening_balance c)])).
Proof.
  unfold_handlers.
  unfold ShouldBindJSON, Store.insert_customer, Store.decimal_15_2,
    opened_with, stored_name.
  destruct decoded as [c|]; cbn; [|by left].
  destruct (Customer_binding c) eqn:Hbind; cbn; [|by left].
  fold (opening_balance c).
  destruct (opening_balance c <? 0) eqn:Hneg; cbn; [by left|].
  destruct (unavailable e 0) eqn:H0; cbn; [by left|].
  destruct (customers d !! new_uuid e) eqn:Hnew; cbn; [by left|].
  destruct (Store.varchar 255 (Name c)) as [stored|] eqn:Hvar; cbn;
    [|by left].
  destruct (_ && _) eqn:Hok; cbn; [|by left].
  right. exists c. rewrite Hvar. repeat split; try done; try lia.
  unfold Customer_binding in Hbind.
  by apply negb_true_iff, String.eqb_neq in Hbind.
Qed.

Lemma CreateTransaction_effect (e : Env) (decoded : option Transaction)
    (d : DB) :
  (store_after (serve (CreateTransaction e decoded) d) = d
   ∧ code (response_of (serve (CreateTransaction e decoded) d))
       ≠ StatusCreated)
  ∨ (∃ t row,
       decoded = Some t
       ∧ ((Type_ t = "credit"%string ∨ Type_ t = "debit"%string)
          ∧ 0 < Amount t < 10 ^ 15)
       ∧ customers d !! CustomerID t = Some row
       ∧ (Type_ t = "debit"%string → Amount t ≤ row_balance row)
       ∧ 0 ≤ new_balance t (row_balance row) < 10 ^ 15
       ∧ fresh_transaction_id (new_uuid e) d
       ∧ serve (CreateTransaction e decoded) d
         = ({| code := StatusCreated;
               body := TransactionResponse (new_uuid e) "success"
                         (new_balance t (row_balance row));
               headers := None |},
            applied e t row d,
            apply_calls e t (new_balance t (row_balance row)))).
Proof.
  destruct (CreateTransaction_outcome e decoded d)
    as [?|(t & b & d1 & d2 & -> & Hbind & Hsel & Hdebit & Hupd & Hins & Hrun)];
    [by left|].
  right. cbn zeta in *.
  unfold Store.select_balance in Hsel.
  destruct (customers d !! CustomerID t) as [row|] eqn:Hrow; [|done].
  injection Hsel as <-. fold (new_balance t (row_balance row)) in *.
  destruct (update_balance_checks _ _ _ _ _ Hrow Hupd) as [Hnb ->].
  destruct (insert_transaction_checks _ _ _ _ _ _ _ Hins)
    as (Hfresh & _ & Hty & Hamt & ->).
  exists t, row. repeat split; try done; try lia.
Qed.

Lemma CreateTransaction_created_available (e : Env)
    (decoded : option Transaction) (d : DB) :
  code (response_of (serve (CreateTransaction e decoded) d)) = StatusCreated →
  available e 5.
Proof.
  unfold_handlers. unfold ShouldBindJSON.
  destruct decoded as [t|]; cbn; [|done].
  destruct (Transaction_binding t); cbn; [|done].
  destruct (unavailable e 0) eqn:H0; cbn; [done|].
  destruct (unavailable e 1) eqn:H1; cbn; [done|].
  destruct (Store.select_balance (CustomerID t) d) as [b|]; cbn; [|done].
  destruct (String.eqb (Type_ t) "debit"); cbn;
    [destruct (b <? Amount t); cbn; [done|]|];
    (destruct (unavailable e 2) eqn:H2; cbn; [done|]);
    (destruct (Store.update_balance _ _ d); cbn; [|done]);
    (destruct (unavailable e 3) eqn:H3; cbn; [done|]);
    (destruct (Store.insert_transaction _ _ _ _ _ _); cbn; [|done]);
    (destruct (unavailable e 4) eqn:H4; cbn; [done|]);
    intros _ k Hk; destruct k as [|[|[|[|[|k]]]]]; try done; lia.
Qed.

(** The effect of any request: none, a new customer, or one applied
    transaction. *)
Lemma handle_effect (e : Env) (req : Request) (d : DB) :
  store_after (serve (handle e req) d) = d
  ∨ (∃ c, req = PostCustomers (Some c)
          ∧ Name c ≠ EmptyString
          ∧ Store.varchar 255 (Name c) = Some (stored_name c)
          ∧ 0 ≤ opening_balance c < 10 ^ 15
          ∧ customers d !! new_uuid e = None
          ∧ code (response_of (serve (handle e req) d)) = StatusCreated
          ∧ store_after (serve (handle e req) d) = opened_with e c d)
  ∨ (∃ t row, req = PostTransactions (Some t)
          ∧ ((Type_ t = "credit"%string ∨ Type_ t = "debit"%string)
             ∧ 0 < Amount t < 10 ^ 15)
          ∧ customers d !! CustomerID t = Some row
          ∧ (Type_ t = "debit"%string → Amount t ≤ row_balance row)
          ∧ 0 ≤ new_balance t (row_balance row) < 10 ^ 15
          ∧ fresh_transaction_id (new_uuid e) d
          ∧ code (response_of (serve (handle e req) d)) = StatusCreated
          ∧ store_after (serve (handle e req) d) = applied e t row d).
Proof.
  destruct req as [decoded|decoded|seg q|seg q]; cbn [handle].
  - destruct (CreateCustomer_effect e decoded d)
      as [[? _]|(c & -> & ? & ? & ? & ? & _ & Hrun)]; [by left|].
    right. left. exists c. rewrite Hrun. repeat split; try done; lia.
  - destruct (CreateTransaction_effect e decoded d)
      as [[? _]|(t & row & -> & ? & ? & ? & ? & ? & Hrun)]; [by left|].
    right. right. exists t, row. rewrite Hrun.
    repeat split; try done; try lia; tauto.
  - left. apply serve_read_only, GetBalance_read_only.
  - left. apply serve_read_only, GetTransactions_read_only.
Qed.

Lemma journal_opened_with (e : Env) (c : Customer) (d : DB) (id : UUID) :
  Store.journal id (opened_with e c d) = Store.journal id d.
Proof. done. Qed.

Lemma journal_applied (e : Env) (t : Transaction) (row : CustomerRow)
    (d : DB) (id : UUID) :
  Store.journal id (applied e t row d)
  = Store.journal id d
    ++ (if decide (CustomerID t = id) then [journal_entry e t] else []).
Proof.
  unfold Store.journal, applied. cbn [transactions].
  rewrite List.filter_app. f_equal. cbn. unfold Store.owned_by. cbn.
  case_decide as Hid.
  - by replace (CustomerID t =? id)%N with true by (symmetry; by apply N.eqb_eq).
  - by replace (CustomerID t =? id)%N with false
      by (symmetry; by apply N.eqb_neq).
Qed.

(** ** The writing handlers with [float64] arithmetic *)

Ltac unfold_float64 :=
  unfold Float64.serve, Float64.CreateTransaction, Float64.CreateCustomer,
    Float64.write_through, Float64.JSON_deferred_Rollback, Float64.JSON,
    Float64.response_of, Float64.store_after, Float64.statements_of.

Lemma Float64_binding_accepts (t : Float64.Transaction) :
  Float64.Transaction_binding t = true ↔
  (Float64.Type_ t = "credit"%string ∨ Float64.Type_ t = "debit"%string)
  ∧ Float64.ltb Float64.zero (Float64.Amount t) = true.
Proof.
  unfold Float64.Transaction_binding.
  rewrite !andb_true_iff, orb_true_iff, !negb_true_iff, !String.eqb_eq,
    String.eqb_neq.
  split.
  - intros [[_ ?] ?]. done.
  - intros [Hk ?]. repeat split; [|done..].
    intros E. rewrite E in Hk. by destruct Hk.
Qed.

Lemma Float64_update_balance_checks (nb : Float64.float64) (cid : UUID)
    (row : CustomerRow) (d d1 : DB) :
  customers d !! cid = Some row →
  Float64.update_balance nb cid d = Some d1 →
  ∃ stored, Float64.Numeric nb = Some stored ∧ 0 ≤ stored < 10 ^ 15
    ∧ d1 = {| customers := set_balance cid row stored d;
              transactions := transactions d |}.
Proof.
  intros Hrow. unfold Float64.update_balance. rewrite Hrow.
  destruct (Float64.Numeric nb) as [stored|]; [|done]. cbn.
  intros Hupd. exists stored. split; [done|].
  by apply (update_balance_checks _ _ _ _ _ Hrow Hupd).
Qed.

Lemma Float64_insert_transaction_checks (id cid : UUID) (ty : string)
    (a : Float64.float64) (t : Time) (d1 d2 : DB) :
  Float64.insert_transaction id cid ty a t d1 = Some d2 →
  ∃ amount, Float64.Numeric a = Some amount
    ∧ fresh_transaction_id id d1
    ∧ 0 < amount < 10 ^ 15
    ∧ d2 = {| customers := customers d1;
              transactions := transactions d1 ++
                [{| tx_id := id; tx_customer_id := cid; tx_type := ty;
                    tx_amount := amount; tx_created_at := t |}] |}.
Proof.
  unfold Float64.insert_transaction.
  destruct (Float64.Numeric a) as [amount|]; [|done]. cbn.
  intros Hins. exists amount. split; [done|].
  destruct (insert_transaction_checks _ _ _ _ _ _ _ Hins)
    as (? & _ & _ & ? & ?). done.
Qed.

(** The second half of [CreateTransaction] inside the block the first
    half opened: either the session is back where it was, idle, and the
    answer is not [201], or all three statements went through. *)
Lemma Float64_write_through_run (e : Env) (t : Float64.Transaction)
    (nb : Float64.float64) (row : CustomerRow) (d : DB) :
  customers d !! Float64.CustomerID t = Some row →
  let r := Float64.run (unavailable e) (Float64.write_through e t nb)
             {| Float64.committed := d;
                Float64.status := Float64.InTransaction d |}
             [Float64.Begin;
              Float64.SelectBalanceForUpdate (Float64.CustomerID t)] in
  (r.1.2 = {| Float64.committed := d; Float64.status := Float64.Idle |}
   ∧ Float64.code r.1.1 ≠ StatusCreated)
  ∨ (∃ stored amount,
       (Float64.Numeric nb = Some stored ∧ 0 ≤ stored < 10 ^ 15)
       ∧ (Float64.Numeric (Float64.Amount t) = Some amount
          ∧ 0 < amount < 10 ^ 15)
       ∧ fresh_transaction_id (new_uuid e) d
       ∧ (unavailable e 2 = false ∧ unavailable e 3 = false
          ∧ unavailable e 4 = false)
       ∧ r = ({| Float64.code := StatusCreated;
                 Float64.body :=
                   Float64.TransactionResponse (new_uuid e) "success" nb |},
              {| Float64.committed := Float64.applied e t row stored amount d;
                 Float64.status := Float64.Idle |},
              Float64.apply_statements e t nb)).
Proof.
  intros Hrow r. subst r. unfold_float64. cbn.
  destruct (unavailable e 2) eqn:H2; cbn.
  { destruct (unavailable e 3); by left. }
  destruct (Float64.update_balance nb _ d) as [d1|] eqn:Hupd; cbn.
  2: { destruct (unavailable e 3); by left. }
  destruct (Float64_update_balance_checks _ _ _ _ _ Hrow Hupd)
    as (stored & Hstored & Hrange & ->).
  destruct (unavailable e 3) eqn:H3; cbn.
  { destruct (unavailable e 4); by left. }
  destruct (Float64.insert_transaction _ _ _ _ _ _) as [d2|] eqn:Hins; cbn.
  2: { destruct (unavailable e 4); by left. }
  destruct (Float64_insert_transaction_checks _ _ _ _ _ _ _ Hins)
    as (amount & Hamount & Hfresh & Harange & ->).
  destruct (unavailable e 4) eqn:H4; cbn; [by left|].
  right. exists stored, amount. repeat split; try done; lia.
Qed.

Lemma Float64_CreateTransaction_effect (e : Env)
    (decoded : option Float64.Transaction) (d : DB) :
  let run := Float64.serve e (Float64.CreateTransaction e decoded) d in
  (Float64.store_after run = d
   ∧ Float64.code (Float64.response_of run) ≠ StatusCreated)
  ∨ (∃ t row stored amount,
       let current := Float64.Float64Value (row_balance row) in
       decoded = Some t
       ∧ ((Float64.Type_ t = "credit"%string
           ∨ Float64.Type_ t = "debit"%string)
          ∧ Float64.ltb Float64.zero (Float64.Amount t) = true)
       ∧ customers d !! Float64.CustomerID t = Some row
       ∧ (Float64.Type_ t = "debit"%string →
          Float64.ltb current (Float64.Amount t) = false)
       ∧ (Float64.Numeric (Float64.new_balance t current) = Some stored
          ∧ 0 ≤ stored < 10 ^ 15)
       ∧ (Float64.Numeric (Float64.Amount t) = Some amount
          ∧ 0 < amount < 10 ^ 15)
       ∧ fresh_transaction_id (new_uuid e) d
       ∧ available e 5
       ∧ run = ({| Float64.code := StatusCreated;
                   Float64.body :=
                     Float64.TransactionResponse (new_uuid e) "success"
                       (Float64.new_balance t current) |},
                Float64.applied e t row stored amount d,
                Float64.apply_statements e t
                  (Float64.new_balance t current))).
Proof.
  intros run. subst run.
  unfold Float64.serve, Float64.CreateTransaction,
    Float64.JSON_deferred_Rollback, Float64.JSON,
    Float64.response_of, Float64.store_after, ShouldBindJSON.
  destruct decoded as [t|]; cbn; [|by left].
  destruct (Float64.Transaction_binding t) eqn:Hbind; cbn; [|by left].
  apply Float64_binding_accepts in Hbind.
  destruct (unavailable e 0) eqn:H0; cbn; [by left|].
  destruct (unavailable e 1) eqn:H1; cbn.
  { destruct (unavailable e 2); by left. }
  unfold Store.select_balance.
  destruct (customers d !! Float64.CustomerID t) as [row|] eqn:Hrow; cbn.
  2: { destruct (unavailable e 2); by left. }
  set (current := Float64.Float64Value (row_balance row)).
  assert (Hgo : ∀ nb,
    nb = Float64.new_balance t current →
    (Float64.Type_ t = "debit"%string →
     Float64.ltb current (Float64.Amount t) = false) →
    let run :=
      (let '(r, c, sent) :=
         Float64.run (unavailable e) (Float64.write_through e t nb)
           {| Float64.committed := d;
              Float64.status := Float64.InTransaction d |}
           [Float64.Begin;
            Float64.SelectBalanceForUpdate (Float64.CustomerID t)] in
       (r, Float64.committed c, sent)) in
    (run.1.2 = d ∧ Float64.code run.1.1 ≠ StatusCreated)
    ∨ (∃ t0 row0 stored amount,
         Some t = Some t0
         ∧ ((Float64.Type_ t0 = "credit"%string
             ∨ Float64.Type_ t0 = "debit"%string)
            ∧ Float64.ltb Float64.zero (Float64.Amount t0) = true)
         ∧ customers d !! Float64.CustomerID t0 = Some row0
         ∧ (Float64.Type_ t0 = "debit"%string →
            Float64.ltb (Float64.Float64Value (row_balance row0))
              (Float64.Amount t0) = false)
         ∧ (Float64.Numeric
              (Float64.new_balance t0
                 (Float64.Float64Value (row_balance row0))) = Some stored
            ∧ 0 ≤ stored < 10 ^ 15)
         ∧ (Float64.Numeric (Float64.Amount t0) = Some amount
            ∧ 0 < amount < 10 ^ 15)
         ∧ fresh_transaction_id (new_uuid e) d
         ∧ available e 5
         ∧ run = ({| Float64.code := StatusCreated;
                     Float64.body :=
                       Float64.TransactionResponse (new_uuid e) "success"
                         (Float64.new_balance t0
                            (Float64.Float64Value (row_balance row0))) |},
                  Float64.applied e t0 row0 stored amount d,
                  Float64.apply_statements e t0
                    (Float64.new_balance t0
                       (Float64.Float64Value (row_balance row0)))))).
  { intros nb Hnb Hdebit.
    destruct (Float64_write_through_run e t nb row d Hrow)
      as [[Hconn Hcode]|(stored & amount & Hs & Ha & Hfresh & (H2 & H3 & H4)
                         & Hrun)].
    - left. destruct (Float64.run _ _ _ _) as [[r c] sent]. cbn in *.
      by subst c.
    - right. exists t, row, stored, amount. fold current. rewrite <- Hnb.
      rewrite Hrun. repeat split; try done; try tauto.
      intros k Hk. destruct k as [|[|[|[|[|k]]]]]; try done; lia. }
  destruct (String.eqb_spec (Float64.Type_ t) "debit") as [Hty|Hty].
  - destruct (Float64.ltb current (Float64.Amount t)) eqn:Hlt; cbn.
    { destruct (unavailable e 2); by left. }
    apply Hgo; [|done].
    unfold Float64.new_balance. by rewrite Hty, String.eqb_refl.
  - apply Hgo; [|done].
    unfold Float64.new_balance.
    by destruct (String.eqb_spec (Float64.Type_ t) "debit").
Qed.



Lemma Float64_CreateCustomer_effect (e : Env)
    (decoded : option Float64.Customer) (d : DB) :
  let run := Float64.serve e (Float64.CreateCustomer e decoded) d in
  (Float64.store_after run = d
   ∧ Float64.code (Float64.response_of run) ≠ StatusCreated)
  ∨ (∃ c name stored,
       decoded = Some c
       ∧ Float64.Name c ≠ EmptyString
       ∧ Float64.ltb (Float64.opening_balance c) Float64.zero = false
       ∧ Store.varchar 255 (Float64.Name c) = Some name
       ∧ (Float64.Numeric (Float64.opening_balance c) = Some stored
          ∧ 0 ≤ stored < 10 ^ 15)
       ∧ customers d !! new_uuid e = None
       ∧ unavailable e 0 = false
       ∧ run = ({| Float64.code := StatusCreated;
                   Float64.body :=
                     Float64.CustomerResponse (new_uuid e) (Float64.Name c)
                       (Float64.opening_balance c) |},
                {| customers :=
                     <[new_uuid e := {| row_name := name;
                                        row_balance := stored |}]>
                       (customers d);
                   transactions := transactions d |},
                [Float64.InsertCustomer (new_uuid e) (Float64.Name c)
                   (Float64.opening_balance c)])).
Proof.
  intros run. subst run. unfold_float64. unfold ShouldBindJSON.
  destruct decoded as [c|]; cbn; [|by left].
  destruct (Float64.Customer_binding c) eqn:Hbind; cbn; [|by left].
  fold (Float64.opening_balance c).
  destruct (Float64.ltb (Float64.opening_balance c) Float64.zero) eqn:Hneg;
    cbn; [by left|].
  destruct (unavailable e 0) eqn:H0; cbn; [by left|].
  unfold Float64.insert_customer, Store.insert_customer, Store.decimal_15_2.
  destruct (Float64.Numeric (Float64.opening_balance c)) as [stored|]
    eqn:Hstored; cbn; [|by left].
  destruct (customers d !! new_uuid e) eqn:Hnew; cbn; [by left|].
  destruct (Store.varchar 255 (Float64.Name c)) as [name|] eqn:Hvar; cbn;
    [|by left].
  destruct (_ && _) eqn:Hok; cbn; [|by left].
  right. exists c, name, stored. repeat split; try done; try lia.
  unfold Float64.Customer_binding in Hbind.
  by apply negb_true_iff, String.eqb_neq in Hbind.
Qed.

Lemma Float64_CreateCustomer_accepted (e : Env) (c : Float64.Customer)
    (name : string) (stored : Z) (d : DB) :
  Float64.Name c ≠ EmptyString →
  Float64.ltb (Float64.opening_balance c) Float64.zero = false →
  Store.varchar 255 (Float64.Name c) = Some name →
  Float64.Numeric (Float64.opening_balance c) = Some stored →
  0 ≤ stored < 10 ^ 15 →
  customers d !! new_uuid e = None →
  available e 1 →
  Float64.serve e (Float64.CreateCustomer e (Some c)) d
  = ({| Float64.code := StatusCreated;
        Float64.body :=
          Float64.CustomerResponse (new_uuid e) (Float64.Name c)
            (Float64.opening_balance c) |},
     {| customers := <[new_uuid e := {| row_name := name;
                                        row_balance := stored |}]>
                       (customers d);
        transactions := transactions d |},
     [Float64.InsertCustomer (new_uuid e) (Float64.Name c)
        (Float64.opening_balance c)]).
Proof.
  intros Hname Hneg Hvar Hstored Hrange Hnew Hav.
  assert (Hbind : Float64.Customer_binding c = true).
  { unfold Float64.Customer_binding. by apply negb_true_iff, String.eqb_neq. }
  unfold_float64. unfold ShouldBindJSON. rewrite Hbind. cbn.
  fold (Float64.opening_balance c). rewrite Hneg. cbn.
  rewrite (available_at e 1 0 Hav) by lia. cbn.
  unfold Float64.insert_customer, Store.insert_customer, Store.decimal_15_2.
  rewrite Hstored. cbn. rewrite Hnew, Hvar.
  by replace (_ && _) with true by lia.
Qed.

Lemma candidate_nonneg (m : positive) (e q c : Z) :
  Float64.candidate m e q = Some c → 0 ≤ c.
Proof.
  unfold Float64.candidate.
  set (A := 2 ^ Z.max (e - 2) 0 * 10 ^ Z.max (- q) 0).
  set (B := 10 ^ Z.max q 0 * 2 ^ Z.max (2 - e) 0).
  assert (HA : 0 < A).
  { apply Z.mul_pos_pos; apply Z.pow_pos_nonneg; lia. }
  assert (HB : 0 < B).
  { apply Z.mul_pos_pos; apply Z.pow_pos_nonneg; lia. }
  assert (Hc : 0 ≤ 4 * Z.pos m * A / B).
  { apply Z.div_pos; [|done]. apply Z.mul_nonneg_nonneg; lia. }
  intros H. repeat case_match; simplify_eq; lia.
Qed.

Lemma shortest_nonneg (fuel : nat) (m : positive) (e q : Z) :
  0 ≤ Float64.coefficient (Float64.shortest fuel m e q).
Proof.
  revert q. induction fuel as [|fuel IH]; intros q; unfold Float64.shortest;
    fold Float64.shortest.
  - destruct (Float64.candidate m e q) as [c|] eqn:Hc; cbn.
    + by eapply candidate_nonneg.
    + apply Z.mul_nonneg_nonneg; [apply Z.mul_nonneg_nonneg|];
        try lia; apply Z.pow_nonneg; lia.
  - destruct (Float64.candidate m e q) as [c|] eqn:Hc; cbn.
    + by eapply candidate_nonneg.
    + apply IH.
Qed.

Lemma round_to_scale_2_nonneg (d : Float64.Decimal) :
  0 ≤ Float64.coefficient d → 0 ≤ Float64.round_to_scale_2 d.
Proof.
  intros Hc. unfold Float64.round_to_scale_2.
  replace (Float64.coefficient d <? 0) with false by lia.
  rewrite Z.abs_eq by done.
  destruct (0 <=? Float64.exponent d + 2) eqn:Hq.
  - apply Z.mul_nonneg_nonneg; [done|]. apply Z.pow_nonneg. lia.
  - assert (0 < 10 ^ (- (Float64.exponent d + 2)))
      by (apply Z.pow_pos_nonneg; lia).
    apply Z.div_pos; lia.
Qed.

(** A [float64] that is not below 0 comes to a number of hundredths that
    is not below 0. *)
Lemma Float64_Numeric_nonneg (f : Float64.float64) (hundredths : Z) :
  Float64.ltb f Float64.zero = false →
  Float64.Numeric f = Some hundredths → 0 ≤ hundredths.
Proof.
  unfold Float64.Numeric, Float64.FormatFloat, Float64.ltb, Float64.zero.
  destruct f as [s|s| |s m e]; try done.
  - intros _ [= <-]. done.
  - destruct s; [done|]. intros _ [= <-].
    apply round_to_scale_2_nonneg. apply shortest_nonneg.
Qed.

(** ** What is written and what is answered *)




(** C10, with the arithmetic the handler has.  When [initial_balance] is
    0 the new customer is stored with the [balance] field of the request
    rounded to two decimals, and with [initial_balance] rounded to two
    decimals when that is not 0, whatever [balance] says; the answer
    carries the value as requested, not rounded.  The customer is created
    whenever the name is not empty and is a text the [name] column takes,
    the store can be reached, the drawn identifier is new and the rounded
    balance fits the column. *)
Theorem CreateCustomer_opening_balance_rounded (e : Env) (d : DB)
    (c : Float64.Customer) (name : string) (stored : Z) :
  Float64.Name c ≠ EmptyString →
  Store.varchar 255 (Float64.Name c) = Some name →
  available e 1 →
  customers d !! new_uuid e = None →
  stored < 10 ^ 15 →
  let created (B : Float64.float64) :=
    Float64.serve e (Float64.CreateCustomer e (Some c)) d
    = ({| Float64.code := StatusCreated;
          Float64.body :=
            Float64.CustomerResponse (new_uuid e) (Float64.Name c) B |},
       {| customers := <[new_uuid e := {| row_name := name;
                                          row_balance := stored |}]>
                         (customers d);
          transactions := transactions d |},
       [Float64.InsertCustomer (new_uuid e) (Float64.Name c) B]) in
  (Float64.eqb (Float64.InitialBalance c) Float64.zero = true →
   Float64.ltb (Float64.Balance c) Float64.zero = false →
   Float64.Numeric (Float64.Balance c) = Some stored →
   created (Float64.Balance c))
  ∧ (Float64.eqb (Float64.InitialBalance c) Float64.zero = false →
     Float64.ltb (Float64.InitialBalance c) Float64.zero = false →
     Float64.Numeric (Float64.InitialBalance c) = Some stored →
     created (Float64.InitialBalance c)).
Proof.
  intros Hname Hvar Hav Hnew Hrange created. subst created.
  split; intros Hinit Hneg Hstored.
  - assert (Hopen : Float64.opening_balance c = Float64.Balance c).
    { unfold Float64.opening_balance. by rewrite Hinit. }
    pose proof (Float64_Numeric_nonneg _ _ Hneg Hstored).
    rewrite <- Hopen in *.
    by apply Float64_CreateCustomer_accepted.
  - assert (Hopen : Float64.opening_balance c = Float64.InitialBalance c).
    { unfold Float64.opening_balance. by rewrite Hinit. }
    pose proof (Float64_Numeric_nonneg _ _ Hneg Hstored).
    rewrite <- Hopen in *.
    by apply Float64_CreateCustomer_accepted.
Qed.

Lemma CreateCustomer_opening_balance_rounded_witness :
  Float64.serve (calm 1%N 0 forward_plan)
    (Float64.CreateCustomer (calm 1%N 0 forward_plan) (Some john_doe_1000))
    empty_db
  = ({| Float64.code := StatusCreated;
        Float64.body := Float64.CustomerResponse 1%N "John Doe"
                          (Float64.of_int 1000) |},
     opened,
     [Float64.InsertCustomer 1%N "John Doe" (Float64.of_int 1000)]).
Proof.
  destruct (CreateCustomer_opening_balance_rounded (calm 1%N 0 forward_plan)
              empty_db john_doe_1000 "John Doe" 100000) as [_ Hinitial].
  - discriminate.
  - reflexivity.
  - apply calm_available.
  - reflexivity.
  - lia.
  - apply Hinitial.
    + reflexivity.
    + reflexivity.
    + vm_compute. reflexivity.
Defined.

(** Against C10 as stated.  A request with [initial_balance] 0 and
    [balance] 0.004 is answered [201] with the balance 0.004, and the
    customer is stored with the balance 0.00: the created balance is not
    [B]. *)
Lemma sub_cent_opening_balance_is_rounded :
  let run := Float64.serve (calm 1%N 0 forward_plan)
               (Float64.CreateCustomer (calm 1%N 0 forward_plan)
                  (Some john_doe_0_004)) empty_db in
  Float64.eqb (Float64.InitialBalance john_doe_0_004) Float64.zero = true
  ∧ Float64.ltb Float64.zero (Float64.Balance john_doe_0_004) = true
  ∧ Float64.response_of run
    = {| Float64.code := StatusCreated;
         Float64.body := Float64.CustomerResponse 1%N "John Doe"
                           (Float64.ratio 4 1000) |}
  ∧ customers (Float64.store_after run) !! 1%N
    = Some {| row_name := "John Doe"; row_balance := 0 |}
  ∧ Float64.is_hundredths (Float64.ratio 4 1000) 0 = false.
Proof. vm_compute. repeat split. Qed.

(** ** Requests served at the same time *)

(** C4, on the connection the service has.  Two credits of 200 and 100
    for the same customer, with a balance of 1000.00, are served at the
    same time.  Both open their transaction and read the balance before
    either writes: the second [begin] only draws a warning, the row lock
    does not hold back the session that took it, and the first [commit]
    ends the block for both.  Both are answered [201], with the balances
    1200 and 1100; the journal has both credits and the stored balance is
    1100.00.  Served one after the other, in either order, they leave
    1300.00: one update is lost. *)
Theorem concurrent_credits_lose_an_update :
  let first := Float64.serve at_7
                 (Float64.CreateTransaction at_7
                    (Some (credit_of (Float64.of_int 200)))) in
  let second := Float64.serve at_8
                  (Float64.CreateTransaction at_8
                     (Some (credit_of (Float64.of_int 100)))) in
  customers opened !! 1%N
    = Some {| row_name := "John Doe"; row_balance := 100000 |}
  ∧ Float64.serve_concurrently both_read_first two_credits opened
    = ([Some {| Float64.code := StatusCreated;
                Float64.body := Float64.TransactionResponse 7%N "success"
                                  (Float64.of_int 1200) |};
        Some {| Float64.code := StatusCreated;
                Float64.body := Float64.TransactionResponse 8%N "success"
                                  (Float64.of_int 1100) |}],
       {| Float64.committed :=
            {| customers :=
                 {[ 1%N := {| row_name := "John Doe";
                              row_balance := 110000 |} ]};
               transactions :=
                 [{| tx_id := 7%N; tx_customer_id := 1%N;
                     tx_type := "credit"; tx_amount := 20000;
                     tx_created_at := 5000000 |};
                  {| tx_id := 8%N; tx_customer_id := 1%N;
                     tx_type := "credit"; tx_amount := 10000;
                     tx_created_at := 5000000 |}] |};
          Float64.status := Float64.Idle |})
  ∧ customers (Float64.store_after
                 (second (Float64.store_after (first opened)))) !! 1%N
    = Some {| row_name := "John Doe"; row_balance := 130000 |}
  ∧ customers (Float64.store_after
                 (first (Float64.store_after (second opened)))) !! 1%N
    = Some {| row_name := "John Doe"; row_balance := 130000 |}.
Proof. vm_compute. repeat split. Qed.

(** ** More on the writing handlers *)

(** X1.  A run of [CreateTransaction] is all or nothing: either it is not
    answered [201] and the store is as before, or it is answered [201],
    the row of the named customer keeps its name and gets the balance of
    the answer rounded to two decimals, every other row is untouched, and
    exactly one journal row is appended, with the amount of the request
    rounded to two decimals. *)
Theorem CreateTransaction_all_or_nothing (e : Env)
    (decoded : option Float64.Transaction) (d : DB) :
  let run := Float64.serve e (Float64.CreateTransaction e decoded) d in
  (Float64.code (Float64.response_of run) ≠ StatusCreated
   ∧ Float64.store_after run = d)
  ∨ (∃ t row answered stored amount,
       decoded = Some t
       ∧ customers d !! Float64.CustomerID t = Some row
       ∧ Float64.response_of run
         = {| Float64.code := StatusCreated;
              Float64.body :=
                Float64.TransactionResponse (new_uuid e) "success"
                  answered |}
       ∧ Float64.Numeric answered = Some stored
       ∧ Float64.Numeric (Float64.Amount t) = Some amount
       ∧ customers (Float64.store_after run)
         = <[Float64.CustomerID t := {| row_name := row_name row;
                                        row_balance := stored |}]>
             (customers d)
       ∧ transactions (Float64.store_after run)
         = transactions d ++
             [{| tx_id := new_uuid e; tx_customer_id := Float64.CustomerID t;
                 tx_type := Float64.Type_ t; tx_amount := amount;
                 tx_created_at := now e |}]).
Proof.
  intros run. subst run.
  destruct (Float64_CreateTransaction_effect e decoded d)
    as [[? ?]|(t & row & stored & amount & -> & _ & Hrow & _ & [Hs _]
               & [Ha _] & _ & _ & Hrun)]; [by left|].
  right. eexists t, row, _, stored, amount. rewrite Hrun. by repeat split.
Qed.



(** X29.  Served alone, [CreateTransaction] leaves no transaction open
    on the connection: whatever the request, the store and the statement
    that fails, the session is idle when the handler has answered. *)
Theorem CreateTransaction_leaves_the_session_idle (e : Env)
    (decoded : option Float64.Transaction) (d : DB) :
  Float64.status
    (Float64.run (unavailable e) (Float64.CreateTransaction e decoded)
       {| Float64.committed := d; Float64.status := Float64.Idle |} []).1.2
  = Float64.Idle.
Proof.
  unfold Float64.CreateTransaction, Float64.JSON_deferred_Rollback,
    Float64.JSON, ShouldBindJSON.
  destruct decoded as [t|]; cbn; [|done].
  destruct (Float64.Transaction_binding t) eqn:Hbind; cbn; [|done].
  destruct (unavailable e 0) eqn:H0; cbn; [done|].
  destruct (unavailable e 1) eqn:H1; cbn.
  { by destruct (unavailable e 2). }
  unfold Store.select_balance.
  destruct (customers d !! Float64.CustomerID t) as [row|] eqn:Hrow; cbn.
  2: { by destruct (unavailable e 2). }
  assert (Hgo : ∀ nb,
    Float64.status
      (Float64.run (unavailable e) (Float64.write_through e t nb)
         {| Float64.committed := d;
            Float64.status := Float64.InTransaction d |}
         [Float64.Begin;
          Float64.SelectBalanceForUpdate (Float64.CustomerID t)]).1.2
    = Float64.Idle).
  { intros nb.
    destruct (Float64_write_through_run e t nb row d Hrow)
      as [[-> _]|(stored & amount & _ & _ & _ & _ & ->)]; done. }
  destruct (String.eqb (Float64.Type_ t) "debit"); [|apply Hgo].
  destruct (Float64.ltb _ _); cbn; [|apply Hgo].
  by destruct (unavailable e 2).
Qed.

(** X30.  With [float64] amounts as well, the writing handlers refuse
    invalid input before they send a single statement: the answer is a
    [400] and the store is as it was. *)
Theorem invalid_body_sends_nothing (p : Float64.Prog) :
  InvalidBody p →
  ∀ e d, ∃ msg, Float64.serve e p d = (refusal64 msg, d, []).
Proof.
  intros Hbad e d.
  destruct Hbad as [e'|e' c Hname|e' c Hneg|e'|e' t Hamt|e' t Hc Hd].
  - by eexists.
  - unfold_float64. unfold ShouldBindJSON, Float64.Customer_binding.
    rewrite Hname. cbn. by eexists.
  - unfold_float64. unfold ShouldBindJSON.
    destruct (Float64.Customer_binding c); cbn; [|by eexists].
    fold (Float64.opening_balance c). rewrite Hneg. by eexists.
  - by eexists.
  - unfold_float64. unfold ShouldBindJSON.
    destruct (Float64.Transaction_binding t) eqn:Hbind; [|by eexists].
    apply Float64_binding_accepts in Hbind as [_ Hpos]. congruence.
  - unfold_float64. unfold ShouldBindJSON.
    destruct (Float64.Transaction_binding t) eqn:Hbind; [|by eexists].
    apply Float64_binding_accepts in Hbind as [Hk _]. tauto.
Qed.

Lemma invalid_body_sends_nothing_witness :
  ∃ msg,
    Float64.serve at_7
      (Float64.CreateTransaction at_7 (Some (credit_of Float64.zero))) opened
    = (refusal64 msg, opened, []).
Proof.
  apply (invalid_body_sends_nothing
           (Float64.CreateTransaction at_7 (Some (credit_of Float64.zero)))).
  apply invalid64_amount. reflexivity.
Defined.

(** X31.  With [float64] amounts as well, a debit above the balance the
    handler reads changes nothing, whatever happens to the statements;
    when the connection holds, the answer is [400 Insufficient balance]
    after [begin], the [SELECT ... FOR UPDATE] and the deferred
    [rollback]. *)
Theorem debit_above_the_balance_is_refused (e : Env) (d : DB)
    (cid tid : UUID) (row : CustomerRow) (a : Float64.float64) :
  customers d !! cid = Some row →
  Float64.ltb Float64.zero a = true →
  Float64.ltb (Float64.Float64Value (row_balance row)) a = true →
  let t := {| Float64.TransactionID := tid; Float64.CustomerID := cid;
              Float64.Type_ := "debit"; Float64.Amount := a |} in
  Float64.code (Float64.response_of
                  (Float64.serve e (Float64.CreateTransaction e (Some t)) d))
    ≠ StatusCreated
  ∧ Float64.store_after
      (Float64.serve e (Float64.CreateTransaction e (Some t)) d) = d
  ∧ (available e 3 →
     Float64.serve e (Float64.CreateTransaction e (Some t)) d
     = (refusal64 "Insufficient balance", d,
        [Float64.Begin; Float64.SelectBalanceForUpdate cid;
         Float64.Rollback])).
Proof.
  intros Hrow Ha Hlt t.
  assert (Hno : Float64.code (Float64.response_of
                  (Float64.serve e (Float64.CreateTransaction e (Some t)) d))
                ≠ StatusCreated
              ∧ Float64.store_after
                  (Float64.serve e (Float64.CreateTransaction e (Some t)) d)
                = d).
  { destruct (Float64_CreateTransaction_effect e (Some t) d)
      as [[? ?]|(t' & row' & stored & amount & Ht & _ & Hrow' & Hdebit & _)];
      [done|].
    injection Ht as <-. cbn in Hrow', Hdebit. rewrite Hrow in Hrow'.
    injection Hrow' as <-. specialize (Hdebit eq_refl). congruence. }
  destruct Hno as [Hcode Hstore]. split; [done|]. split; [done|].
  intros Hav.
  assert (Hbind : Float64.Transaction_binding t = true).
  { apply Float64_binding_accepts. cbn. split; [by right|done]. }
  unfold Float64.serve, Float64.CreateTransaction,
    Float64.JSON_deferred_Rollback, Float64.JSON, ShouldBindJSON.
  rewrite Hbind. cbn.
  rewrite (available_at e 3 0 Hav) by lia. cbn.
  rewrite (available_at e 3 1 Hav) by lia. cbn.
  unfold Store.select_balance. rewrite Hrow. cbn. rewrite Hlt. cbn.
  by rewrite (available_at e 3 2 Hav) by lia.
Qed.

Lemma debit_above_the_balance_is_refused_witness :
  Float64.store_after
    (Float64.serve at_7
       (Float64.CreateTransaction at_7
          (Some (debit_of (Float64.ratio 100001 100)))) opened) = opened.
Proof.
  apply (debit_above_the_balance_is_refused at_7 opened 1%N 0%N john_row
           (Float64.ratio 100001 100)).
  - reflexivity.
  - reflexivity.
  - reflexivity.
Defined.

(** X32.  On the shared session the rollback of one request undoes what
    another has written and not yet committed.  A credit of 200 has
    updated the balance of 1000.00 when a debit of 5000 for the same
    customer is refused; the deferred [rollback] of the debit ends the
    block of the credit, whose row is then inserted outside any
    transaction.  The credit is answered [201] with the balance 1200, its
    row is in the journal, and the stored balance is still 1000.00. *)
Theorem rollback_undoes_another_request :
  Float64.serve_concurrently refusal_in_between credit_and_refused_debit
    opened
  = ([Some {| Float64.code := StatusCreated;
              Float64.body := Float64.TransactionResponse 7%N "success"
                                (Float64.of_int 1200) |};
      Some (refusal64 "Insufficient balance")],
     {| Float64.committed :=
          {| customers :=
               {[ 1%N := {| row_name := "John Doe";
                            row_balance := 100000 |} ]};
             transactions :=
               [{| tx_id := 7%N; tx_customer_id := 1%N;
                   tx_type := "credit"; tx_amount := 20000;
                   tx_created_at := 5000000 |}] |};
        Float64.status := Float64.Idle |}).
Proof. vm_compute. reflexivity. Qed.

(** ** What [Sscanf] makes of a pagination parameter *)

Lemma SkipSpace_digit (c : ascii) (s : string) :
  fmt.isDigit c = true → fmt.SkipSpace (String c s) = Some (String c s).
Proof.
  unfold fmt.isDigit. intros Hc.
  apply andb_true_iff in Hc as [Hlo Hhi]. apply N.leb_le in Hlo, Hhi.
  assert (Hne : ∀ k, (k < 48 ∨ 57 < k)%N → (N_of_ascii c =? k)%N = false).
  { intros k Hk. apply N.eqb_neq. lia. }
  cbn. unfold fmt.isNewline, fmt.isSpace, fmt.isSpace2, fmt.isSpace3.
  rewrite !Hne by lia. cbn.
  destruct s as [|c2 s2]; [done|]. by destruct s2.
Qed.

Lemma scanNumber_rest (digits rest : string) (c : ascii) :
  all_digits digits = true → fmt.isDigit c = false →
  fmt.scanNumber (digits ++ String c rest) = fmt.scanNumber digits.
Proof.
  intros Hd Hc. induction digits as [|x digits IH].
  - change (fmt.scanNumber (String c rest) = []). cbn. by rewrite Hc.
  - cbn in Hd. apply andb_true_iff in Hd as [Hx Hd].
    change (fmt.scanNumber (String x (digits +:+ String c rest))
            = fmt.scanNumber (String x digits)).
    cbn. rewrite Hx. by rewrite IH.
Qed.

(** X27.  [Sscanf] with [%d] reads the leading digits and ignores what
    follows them: [page=1_0] and [page=1abc] are page 1, not invalid
    input. *)
Theorem Sscanf_d_ignores_what_follows (digits rest : string) (c : ascii) :
  digits ≠ EmptyString → all_digits digits = true →
  fmt.isDigit c = false →
  fmt.Sscanf_d (digits ++ String c rest) = fmt.Sscanf_d digits.
Proof.
  intros Hne Hd Hc. destruct digits as [|x digits]; [done|].
  pose proof Hd as Hd'. cbn in Hd'. apply andb_true_iff in Hd' as [Hx _].
  unfold fmt.Sscanf_d, fmt.scanInt.
  change (String x digits +:+ String c rest)
    with (String x (digits +:+ String c rest)).
  rewrite !SkipSpace_digit by done.
  assert (Hminus : Ascii.eqb x "-" = false).
  { apply Ascii.eqb_neq. intros ->. done. }
  assert (Hplus : Ascii.eqb x "+" = false).
  { apply Ascii.eqb_neq. intros ->. done. }
  rewrite Hminus, Hplus.
  change (String x (digits +:+ String c rest))
    with (String x digits +:+ String c rest).
  by rewrite scanNumber_rest.
Qed.

Lemma Sscanf_d_ignores_what_follows_witness :
  fmt.Sscanf_d "1_0" = fmt.Sscanf_d "1" ∧ fmt.Sscanf_d "1" = Some 1.
Proof.
  split; [|reflexivity].
  apply (Sscanf_d_ignores_what_follows "1" "0" "_").
  - discriminate.
  - reflexivity.
  - reflexivity.
Defined.

(** ** Applying a transaction *)

(** X2.  A well-formed request that names no existing customer is
    answered [404 Customer not found] after the transaction was opened
    and the balance was looked for; the store is as before. *)
Theorem CreateTransaction_unknown_customer (e : Env) (d : DB)
    (t : Transaction) :
  Transaction_binding t = true →
  customers d !! CustomerID t = None →
  available e 2 →
  serve (CreateTransaction e (Some t)) d
  = ({| code := StatusNotFound;
        body := ErrorResponse "Customer not found";
        headers := None |},
     d,
     [CallBegin; CallSelectBalanceForUpdate (CustomerID t)]).
Proof.
  intros Hbind Hnone Hav. unfold_handlers.
  unfold ShouldBindJSON, Store.select_balance. rewrite Hbind. cbn.
  rewrite (available_at e 2 0 Hav) by lia. cbn.
  rewrite (available_at e 2 1 Hav) by lia. by rewrite Hnone.
Qed.

(** X3.  When any one of the five store calls of [CreateTransaction]
    fails, the request is not answered [201] and nothing of it is
    committed, whatever had been written inside the transaction. *)
Theorem CreateTransaction_store_failure_rolls_back (e : Env)
    (decoded : option Transaction) (d : DB) (k : nat) :
  (k < 5)%nat →
  unavailable e k = true →
  code (response_of (serve (CreateTransaction e decoded) d)) ≠ StatusCreated
  ∧ store_after (serve (CreateTransaction e decoded) d) = d.
Proof.
  intros Hk Hfail.
  assert (Hcode : code (response_of (serve (CreateTransaction e decoded) d))
                  ≠ StatusCreated).
  { intros Hcreated.
    pose proof (CreateTransaction_created_available e decoded d Hcreated k Hk).
    congruence. }
  split; [done|].
  destruct (CreateTransaction_effect e decoded d)
    as [[? _]|(t & row & _ & _ & _ & _ & _ & _ & Hrun)]; [done|].
  rewrite Hrun in Hcode. by destruct Hcode.
Qed.

(** X4.  When the balance was updated and the journal row inserted inside
    the transaction and only the commit fails, the answer is [500 Failed
    to commit transaction] and neither write is in the store. *)
Theorem CreateTransaction_commit_failure (e : Env) (d : DB)
    (t : Transaction) (row : CustomerRow) :
  customers d !! CustomerID t = Some row →
  Type_ t = "credit"%string
    ∨ (Type_ t = "debit"%string ∧ Amount t ≤ row_balance row) →
  0 < Amount t →
  0 ≤ row_balance row < 10 ^ 15 →
  new_balance t (row_balance row) < 10 ^ 15 →
  fresh_transaction_id (new_uuid e) d →
  available e 4 →
  unavailable e 4 = true →
  serve (CreateTransaction e (Some t)) d
  = ({| code := StatusInternalServerError;
        body := ErrorResponse "Failed to commit transaction";
        headers := None |},
     d,
     apply_calls e t (new_balance t (row_balance row))).
Proof.
  intros Hrow Hkind Ha Hb Hnb Hfresh Hav H4.
  assert (Hbind : Transaction_binding t = true).
  { apply binding_accepts. split; [tauto|done]. }
  pose proof (available_at e 4 0 Hav ltac:(lia)) as H0.
  pose proof (available_at e 4 1 Hav ltac:(lia)) as H1.
  pose proof (available_at e 4 2 Hav ltac:(lia)) as H2.
  pose proof (available_at e 4 3 Hav ltac:(lia)) as H3.
  pose proof (fresh_transaction_id_forallb _ _ Hfresh) as Hpk.
  unfold_handlers.
  unfold ShouldBindJSON, Store.select_balance, Store.update_balance,
    Store.insert_transaction, Store.decimal_15_2, apply_calls, new_balance
    in *.
  rewrite Hbind. cbn. rewrite H0. cbn. rewrite H1, Hrow. cbn.
  destruct Hkind as [Hty|[Hty Hle]]; rewrite Hty in *; cbn in Hnb |- *.
  - rewrite H2, Hrow. cbn.
    replace (_ && _ && _) with true by lia. cbn. rewrite H3, Hpk. cbn.
    rewrite bool_decide_eq_true_2 by (rewrite lookup_insert_eq; by eexists).
    replace (_ && _ && _) with true by lia. cbn. by rewrite H4.
  - replace (row_balance row <? Amount t) with false by lia. cbn.
    rewrite H2, Hrow. cbn.
    replace (_ && _ && _) with true by lia. cbn. rewrite H3, Hpk. cbn.
    rewrite bool_decide_eq_true_2 by (rewrite lookup_insert_eq; by eexists).
    replace (_ && _ && _) with true by lia. cbn. by rewrite H4.
Qed.

(** ** What no request does *)

(** X5.  No request deletes or renames a customer, and the only request
    that changes a customer's balance is a [POST /transactions] naming
    that customer and answered [201]. *)
Theorem customers_are_kept (e : Env) (req : Request) (d : DB) (id : UUID)
    (row : CustomerRow) :
  customers d !! id = Some row →
  ∃ balance,
    customers (store_after (serve (handle e req) d)) !! id
    = Some {| row_name := row_name row; row_balance := balance |}
    ∧ (balance ≠ row_balance row →
       code (response_of (serve (handle e req) d)) = StatusCreated
       ∧ ∃ t, req = PostTransactions (Some t) ∧ CustomerID t = id).
Proof.
  intros Hrow.
  destruct (handle_effect e req d)
    as [->|[(c & _ & _ & _ & _ & Hnew & _ & ->)
           |(t & row' & -> & _ & Hrow' & _ & _ & _ & Hcode & ->)]].
  - exists (row_balance row). split; [|done]. rewrite Hrow. by destruct row.
  - exists (row_balance row). split; [|done]. unfold opened_with. cbn.
    rewrite lookup_insert_ne by congruence. rewrite Hrow. by destruct row.
  - unfold applied, set_balance. cbn [customers].
    destruct (decide (CustomerID t = id)) as [<-|Hne].
    + rewrite Hrow in Hrow'. injection Hrow' as <-.
      exists (new_balance t (row_balance row)).
      rewrite lookup_insert_eq. split; [done|]. intros _.
      split; [done|]. by exists t.
    + exists (row_balance row). rewrite lookup_insert_ne by done.
      split; [|done]. rewrite Hrow. by destruct row.
Qed.

(** X6.  The journal only grows, and by at most one row per request: the
    rows there are stay as they are and in their order, and a row is
    appended only by a [POST /transactions] answered [201]. *)
Theorem journal_is_append_only (e : Env) (req : Request) (d : DB) :
  transactions (store_after (serve (handle e req) d)) = transactions d
  ∨ (code (response_of (serve (handle e req) d)) = StatusCreated
     ∧ ∃ t, req = PostTransactions (Some t)
            ∧ transactions (store_after (serve (handle e req) d))
              = transactions d ++ [journal_entry e t]).
Proof.
  destruct (handle_effect e req d)
    as [->|[(c & _ & _ & _ & _ & _ & _ & ->)
           |(t & row & -> & _ & _ & _ & _ & _ & Hcode & ->)]].
  - by left.
  - by left.
  - right. split; [done|]. by exists t.
Qed.

(** X10.  A customer comes into being only through a [POST /customers]
    answered [201]: its identifier is the one drawn for that request and
    its name is what [VARCHAR(255)] keeps of the name requested. *)
Theorem customers_come_from_CreateCustomer (e : Env) (req : Request)
    (d : DB) (id : UUID) :
  customers d !! id = None →
  is_Some (customers (store_after (serve (handle e req) d)) !! id) →
  code (response_of (serve (handle e req) d)) = StatusCreated
  ∧ ∃ c row, req = PostCustomers (Some c) ∧ id = new_uuid e
             ∧ customers (store_after (serve (handle e req) d)) !! id
               = Some row
             ∧ Store.varchar 255 (Name c) = Some (row_name row).
Proof.
  intros Hnone.
  destruct (handle_effect e req d)
    as [->|[(c & -> & _ & Hvar & _ & Hnew & Hcode & ->)
           |(t & row & -> & _ & Hrow & _ & _ & _ & _ & ->)]].
  - rewrite Hnone. by intros [? ?].
  - unfold opened_with. cbn [customers].
    destruct (decide (new_uuid e = id)) as [<-|Hne].
    + intros _. split; [done|]. eexists c, _. rewrite lookup_insert_eq.
      by repeat split.
    + rewrite lookup_insert_ne, Hnone by done. by intros [? ?].
  - unfold applied, set_balance. cbn [customers].
    rewrite lookup_insert_ne by congruence. rewrite Hnone. by intros [? ?].
Qed.

(** ** Stores the service can reach *)

Lemma handle_keeps_journal_well_formed (e : Env) (req : Request) (d : DB) :
  journal_well_formed d →
  journal_well_formed (store_after (serve (handle e req) d)).
Proof.
  intros [Hnd Hrows].
  destruct (handle_effect e req d)
    as [->|[(c & _ & _ & _ & _ & Hnew & _ & ->)
           |(t & row & -> & [Hty Hamt] & Hrow & _ & _ & Hfresh & _ & ->)]].
  - done.
  - split; [done|]. intros r Hr. destruct (Hrows r Hr) as ([x Hx] & ? & ?).
    split; [|done]. unfold opened_with. cbn [customers].
    rewrite lookup_insert_ne by congruence. by exists x.
  - unfold journal_well_formed, applied, set_balance.
    cbn [customers transactions]. split.
    + rewrite fmap_app. apply NoDup_app. split; [done|]. split.
      * intros x Hx Hx'. cbn in Hx'. apply list_elem_of_singleton in Hx'.
        subst x. apply list_elem_of_fmap_1 in Hx as (r & Hid & Hr).
        by apply (Hfresh r Hr).
      * cbn. apply NoDup_singleton.
    + intros r Hr. apply elem_of_app in Hr as [Hr|Hr].
      * destruct (Hrows r Hr) as ([x Hx] & ? & ?). split; [|done].
        rewrite lookup_insert. case_decide; by eexists.
      * apply list_elem_of_singleton in Hr. subst r. cbn.
        rewrite lookup_insert_eq. split; [by eexists|done].
Qed.

Lemma handle_keeps_customers_well_formed (e : Env) (req : Request) (d : DB) :
  customers_well_formed d →
  customers_well_formed (store_after (serve (handle e req) d)).
Proof.
  intros Hwf.
  destruct (handle_effect e req d)
    as [->|[(c & _ & Hname & Hvar & Hbal & _ & _ & ->)
           |(t & row & -> & _ & Hrow & _ & Hnb & _ & _ & ->)]].
  - done.
  - intros id row. unfold opened_with. cbn [customers].
    rewrite lookup_insert. case_decide; [|by apply Hwf].
    intros [= <-]. cbn.
    destruct (varchar_stored _ _ _ Hvar) as (Hkept & _ & _ & Hlen & Hnul).
    repeat split; try done; try lia.
    rewrite Hkept. by apply split_chars_nonempty.
  - intros id row'. unfold applied, set_balance. cbn [customers].
    rewrite lookup_insert. case_decide; [|by apply Hwf].
    intros [= <-]. cbn. destruct (Hwf _ _ Hrow) as (? & ? & ? & _). done.
Qed.

(** X8.  In every store the service can reach, transaction identifiers
    are pairwise distinct, every journal row belongs to an existing
    customer, is a credit or a debit and has a positive amount that fits
    [DECIMAL(15,2)], and every customer has a non-empty name of at most
    255 characters without a zero byte and a balance from 0 up to the
    largest [DECIMAL(15,2)]. *)
Theorem reachable_stores_are_well_formed (d : DB) :
  reachable d → journal_well_formed d ∧ customers_well_formed d.
Proof.
  induction 1 as [|d e req _ [IHj IHc]].
  - split.
    + split; [constructor|]. intros r Hr. by apply elem_of_nil in Hr.
    + intros id row. unfold empty_db. cbn. by rewrite lookup_empty.
  - split.
    + by apply handle_keeps_journal_well_formed.
    + by apply handle_keeps_customers_well_formed.
Qed.

Lemma journal_of_absent_customer (d : DB) (id : UUID) :
  journal_well_formed d → customers d !! id = None → Store.journal id d = [].
Proof.
  intros [_ Hrows] Hnone. unfold Store.journal.
  induction (transactions d) as [|r l IH]; [done|]. cbn.
  destruct (Store.owned_by id r) eqn:Hown.
  - apply N.eqb_eq in Hown.
    destruct (Hrows r ltac:(by left)) as ([x Hx] & _). congruence.
  - apply IH. intros r' Hr'. apply Hrows. by right.
Qed.

Lemma reachable_journal_well_formed (d : DB) :
  reachable d → journal_well_formed d.
Proof.
  induction 1 as [|d e req _ IH].
  - split; [constructor|]. intros r Hr. by apply elem_of_nil in Hr.
  - by apply handle_keeps_journal_well_formed.
Qed.

(** The run of a request that passes every check of handler and store. *)
Lemma CreateTransaction_accepted (e : Env) (d : DB) (t : Transaction)
    (row : CustomerRow) :
  customers d !! CustomerID t = Some row →
  (Type_ t = "credit"%string ∨ Type_ t = "debit"%string)
    ∧ 0 < Amount t < 10 ^ 15 →
  (Type_ t = "debit"%string → Amount t ≤ row_balance row) →
  0 ≤ new_balance t (row_balance row) < 10 ^ 15 →
  fresh_transaction_id (new_uuid e) d →
  available e 5 →
  serve (CreateTransaction e (Some t)) d
  = ({| code := StatusCreated;
        body := TransactionResponse (new_uuid e) "success"
                  (new_balance t (row_balance row));
        headers := None |},
     applied e t row d,
     apply_calls e t (new_balance t (row_balance row))).
Proof.
  intros Hrow [Hkind Ha] Hdebit Hnb Hfresh Hav.
  assert (Hbind : Transaction_binding t = true).
  { apply binding_accepts. split; [done|lia]. }
  pose proof (available_at e 5 0 Hav ltac:(lia)) as H0.
  pose proof (available_at e 5 1 Hav ltac:(lia)) as H1.
  pose proof (available_at e 5 2 Hav ltac:(lia)) as H2.
  pose proof (available_at e 5 3 Hav ltac:(lia)) as H3.
  pose proof (available_at e 5 4 Hav ltac:(lia)) as H4.
  pose proof (fresh_transaction_id_forallb _ _ Hfresh) as Hpk.
  unfold_handlers.
  unfold ShouldBindJSON, Store.select_balance, Store.update_balance,
    Store.insert_transaction, Store.decimal_15_2, apply_calls, applied,
    set_balance, journal_entry, new_balance in *.
  rewrite Hbind. cbn. rewrite H0. cbn. rewrite H1, Hrow. cbn.
  destruct Hkind as [Hty|Hty]; rewrite Hty in *; cbn in Hnb |- *.
  - rewrite H2, Hrow. cbn.
    replace (_ && _ && _) with true by lia. cbn. rewrite H3, Hpk. cbn.
    rewrite bool_decide_eq_true_2 by (rewrite lookup_insert_eq; by eexists).
    replace (_ && _ && _) with true by lia. cbn. by rewrite H4.
  - specialize (Hdebit eq_refl).
    replace (row_balance row <? Amount t) with false by lia. cbn.
    rewrite H2, Hrow. cbn.
    replace (_ && _ && _) with true by lia. cbn. rewrite H3, Hpk. cbn.
    rewrite bool_decide_eq_true_2 by (rewrite lookup_insert_eq; by eexists).
    replace (_ && _ && _) with true by lia. cbn. by rewrite H4.
Qed.

(** ** Reading a balance *)

(** X11.  When [GetBalance] answers [200], the identifier it was given
    names an existing customer, the currency is one it supports, exactly
    one plain [SELECT] was made, and the balance in the answer is the
    [conversion_result] the exchange-rate service returned, with result
    [success], for the stored balance converted from USD. *)
Theorem GetBalance_ok_is_a_conversion (e : Env) (c : Context) (d : DB) :
  code (response_of (serve (GetBalance e c) d)) = StatusOK →
  ∃ cid row converted,
    uuid.Parse (Param c "id") = Some cid
    ∧ customers d !! cid = Some row
    ∧ isValidCurrency (DefaultQuery c "currency" "USD") = true
    ∧ exchange_rate_api e "USD" (DefaultQuery c "currency" "USD")
        (row_balance row) = ApiDecoded "success" converted
    ∧ serve (GetBalance e c) d
      = ({| code := StatusOK;
            body := BalanceJSON cid converted
                      (DefaultQuery c "currency" "USD");
            headers := None |},
         d, [CallSelectBalance cid]).
Proof.
  unfold_handlers. unfold getExchangeRate, Store.select_balance.
  destruct (uuid.Parse (Param c "id")) as [cid|]; cbn; [|done].
  destruct (isValidCurrency _) eqn:Hcur; cbn; [|done].
  destruct (unavailable e 0); cbn; [done|].
  destruct (customers d !! cid) as [row|] eqn:Hrow; cbn; [|done].
  destruct (exchange_rate_api e _ _ _) as [err|err|result v] eqn:Hapi; cbn;
    [done..|].
  destruct (String.eqb_spec result "success") as [->|_]; cbn; [|done].
  intros _. by exists cid, row, v.
Qed.

(** X12.  A request for a balance in a currency other than USD, EUR and
    GBP, in exactly that spelling, is refused with a [400] before the
    store or the exchange-rate service is asked: with [Invalid currency
    code] when the identifier the handler reads is well formed, with
    [Invalid customer ID] when it is not.  An empty [currency=] is such a
    currency; only an absent parameter means USD. *)
Theorem GetBalance_unsupported_currency (e : Env) (c : Context) (d : DB)
    (currency : string) :
  lookup_arg "currency" (QueryArgs c) = Some currency →
  currency ≠ "USD"%string → currency ≠ "EUR"%string →
  currency ≠ "GBP"%string →
  serve (GetBalance e c) d
  = (refusal (match uuid.Parse (Param c "id") with
              | Some _ => "Invalid currency code"
              | None => "Invalid customer ID"
              end), d, []).
Proof.
  intros Hq Husd Heur Hgbp. unfold_handlers.
  unfold DefaultQuery, isValidCurrency. rewrite Hq. cbn.
  apply String.eqb_neq in Husd, Heur, Hgbp. rewrite Husd, Heur, Hgbp.
  by destruct (uuid.Parse (Param c "id")).
Qed.

(** X13.  The two reading handlers never change the store and never ask
    it to write a balance, whatever the request, the store and the
    environment. *)
Theorem reading_handlers_write_nothing (e : Env) (c : Context) (d : DB) :
  (store_after (serve (GetBalance e c) d) = d
   ∧ Forall (λ call, written_balance call = None)
       (calls_of (serve (GetBalance e c) d)))
  ∧ (store_after (serve (GetTransactions e c) d) = d
     ∧ Forall (λ call, written_balance call = None)
         (calls_of (serve (GetTransactions e c) d))).
Proof.
  split.
  - apply serve_read_only, GetBalance_read_only.
  - apply serve_read_only, GetTransactions_read_only.
Qed.

(** ** Listing transactions *)

(** X14.  A listing asked for an identifier that names no customer is
    answered [404 Customer not found] after the one query that looks for
    the customer; no count and no page is fetched. *)
Theorem GetTransactions_unknown_customer (e : Env) (c : Context) (d : DB)
    (cid : UUID) (page pageSize : Z) :
  uuid.Parse (Param c "customer_id") = Some cid →
  requested c "page" 1 page →
  requested c "page_size" 10 pageSize →
  customers d !! cid = None →
  available e 1 →
  serve (GetTransactions e c) d
  = ({| code := StatusNotFound;
        body := ErrorResponse "Customer not found";
        headers := None |},
     d, [CallSelectExists cid]).
Proof.
  intros Hparse Hpage Hsize Hnone Hav.
  unfold serve, GetTransactions. rewrite Hparse.
  unfold mbind, Handler_bind.
  rewrite (pagination_arg_requested _ _ _ _ _ _ Hpage).
  rewrite (pagination_arg_requested _ _ _ _ _ _ Hsize).
  unfold db_QueryRow_exists, store_call, db_read, JSON, reply,
    Store.select_exists. cbn.
  rewrite (available_at e 1 0 Hav) by lia.
  rewrite bool_decide_eq_false_2; [done|].
  rewrite Hnone. by intros [? ?].
Qed.

(** X15.  A page never has more rows than the page size, and it has
    exactly as many as the journal still holds from the offset on: the
    smaller of [pageSize] and [totalCount - (page-1)*pageSize], or none
    when the offset is beyond the journal. *)
Theorem GetTransactions_page_length (e : Env) (c : Context) (d : DB)
    (cid : UUID) (page pageSize : Z) :
  uuid.Parse (Param c "customer_id") = Some cid →
  is_Some (customers d !! cid) →
  available e 3 →
  requested c "page" 1 page →
  requested c "page_size" 10 pageSize →
  (page - 1) * pageSize ≤ GoInt.int_max →
  Z.of_nat (length (page_of (response_of (serve (GetTransactions e c) d))))
  = Z.min pageSize
      (Z.max 0 (Z.of_nat (length (Store.journal cid d))
                - (page - 1) * pageSize)).
Proof.
  intros Hparse Hrow Hav Hpage Hsize Hoff.
  assert (Hin1 : GoInt.in_range 1) by (unfold GoInt.in_range; done).
  assert (Hin10 : GoInt.in_range 10) by (unfold GoInt.in_range; done).
  destruct (requested_in_range _ _ _ _ Hin1 ltac:(lia) Hpage) as [Hpr Hp1].
  destruct (requested_in_range _ _ _ _ Hin10 ltac:(lia) Hsize) as [Hsr Hs1].
  assert (Hoffset : GoInt.mul (GoInt.sub page 1) pageSize
                    = (page - 1) * pageSize).
  { unfold GoInt.mul, GoInt.sub. unfold GoInt.in_range, GoInt.int_min in *.
    rewrite (int_wrap_in_range (page - 1))
      by (unfold GoInt.in_range, GoInt.int_min; lia).
    apply int_wrap_in_range. unfold GoInt.in_range, GoInt.int_min. nia. }
  pose proof (GetTransactions_listing e c d cid page pageSize Hparse Hrow
                Hav Hpage Hsize) as Hrun.
  cbn zeta in Hrun. rewrite Hoffset in Hrun.
  specialize (Hrun ltac:(nia)). rewrite Hrun.
  unfold response_of, page_of. cbn [fst snd body].
  rewrite length_fmap, length_take, length_drop.
  rewrite (Permutation_length (order_by_permutation (planner e) _)).
  assert (0 ≤ (page - 1) * pageSize) by nia. lia.
Qed.

(** X16.  What was applied can be read back: after a [POST /transactions]
    answered [201], a listing of that customer with a page size above the
    number of transactions it had shows the new transaction, and
    [X-Total-Count] is one more than before. *)
Theorem accepted_transaction_is_listed (e e' : Env) (t : Transaction)
    (d : DB) (segment size_text : string) (pageSize : Z) :
  code (response_of (serve (CreateTransaction e (Some t)) d))
    = StatusCreated →
  uuid.Parse segment = Some (CustomerID t) →
  fmt.Sscanf_d size_text = Some pageSize →
  Z.of_nat (length (Store.journal (CustomerID t) d)) < pageSize →
  available e' 3 →
  let after := store_after (serve (CreateTransaction e (Some t)) d) in
  let listing :=
    response_of (serve (GetTransactions e'
                          (listing_request segment size_text)) after) in
  code listing = StatusOK
  ∧ render (journal_entry e t) ∈ page_of listing
  ∧ X_Total_Count <$> headers listing
    = Some (Z.of_nat (length (Store.journal (CustomerID t) d)) + 1).
Proof.
  intros Hcreated Hparse Hscan Hsize Hav after listing.
  destruct (CreateTransaction_effect e (Some t) d)
    as [[_ Hno]|(t' & row & Ht & _ & Hrow & _ & _ & _ & Hrun)];
    [by destruct Hno|].
  injection Ht as <-.
  assert (Hafter : after = applied e t row d) by (subst after; by rewrite Hrun).
  assert (Hexists : is_Some (customers after !! CustomerID t)).
  { rewrite Hafter. unfold applied, set_balance. cbn [customers].
    rewrite lookup_insert_eq. by eexists. }
  pose proof (GetTransactions_listing e' (listing_request segment size_text)
                after (CustomerID t) 1 pageSize Hparse Hexists Hav) as Hlist.
  cbn zeta in Hlist.
  replace (GoInt.mul (GoInt.sub 1 1) pageSize) with 0 in Hlist
    by (unfold GoInt.mul; replace (GoInt.sub 1 1) with 0 by done; done).
  specialize (Hlist ltac:(by left) ltac:(right; split; [done|lia])
                ltac:(done)).
  subst listing. rewrite Hlist. unfold response_of, page_of.
  cbn [fst snd body code headers].
  assert (Hjournal : Store.journal (CustomerID t) after
                     = Store.journal (CustomerID t) d ++ [journal_entry e t]).
  { rewrite Hafter, journal_applied. by rewrite decide_True. }
  split; [done|]. split.
  - rewrite take_ge.
    + apply list_elem_of_fmap_2. cbn.
      rewrite (order_by_permutation (planner e')), Hjournal.
      apply elem_of_app. right. by left.
    + rewrite length_drop.
      rewrite (Permutation_length (order_by_permutation _ _)), Hjournal.
      rewrite length_app. cbn. lia.
  - cbn. unfold Store.select_count. rewrite Hjournal, length_app. cbn.
    f_equal. lia.
Qed.

(** X17.  A customer just created has no transactions: in a store the
    service can reach, the listing asked right after a [POST /customers]
    answered [201] is empty, with [X-Total-Count] 0 and [X-Total-Pages] 0
    on page 1 of size 10. *)
Theorem new_customer_has_empty_listing (e e' : Env) (c : Customer) (d : DB)
    (segment : string) :
  reachable d →
  code (response_of (serve (CreateCustomer e (Some c)) d)) = StatusCreated →
  uuid.Parse segment = Some (new_uuid e) →
  available e' 3 →
  response_of (serve (route_transactions e' segment [])
                 (store_after (serve (CreateCustomer e (Some c)) d)))
  = {| code := StatusOK;
       body := TransactionsJSON [];
       headers := Some {| X_Total_Count := 0; X_Page := 1;
                          X_Page_Size := 10; X_Total_Pages := 0 |} |}.
Proof.
  intros Hreach Hcreated Hparse Hav.
  destruct (CreateCustomer_effect e (Some c) d)
    as [[_ Hno]|(c' & Hc & _ & _ & _ & Hnew & _ & Hrun)];
    [by destruct Hno|].
  injection Hc as <-. rewrite Hrun. unfold store_after. cbn [fst snd].
  assert (Hexists : is_Some (customers (opened_with e c d) !! new_uuid e)).
  { unfold opened_with. cbn [customers]. rewrite lookup_insert_eq.
    by eexists. }
  assert (Hjournal : Store.journal (new_uuid e) (opened_with e c d) = []).
  { rewrite journal_opened_with. apply journal_of_absent_customer; [|done].
    by apply reachable_journal_well_formed. }
  unfold route_transactions.
  pose proof (GetTransactions_listing e'
                {| Params := [("customer_id"%string, segment)];
                   QueryArgs := [] |}
                (opened_with e c d) (new_uuid e) 1 10 Hparse Hexists Hav
                ltac:(by left) ltac:(by left) ltac:(done)) as Hlist.
  rewrite Hlist. unfold response_of. cbn [fst]. f_equal.
  - rewrite Hjournal.
    pose proof (Permutation_length
                  (order_by_permutation (planner e') [])) as Hlen.
    destruct (order_by_created_at_desc (planner e') []); [done|].
    cbn in Hlen. lia.
  - unfold Store.select_count. by rewrite Hjournal.
Qed.

(** ** Requests one after the other *)

Lemma fresh_after_applied (e : Env) (t : Transaction) (row : CustomerRow)
    (d : DB) (id : UUID) :
  fresh_transaction_id id (applied e t row d) ↔
  fresh_transaction_id id d ∧ new_uuid e ≠ id.
Proof.
  unfold fresh_transaction_id, applied. cbn [transactions]. split.
  - intros H. split.
    + intros r Hr. apply H, elem_of_app. by left.
    + apply (H (journal_entry e t)), elem_of_app. right. by left.
  - intros [H Hne] r Hr. apply elem_of_app in Hr as [Hr|Hr]; [by apply H|].
    apply list_elem_of_singleton in Hr. by subst r.
Qed.

(** X19.  Transactions on different customers do not depend on their
    order: if one and then the other are both answered [201], so are they
    in the opposite order, and either way the balances of all customers
    and the journal of each customer come out the same. *)
Theorem transactions_on_two_customers_commute (e1 e2 : Env)
    (t1 t2 : Transaction) (d : DB) :
  CustomerID t1 ≠ CustomerID t2 →
  let first1 := serve (CreateTransaction e1 (Some t1)) d in
  let then2 := serve (CreateTransaction e2 (Some t2)) (store_after first1) in
  let first2 := serve (CreateTransaction e2 (Some t2)) d in
  let then1 := serve (CreateTransaction e1 (Some t1)) (store_after first2) in
  code (response_of first1) = StatusCreated →
  code (response_of then2) = StatusCreated →
  response_of first2 = response_of then2
  ∧ response_of then1 = response_of first1
  ∧ customers (store_after then1) = customers (store_after then2)
  ∧ ∀ id, Store.journal id (store_after then1)
          = Store.journal id (store_after then2).
Proof.
  intros Hne first1 then2 first2 then1 H1 H2.
  pose proof (CreateTransaction_created_available _ _ _ H1) as Hav1.
  pose proof (CreateTransaction_created_available _ _ _ H2) as Hav2.
  destruct (CreateTransaction_effect e1 (Some t1) d)
    as [[_ Hno]|(t & row1 & Ht & Hk1 & Hrow1 & Hd1 & Hnb1 & Hf1 & Hrun1)];
    [by destruct Hno|].
  injection Ht as <-.
  assert (Hfirst1 : store_after first1 = applied e1 t1 row1 d)
    by (subst first1; by rewrite Hrun1).
  destruct (CreateTransaction_effect e2 (Some t2) (store_after first1))
    as [[_ Hno]|(t & row2 & Ht & Hk2 & Hrow2 & Hd2 & Hnb2 & Hf2 & Hrun2)];
    [by destruct Hno|].
  injection Ht as <-.
  rewrite Hfirst1 in Hrow2, Hf2.
  apply fresh_after_applied in Hf2 as [Hf2 Hids].
  unfold applied, set_balance in Hrow2. cbn [customers] in Hrow2.
  rewrite lookup_insert_ne in Hrow2 by done.
  pose proof (CreateTransaction_accepted e2 d t2 row2 Hrow2 Hk2 Hd2 Hnb2
                Hf2 Hav2) as Hrun2'.
  assert (Hrow1' : customers (applied e2 t2 row2 d) !! CustomerID t1
                   = Some row1).
  { unfold applied, set_balance. cbn [customers].
    by rewrite lookup_insert_ne by done. }
  assert (Hf1' : fresh_transaction_id (new_uuid e1) (applied e2 t2 row2 d)).
  { apply fresh_after_applied. split; [done|congruence]. }
  pose proof (CreateTransaction_accepted e1 (applied e2 t2 row2 d) t1 row1
                Hrow1' Hk1 Hd1 Hnb1 Hf1' Hav1) as Hrun1'.
  assert (Hfirst2 : store_after first2 = applied e2 t2 row2 d)
    by (subst first2; by rewrite Hrun2').
  subst then1 then2. rewrite Hfirst2, Hrun1'.
  subst first2 first1. rewrite Hrun2', Hrun2, Hrun1.
  unfold response_of, store_after. cbn [fst snd].
  split; [done|]. split; [done|]. split.
  - unfold applied, set_balance. cbn [customers].
    by apply insert_insert_ne.
  - intros id. rewrite !journal_applied, <- !app_assoc. f_equal.
    repeat case_decide; try done. congruence.
Qed.

(** ** Opening an account *)

(** X20.  A request that passes the checks of the handler can still be
    refused by the store: when the drawn identifier is taken, the name
    holds a zero byte or has something other than blanks after its 255th
    character, or the balance does not fit [DECIMAL(15,2)], the answer is
    [500 Failed to create customer], not a [400], and no customer is
    created. *)
Theorem CreateCustomer_refused_by_the_store (e : Env) (c : Customer)
    (d : DB) :
  Name c ≠ EmptyString →
  0 ≤ opening_balance c →
  available e 1 →
  is_Some (customers d !! new_uuid e)
    ∨ Store.has_nul (Name c) = true
    ∨ Store.all_blank (Store.split_chars 255 (Name c)).2 = false
    ∨ 10 ^ 15 ≤ opening_balance c →
  serve (CreateCustomer e (Some c)) d
  = ({| code := StatusInternalServerError;
        body := ErrorResponse "Failed to create customer";
        headers := None |},
     d,
     [CallInsertCustomer (new_uuid e) (Name c) (opening_balance c)]).
Proof.
  intros Hname Hbal Hav Hwhy.
  assert (Hbind : Customer_binding c = true).
  { unfold Customer_binding. by apply negb_true_iff, String.eqb_neq. }
  unfold_handlers.
  unfold ShouldBindJSON, Store.insert_customer, Store.decimal_15_2,
    Store.varchar.
  rewrite Hbind. cbn. fold (opening_balance c).
  replace (opening_balance c <? 0) with false by lia. cbn.
  rewrite (available_at e 1 0 Hav) by lia.
  destruct (customers d !! new_uuid e) as [taken|] eqn:Htaken; cbn; [done|].
  destruct Hwhy as [[? ?]|[Hnul|[Hlong|Hbig]]]; [done| | |].
  - by rewrite Hnul.
  - destruct (Store.has_nul (Name c)); [done|].
    destruct (Store.split_chars 255 (Name c)) as [kept excess].
    cbn in Hlong. by rewrite Hlong.
  - destruct (Store.has_nul (Name c)); [done|].
    destruct (Store.split_chars 255 (Name c)) as [kept excess].
    destruct (Store.all_blank excess); [|done].
    replace (_ && _) with false; [done|].
    symmetry. rewrite !andb_false_iff. left. right. lia.
Qed.

(** ** What a listing shows *)

(** The rows of any answer of [GetTransactions]: none, or a window of
    the ordering of the journal of the customer the request names. *)
Lemma GetTransactions_rows (e : Env) (c : Context) (d : DB) :
  page_of (response_of (serve (GetTransactions e c) d)) = []
  ∨ ∃ cid limit offset,
      uuid.Parse (Param c "customer_id") = Some cid
      ∧ page_of (response_of (serve (GetTransactions e c) d))
        = render <$> take limit
            (drop offset
               (order_by_created_at_desc (planner e) (Store.journal cid d))).
Proof.
  unfold serve, response_of, GetTransactions, JSON.
  destruct (uuid.Parse _) as [cid|]; [|by left].
  unfold mbind, Handler_bind.
  destruct (pagination_arg_cases c "page" 1 "Invalid page number"
    {| committed := d; pending := None; log := [] |}) as [->|[page ->]];
    [by left|].
  destruct (pagination_arg_cases c "page_size" 10 "Invalid page size"
    {| committed := d; pending := None; log := [] |}) as [->|[pageSize ->]];
    [by left|].
  unfold db_QueryRow_exists, db_QueryRow_count, db_Query_page, store_call,
    db_read, reply, Store.select_page. cbn.
  destruct (unavailable e 0); cbn; [by left|].
  destruct (Store.select_exists cid d); cbn; [|by left].
  destruct (unavailable e 1); cbn; [by left|].
  destruct (unavailable e 2); cbn; [by left|].
  destruct (_ || _); cbn; [by left|].
  right. exists cid, (Z.to_nat pageSize),
    (Z.to_nat (GoInt.mul (GoInt.sub page 1) pageSize)).
  split; [done|]. by rewrite first_rows_take, skip_rows_drop.
Qed.

Lemma journal_rows (id : UUID) (d : DB) (r : TransactionRow) :
  r ∈ Store.journal id d ↔ r ∈ transactions d ∧ tx_customer_id r = id.
Proof.
  unfold Store.journal, Store.owned_by.
  rewrite !list_elem_of_In, List.filter_In, N.eqb_eq. done.
Qed.

Lemma journal_ids_distinct (id : UUID) (d : DB) :
  NoDup (tx_id <$> transactions d) → NoDup (tx_id <$> Store.journal id d).
Proof.
  unfold Store.journal. induction (transactions d) as [|r l IH]; [done|].
  rewrite fmap_cons, NoDup_cons. intros [Hr Hl]. cbn.
  destruct (Store.owned_by id r); [|by apply IH].
  rewrite fmap_cons. apply NoDup_cons. split; [|by apply IH].
  intros Hin. apply Hr. apply list_elem_of_fmap_1 in Hin as (r' & -> & Hr').
  apply list_elem_of_fmap_2. apply list_elem_of_In in Hr'.
  apply List.filter_In in Hr' as [Hr' _]. by apply list_elem_of_In.
Qed.

(** X21.  A listing shows nothing but the journal of the customer named
    in the path: every row of any answer is the rendering of a stored
    transaction of that customer, never of another one. *)
Theorem listing_shows_own_transactions (e : Env) (c : Context) (d : DB)
    (j : TransactionJSON) :
  j ∈ page_of (response_of (serve (GetTransactions e c) d)) →
  ∃ cid r,
    uuid.Parse (Param c "customer_id") = Some cid
    ∧ r ∈ transactions d
    ∧ tx_customer_id r = cid
    ∧ j = render r.
Proof.
  intros Hj.
  destruct (GetTransactions_rows e c d)
    as [Hnone|(cid & limit & offset & Hparse & Hrows)].
  { rewrite Hnone in Hj. by apply elem_of_nil in Hj. }
  rewrite Hrows in Hj. apply list_elem_of_fmap_1 in Hj as (r & -> & Hr).
  apply subseteq_take, subseteq_drop in Hr.
  rewrite (order_by_permutation (planner e)) in Hr.
  apply journal_rows in Hr as [Hr Hown]. by exists cid, r.
Qed.

(** X22.  In a store the service can reach, one page never shows a
    transaction twice: the transaction identifiers of the rows of any
    answer are pairwise distinct. *)
Theorem page_shows_no_transaction_twice (e : Env) (c : Context) (d : DB) :
  reachable d →
  NoDup (j_transaction_id <$>
           page_of (response_of (serve (GetTransactions e c) d))).
Proof.
  intros Hreach.
  destruct (reachable_journal_well_formed d Hreach) as [Hids _].
  destruct (GetTransactions_rows e c d)
    as [->|(cid & limit & offset & _ & ->)]; [constructor|].
  rewrite <- list_fmap_compose.
  change (j_transaction_id ∘ render) with tx_id.
  apply (sublist_NoDup _
           (tx_id <$> order_by_created_at_desc (planner e)
                        (Store.journal cid d))).
  - rewrite (order_by_permutation (planner e)).
    by apply journal_ids_distinct.
  - apply fmap_sublist. etrans; [apply sublist_take|apply sublist_drop].
Qed.

(** X23.  Pagination parameters that are absent or empty mean page 1 of
    size 10: the answer is the first ten rows of the ordering, with
    [X-Page] 1 and [X-Page-Size] 10. *)
Theorem GetTransactions_defaults (e : Env) (c : Context) (d : DB)
    (cid : UUID) :
  uuid.Parse (Param c "customer_id") = Some cid →
  is_Some (customers d !! cid) →
  available e 3 →
  Query c "page" = EmptyString →
  Query c "page_size" = EmptyString →
  page_of (response_of (serve (GetTransactions e c) d))
  = render <$> take 10 (order_by_created_at_desc (planner e)
                          (Store.journal cid d))
  ∧ X_Page <$> headers (response_of (serve (GetTransactions e c) d))
    = Some 1
  ∧ X_Page_Size <$> headers (response_of (serve (GetTransactions e c) d))
    = Some 10.
Proof.
  intros Hparse Hrow Hav Hpage Hsize.
  pose proof (GetTransactions_listing e c d cid 1 10 Hparse Hrow Hav
                ltac:(by left) ltac:(by left) ltac:(done)) as Hrun.
  rewrite Hrun. done.
Qed.

(** ** Reading a balance that is not there *)

(** X24.  [GetBalance] for an identifier that names no customer answers
    [404 Customer not found] after one plain [SELECT]; the exchange-rate
    service is not part of the answer. *)
Theorem GetBalance_unknown_customer (e : Env) (c : Context) (d : DB)
    (cid : UUID) :
  uuid.Parse (Param c "id") = Some cid →
  isValidCurrency (DefaultQuery c "currency" "USD") = true →
  customers d !! cid = None →
  available e 1 →
  serve (GetBalance e c) d
  = ({| code := StatusNotFound;
        body := ErrorResponse "Customer not found";
        headers := None |},
     d, [CallSelectBalance cid]).
Proof.
  intros Hparse Hcur Hnone Hav. unfold_handlers.
  unfold Store.select_balance. rewrite Hparse, Hcur. cbn.
  rewrite (available_at e 1 0 Hav) by lia. by rewrite Hnone.
Qed.

(** ** Requests sent twice *)

(** X25.  Nothing makes a request idempotent: a credit that is sent
    again, with a newly drawn identifier, and is answered [201] both
    times is entered in the journal both times, as two rows with
    different identifiers. *)
Theorem replayed_credit_is_entered_again (e1 e2 : Env) (d : DB)
    (t : Transaction) :
  Type_ t = "credit"%string →
  let d1 := store_after (serve (CreateTransaction e1 (Some t)) d) in
  let d2 := store_after (serve (CreateTransaction e2 (Some t)) d1) in
  code (response_of (serve (CreateTransaction e1 (Some t)) d))
    = StatusCreated →
  code (response_of (serve (CreateTransaction e2 (Some t)) d1))
    = StatusCreated →
  transactions d2
    = transactions d ++ [journal_entry e1 t; journal_entry e2 t]
  ∧ new_uuid e1 ≠ new_uuid e2.
Proof.
  intros Hty d1 d2 H1 H2.
  destruct (CreateTransaction_effect e1 (Some t) d)
    as [[_ Hno]|(t1 & row1 & Ht1 & _ & Hrow1 & _ & _ & _ & Hrun1)];
    [by destruct Hno|].
  injection Ht1 as <-.
  assert (Hd1 : d1 = applied e1 t row1 d) by (subst d1; by rewrite Hrun1).
  destruct (CreateTransaction_effect e2 (Some t) d1)
    as [[_ Hno]|(t2 & row2 & Ht2 & _ & Hrow2 & _ & _ & Hfresh & Hrun2)];
    [by destruct Hno|].
  injection Ht2 as <-.
  assert (Hd2 : d2 = applied e2 t row2 d1) by (subst d2; by rewrite Hrun2).
  rewrite Hd1 in Hfresh.
  apply fresh_after_applied in Hfresh as [_ Hids].
  rewrite Hd2, Hd1. unfold applied. cbn [transactions].
  by rewrite <- app_assoc.
Qed.

(** ** The further properties on the sample run *)

Lemma failing_at_available (k : nat) (id : UUID) (t : Time) (pl : Planner) :
  available (failing_at k id t pl) k.
Proof. intros i Hi. cbn. apply Nat.eqb_neq. lia. Qed.

Lemma opened_no_transactions (id : UUID) : fresh_transaction_id id opened.
Proof. intros r Hr. apply elem_of_nil in Hr. destruct Hr. Qed.

Lemma two_accounts_reachable : reachable two_accounts.
Proof. repeat apply reachable_step. apply reachable_empty. Qed.

Lemma CreateTransaction_unknown_customer_witness :
  serve (CreateTransaction (calm 7%N 5000000 forward_plan)
           (Some stranger_credit)) opened
  = ({| code := StatusNotFound;
        body := ErrorResponse "Customer not found";
        headers := None |},
     opened, [CallBegin; CallSelectBalanceForUpdate 9%N]).
Proof.
  apply (CreateTransaction_unknown_customer (calm 7%N 5000000 forward_plan)
           opened stranger_credit).
  - reflexivity.
  - reflexivity.
  - apply calm_available.
Defined.

Lemma CreateTransaction_store_failure_rolls_back_witness :
  code (response_of (serve (CreateTransaction
                              (failing_at 3 7%N 5000000 forward_plan)
                              (Some credit_200)) opened)) ≠ StatusCreated
  ∧ store_after (serve (CreateTransaction
                          (failing_at 3 7%N 5000000 forward_plan)
                          (Some credit_200)) opened) = opened.
Proof.
  apply (CreateTransaction_store_failure_rolls_back
           (failing_at 3 7%N 5000000 forward_plan) (Some credit_200) opened
           3%nat).
  - lia.
  - reflexivity.
Defined.

Lemma CreateTransaction_commit_failure_witness :
  serve (CreateTransaction (failing_at 4 7%N 5000000 forward_plan)
           (Some credit_200)) opened
  = ({| code := StatusInternalServerError;
        body := ErrorResponse "Failed to commit transaction";
        headers := None |},
     opened,
     [CallBegin; CallSelectBalanceForUpdate 1%N;
      CallUpdateBalance 120000 1%N;
      CallInsertTransaction 7%N 1%N "credit" 20000; CallCommit]).
Proof.
  apply (CreateTransaction_commit_failure
           (failing_at 4 7%N 5000000 forward_plan) opened credit_200 john_row).
  - reflexivity.
  - left. reflexivity.
  - cbn. lia.
  - cbn. lia.
  - vm_compute. reflexivity.
  - apply opened_no_transactions.
  - apply failing_at_available.
  - reflexivity.
Defined.

Lemma customers_are_kept_witness :
  ∃ balance,
    customers (store_after (serve (handle (calm 9%N 7000000 forward_plan)
                                     (PostTransactions (Some credit_jane)))
                              two_accounts)) !! 1%N
    = Some {| row_name := "John Doe"; row_balance := balance |}
    ∧ (balance ≠ 90000 →
       code (response_of (serve (handle (calm 9%N 7000000 forward_plan)
                                   (PostTransactions (Some credit_jane)))
                            two_accounts)) = StatusCreated
       ∧ ∃ t, PostTransactions (Some credit_jane) = PostTransactions (Some t)
              ∧ CustomerID t = 1%N).
Proof.
  apply (customers_are_kept (calm 9%N 7000000 forward_plan)
           (PostTransactions (Some credit_jane)) two_accounts 1%N
           {| row_name := "John Doe"; row_balance := 90000 |}).
  reflexivity.
Defined.

Lemma reachable_stores_are_well_formed_witness :
  journal_well_formed two_accounts ∧ customers_well_formed two_accounts.
Proof.
  apply (reachable_stores_are_well_formed two_accounts).
  apply two_accounts_reachable.
Defined.

Lemma customers_come_from_CreateCustomer_witness :
  code (response_of (serve (handle (calm 1%N 0 forward_plan)
                              (PostCustomers (Some john_doe))) empty_db))
    = StatusCreated
  ∧ ∃ c row, PostCustomers (Some john_doe) = PostCustomers (Some c)
             ∧ 1%N = new_uuid (calm 1%N 0 forward_plan)
             ∧ customers (store_after
                            (serve (handle (calm 1%N 0 forward_plan)
                                      (PostCustomers (Some john_doe)))
                               empty_db)) !! 1%N
               = Some row
             ∧ Store.varchar 255 (Name c) = Some (row_name row).
Proof.
  apply (customers_come_from_CreateCustomer (calm 1%N 0 forward_plan)
           (PostCustomers (Some john_doe)) empty_db 1%N).
  - reflexivity.
  - eexists. reflexivity.
Defined.

Lemma GetBalance_ok_is_a_conversion_witness :
  ∃ cid row converted,
    uuid.Parse john_segment = Some cid
    ∧ customers opened !! cid = Some row
    ∧ isValidCurrency "USD" = true
    ∧ ApiDecoded "success" (row_balance row) = ApiDecoded "success" converted
    ∧ serve (GetBalance (calm 0%N 0 forward_plan)
               (balance_request john_segment [])) opened
      = ({| code := StatusOK; body := BalanceJSON cid converted "USD";
            headers := None |},
         opened, [CallSelectBalance cid]).
Proof.
  apply (GetBalance_ok_is_a_conversion (calm 0%N 0 forward_plan)
           (balance_request john_segment []) opened).
  reflexivity.
Defined.

Lemma GetBalance_unsupported_currency_witness :
  serve (GetBalance (calm 0%N 0 forward_plan)
           (balance_request john_segment
              [("currency"%string, "usd"%string)])) opened
  = (refusal "Invalid currency code", opened, []).
Proof.
  apply (GetBalance_unsupported_currency (calm 0%N 0 forward_plan)
           (balance_request john_segment [("currency"%string, "usd"%string)])
           opened "usd").
  - reflexivity.
  - discriminate.
  - discriminate.
  - discriminate.
Defined.

Lemma GetTransactions_unknown_customer_witness :
  serve (GetTransactions (calm 0%N 0 forward_plan)
           (listing_request stranger_segment "10")) debited
  = ({| code := StatusNotFound;
        body := ErrorResponse "Customer not found";
        headers := None |},
     debited, [CallSelectExists 9%N]).
Proof.
  apply (GetTransactions_unknown_customer (calm 0%N 0 forward_plan)
           (listing_request stranger_segment "10") debited 9%N 1 10).
  - reflexivity.
  - left. split; reflexivity.
  - right. split; [reflexivity|lia].
  - reflexivity.
  - apply calm_available.
Defined.

Lemma GetTransactions_page_length_witness :
  Z.of_nat (length (page_of (response_of
    (serve (GetTransactions (calm 0%N 0 forward_plan)
              {| Params := [("customer_id"%string, john_segment)];
                 QueryArgs := [("page"%string, "2"%string);
                               ("page_size"%string, "1"%string)] |})
       debited))))
  = Z.min 1 (Z.max 0 (Z.of_nat (length (Store.journal 1%N debited))
                      - (2 - 1) * 1)).
Proof.
  apply (GetTransactions_page_length (calm 0%N 0 forward_plan)
           {| Params := [("customer_id"%string, john_segment)];
              QueryArgs := [("page"%string, "2"%string);
                            ("page_size"%string, "1"%string)] |}
           debited 1%N 2 1).
  - reflexivity.
  - by eexists.
  - apply calm_available.
  - right. split; [reflexivity|lia].
  - right. split; [reflexivity|lia].
  - vm_compute. discriminate.
Defined.

Lemma accepted_transaction_is_listed_witness :
  code (response_of
          (serve (GetTransactions (calm 0%N 0 backward_plan)
                    (listing_request john_segment "10")) credited))
    = StatusOK
  ∧ render (journal_entry (calm 7%N 5000000 forward_plan) credit_200)
    ∈ page_of (response_of
                 (serve (GetTransactions (calm 0%N 0 backward_plan)
                           (listing_request john_segment "10")) credited))
  ∧ X_Total_Count <$> headers (response_of
        (serve (GetTransactions (calm 0%N 0 backward_plan)
                  (listing_request john_segment "10")) credited))
    = Some (Z.of_nat (length (Store.journal 1%N opened)) + 1).
Proof.
  apply (accepted_transaction_is_listed (calm 7%N 5000000 forward_plan)
           (calm 0%N 0 backward_plan) credit_200 opened john_segment "10" 10).
  - vm_compute. reflexivity.
  - reflexivity.
  - reflexivity.
  - vm_compute. reflexivity.
  - apply calm_available.
Defined.

Lemma new_customer_has_empty_listing_witness :
  response_of (serve (route_transactions (calm 0%N 0 forward_plan)
                        jane_segment []) two_accounts)
  = {| code := StatusOK;
       body := TransactionsJSON [];
       headers := Some {| X_Total_Count := 0; X_Page := 1;
                          X_Page_Size := 10; X_Total_Pages := 0 |} |}.
Proof.
  apply (new_customer_has_empty_listing (calm 2%N 6000000 forward_plan)
           (calm 0%N 0 forward_plan) jane_roe debited jane_segment).
  - apply debited_reachable.
  - vm_compute. reflexivity.
  - reflexivity.
  - apply calm_available.
Defined.

Lemma transactions_on_two_customers_commute_witness :
  customers (store_after
    (serve (CreateTransaction (calm 11%N 8000000 forward_plan)
              (Some credit_200))
       (store_after (serve (CreateTransaction
                              (calm 12%N 9000000 forward_plan)
                              (Some credit_jane)) two_accounts))))
  = customers (store_after
      (serve (CreateTransaction (calm 12%N 9000000 forward_plan)
                (Some credit_jane))
         (store_after (serve (CreateTransaction
                                (calm 11%N 8000000 forward_plan)
                                (Some credit_200)) two_accounts)))).
Proof.
  destruct (transactions_on_two_customers_commute
              (calm 11%N 8000000 forward_plan)
              (calm 12%N 9000000 forward_plan)
              credit_200 credit_jane two_accounts)
    as (_ & _ & Hcustomers & _).
  - discriminate.
  - vm_compute. reflexivity.
  - vm_compute. reflexivity.
  - exact Hcustomers.
Defined.

Lemma CreateCustomer_refused_by_the_store_witness :
  serve (CreateCustomer (calm 1%N 6000000 forward_plan) (Some jane_roe))
    opened
  = ({| code := StatusInternalServerError;
        body := ErrorResponse "Failed to create customer";
        headers := None |},
     opened, [CallInsertCustomer 1%N "Jane Roe" 5000]).
Proof.
  apply (CreateCustomer_refused_by_the_store (calm 1%N 6000000 forward_plan)
           jane_roe opened).
  - discriminate.
  - vm_compute. discriminate.
  - apply calm_available.
  - left. eexists. reflexivity.
Defined.

Lemma listing_shows_own_transactions_witness :
  ∃ cid r,
    uuid.Parse john_segment = Some cid
    ∧ r ∈ transactions two_accounts
    ∧ tx_customer_id r = cid
    ∧ render row_7 = render r.
Proof.
  apply (listing_shows_own_transactions (calm 0%N 0 forward_plan)
           {| Params := [("customer_id"%string, john_segment)];
              QueryArgs := [] |} two_accounts (render row_7)).
  vm_compute. left.
Defined.

Lemma page_shows_no_transaction_twice_witness :
  NoDup (j_transaction_id <$>
           page_of (response_of
             (serve (GetTransactions (calm 0%N 0 backward_plan)
                       (listing_request john_segment "10")) two_accounts))).
Proof.
  apply (page_shows_no_transaction_twice (calm 0%N 0 backward_plan)
           (listing_request john_segment "10") two_accounts).
  apply two_accounts_reachable.
Defined.

Lemma GetTransactions_defaults_witness :
  page_of (response_of
    (serve (GetTransactions (calm 0%N 0 forward_plan)
              {| Params := [("customer_id"%string, john_segment)];
                 QueryArgs := [("page"%string, ""%string)] |}) debited))
  = render <$> take 10 (order_by_created_at_desc forward_plan
                          (Store.journal 1%N debited))
  ∧ X_Page <$> headers (response_of
      (serve (GetTransactions (calm 0%N 0 forward_plan)
                {| Params := [("customer_id"%string, john_segment)];
                   QueryArgs := [("page"%string, ""%string)] |}) debited))
    = Some 1
  ∧ X_Page_Size <$> headers (response_of
      (serve (GetTransactions (calm 0%N 0 forward_plan)
                {| Params := [("customer_id"%string, john_segment)];
                   QueryArgs := [("page"%string, ""%string)] |}) debited))
    = Some 10.
Proof.
  apply (GetTransactions_defaults (calm 0%N 0 forward_plan)
           {| Params := [("customer_id"%string, john_segment)];
              QueryArgs := [("page"%string, ""%string)] |} debited 1%N).
  - reflexivity.
  - by eexists.
  - apply calm_available.
  - reflexivity.
  - reflexivity.
Defined.

Lemma GetBalance_unknown_customer_witness :
  serve (GetBalance (calm 0%N 0 forward_plan)
           (balance_request stranger_segment [])) opened
  = ({| code := StatusNotFound;
        body := ErrorResponse "Customer not found";
        headers := None |},
     opened, [CallSelectBalance 9%N]).
Proof.
  apply (GetBalance_unknown_customer (calm 0%N 0 forward_plan)
           (balance_request stranger_segment []) opened 9%N).
  - reflexivity.
  - reflexivity.
  - reflexivity.
  - apply calm_available.
Defined.

Lemma replayed_credit_is_entered_again_witness :
  transactions (store_after (serve (CreateTransaction
                                      (calm 8%N 6000000 forward_plan)
                                      (Some credit_200)) credited))
    = transactions opened
        ++ [journal_entry (calm 7%N 5000000 forward_plan) credit_200;
            journal_entry (calm 8%N 6000000 forward_plan) credit_200]
  ∧ 7%N ≠ 8%N.
Proof.
  apply (replayed_credit_is_entered_again (calm 7%N 5000000 forward_plan)
           (calm 8%N 6000000 forward_plan) opened credit_200).
  - reflexivity.
  - vm_compute. reflexivity.
  - vm_compute. reflexivity.
Defined.
